(** * The rule evaluation and risk-scoring engine ([src/services/ruleEngine.js])

    A shallow embedding of the [RuleEngine] class: the rule catalog
    ([registerFramework], [registerRule]), rule selection ([filterRules],
    [groupRulesByFramework]), per-rule execution with error isolation
    ([executeRule], [executeFrameworkRules]), and the scoring functions
    ([calculateRiskScore], [calculateFrameworkRiskScore],
    [getSeverityWeight]), followed by the properties of the engine.

    Conventions of the embedding.
    - JavaScript numbers are IEEE-754 binary64 values.  Counters (array
      lengths and the [passed]/[failed]/[skipped] tallies) are integers far
      below 2^53 and are kept in [Z]; the two scores are computed through
      [Number.div], [Number.mul] and [Number.Math_round], which round to
      nearest-even with a 53-bit significand.  The sign of zero is not
      tracked, and the exponent range is not bounded (the quotients that
      occur are ratios of counters).
    - Strings are sequences of 8-bit characters, and the numbers inside a
      snapshot are integers (of magnitude below 10^21, which print in plain
      decimal).
    - A [Map] is an association list in insertion order.  An object literal
      used as a dictionary ([weights], [groups]) is modelled by its own
      properties and by the members that it inherits from
      [Object.prototype], which a lookup by name finds as well;
      [Object_entries] enumerates the own properties as JavaScript does,
      array indices first.  [Object.prototype] is the one of the language:
      no program has added to it.
    - [async] functions are awaited one after the other, so they are
      modelled as sequential computations in the monad [M], which threads
      the trace of predicate invocations and carries thrown values.
    - Calls to [logger] are not modelled. *)

From Stdlib Require Import ZArith QArith Qround Qabs Qpower Lia Lqa Bool.
From Stdlib Require Import List Permutation String Ascii.
From Stdlib Require Import Floats.SpecFloat.
Import ListNotations.

Set Warnings "-register-all".

Open Scope string_scope.
Open Scope list_scope.
Open Scope Z_scope.

(* ================================================================== *)
(** ** JavaScript numbers *)

Module Number.

(** Number of significand bits of binary64. *)
Definition prec : Z := 53.

(** Nearest integer, ties to the even neighbour. *)
Definition rne (q : Q) : Z :=
  let f := Qfloor q in
  match Qcompare (q - inject_Z f) (1 # 2) with
  | Lt => f
  | Gt => f + 1
  | Eq => if Z.even f then f else f + 1
  end.

(** The binade of a non-zero rational: [2^(mag x) <= |x| < 2^(mag x + 1)]. *)
Definition mag (x : Q) : Z :=
  let e := Z.log2 (Z.abs (Qnum x)) - Z.log2 (Zpos (Qden x)) in
  if Qle_bool (2 ^ e) (Qabs x) then e else e - 1.

(** The binary64 value nearest to a real result (ties to even). *)
Definition round (x : Q) : Q :=
  if Qeq_bool x 0 then 0%Q
  else
    let k := mag x - (prec - 1) in
    (inject_Z (rne (x / 2 ^ k)) * 2 ^ k)%Q.

Inductive number : Type :=
| Fin (q : Q)
| NaN
| Infinity (negative : bool).

Definition of_Z (z : Z) : number := Fin (inject_Z z).

Definition Qneg (q : Q) : bool := negb (Qle_bool 0 q).

(** [x / y] *)
Definition div (x y : number) : number :=
  match x, y with
  | NaN, _ | _, NaN => NaN
  | Infinity _, Infinity _ => NaN
  | Infinity s, Fin b => Infinity (xorb s (Qneg b))
  | Fin _, Infinity _ => Fin 0
  | Fin a, Fin b =>
      if Qeq_bool b 0
      then (if Qeq_bool a 0 then NaN else Infinity (Qneg a))
      else Fin (round (a / b))
  end.

(** [x * y] *)
Definition mul (x y : number) : number :=
  match x, y with
  | NaN, _ | _, NaN => NaN
  | Infinity s, Infinity t => Infinity (xorb s t)
  | Infinity s, Fin b => if Qeq_bool b 0 then NaN else Infinity (xorb s (Qneg b))
  | Fin a, Infinity t => if Qeq_bool a 0 then NaN else Infinity (xorb (Qneg a) t)
  | Fin a, Fin b => Fin (round (a * b))
  end.

(** [Math.round(x)]: the nearest integer, ties towards +Infinity. *)
Definition Math_round (x : number) : number :=
  match x with
  | Fin q => of_Z (Qfloor (q + (1 # 2)))
  | other => other
  end.

(** [Math.round((a / b) * 100)] on two counters. *)
Definition percentage (a b : Z) : number :=
  Math_round (mul (div (of_Z a) (of_Z b)) (of_Z 100)).

(** [x <= y] between two numbers ([NaN] compares false with everything). *)
Definition leq (x y : number) : Prop :=
  match x, y with
  | Fin a, Fin b => (a <= b)%Q
  | Infinity true, (Fin _ | Infinity _) => True
  | (Fin _ | Infinity _), Infinity false => True
  | _, _ => False
  end.

(** Whether two numbers are the same value. *)
Definition same_value (x y : number) : bool :=
  match x, y with
  | Fin a, Fin b => Qeq_bool a b
  | NaN, NaN => true
  | Infinity s, Infinity t => Bool.eqb s t
  | _, _ => false
  end.

(** The binary64 operations of the Standard Library's [SpecFloat], used
    to cross-check [round] on concrete quotients. *)
Definition Z2SF (z : Z) : spec_float := binary_normalize 53 1024 z 0 false.

Definition SF2number (f : spec_float) : number :=
  match f with
  | S754_zero _ => Fin 0
  | S754_infinity s => Infinity s
  | S754_nan => NaN
  | S754_finite s m e =>
      Fin (inject_Z (if s then Zneg m else Zpos m) * 2 ^ e)
  end.

Definition SF_percentage (a b : Z) : number :=
  Math_round
    (SF2number (SFmul 53 1024 (SFdiv 53 1024 (Z2SF a) (Z2SF b)) (Z2SF 100))).

(** Whether [percentage a b] is what [SpecFloat] computes, for every
    [0 <= a <= b] with [1 <= b <= n]. *)
Definition agrees_with_SpecFloat (n : nat) : bool :=
  forallb
    (fun b =>
       forallb
         (fun a =>
            same_value (percentage (Z.of_nat a) (Z.of_nat b))
              (SF_percentage (Z.of_nat a) (Z.of_nat b)))
         (seq 0 (S b)))
    (seq 1 n).

End Number.

Import Number.

(* ================================================================== *)
(** ** JSON-like values: the snapshot and the free-form result fields *)

Inductive value : Type :=
| VUndefined
| VNull
| VBool (b : bool)
| VNum (n : Z)
| VStr (s : string)
| VArr (items : list value)
| VObj (props : list (string * value)).

Definition nullish (v : value) : bool :=
  match v with
  | VUndefined | VNull => true
  | _ => false
  end.

(** [!!v] *)
Definition truthy (v : value) : bool :=
  match v with
  | VUndefined | VNull => false
  | VBool b => b
  | VNum n => negb (n =? 0)
  | VStr s => negb (String.eqb s "")
  | VArr _ | VObj _ => true
  end.

(** Own-property lookup in an object literal ([o[k]], [undefined] as [None]). *)
Fixpoint Obj_get {V : Type} (o : list (string * V)) (k : string) : option V :=
  match o with
  | [] => None
  | (k', v) :: o' => if String.eqb k' k then Some v else Obj_get o' k
  end.

(** The names of the properties of [Object.prototype], which every object
    literal inherits: eleven functions and the accessor [__proto__], whose
    value is [Object.prototype] itself. *)
Definition Object_prototype : list string :=
  ["constructor"; "__defineGetter__"; "__defineSetter__"; "hasOwnProperty";
   "__lookupGetter__"; "__lookupSetter__"; "isPrototypeOf";
   "propertyIsEnumerable"; "toString"; "valueOf"; "__proto__";
   "toLocaleString"].

Definition inherited (k : string) : bool :=
  existsb (String.eqb k) Object_prototype.

(** [o[k]] on an object literal: an own property, else the member of
    [Object.prototype] of that name (a function or an object, hence truthy
    and no array), else [undefined]. *)
Inductive property (V : Type) : Type :=
| Own (v : V)
| Inherited
| Undefined.
Arguments Own {V} v.
Arguments Inherited {V}.
Arguments Undefined {V}.

Definition Obj_lookup {V : Type} (o : list (string * V)) (k : string)
  : property V :=
  match Obj_get o k with
  | Some v => Own v
  | None => if inherited k then Inherited else Undefined
  end.

(** [v.k] on a value that is not null or undefined, for a [k] that names no
    member of [Object.prototype]. *)
Definition get_prop (v : value) (k : string) : value :=
  match v with
  | VObj props => match Obj_get props k with Some x => x | None => VUndefined end
  | _ => VUndefined
  end.

(** Decimal numerals, as [String(n)] prints an integer. *)
Fixpoint digits (fuel : nat) (n : Z) (acc : string) : string :=
  match fuel with
  | O => acc
  | S fuel' =>
      let acc' := String (ascii_of_nat (48 + Z.to_nat (n mod 10))) acc in
      if n / 10 =? 0 then acc' else digits fuel' (n / 10) acc'
  end.

Definition String_of_Z (n : Z) : string :=
  if n <? 0 then ("-" ++ digits (S (Z.to_nat (Z.log2 (- n)))) (- n) "")%string
  else digits (S (Z.to_nat (Z.log2 n))) n "".

(** The value of a string of decimal digits. *)
Fixpoint parse_digits (s : string) (acc : Z) : option Z :=
  match s with
  | EmptyString => Some acc
  | String c s' =>
      let n := Z.of_nat (nat_of_ascii c) in
      if (48 <=? n) && (n <=? 57)
      then parse_digits s' (10 * acc + (n - 48))
      else None
  end.

(** The array index that a property name denotes, if it does: a decimal
    numeral in canonical form, below 2^32 - 1. *)
Definition array_index (k : string) : option Z :=
  match k with
  | EmptyString => None
  | _ =>
      match parse_digits k 0 with
      | Some n =>
          if String.eqb (String_of_Z n) k && (n <? 2 ^ 32 - 1)
          then Some n
          else None
      | None => None
      end
  end.

Fixpoint insert_by_index {V : Type} (x : Z * (string * V))
  (l : list (Z * (string * V))) : list (Z * (string * V)) :=
  match l with
  | [] => [x]
  | y :: l' =>
      if fst x <? fst y then x :: y :: l' else y :: insert_by_index x l'
  end.

(** [Object.entries(o)]: the properties named by an array index come
    first, in ascending order, then the others as they were created. *)
Definition Object_entries {V : Type} (o : list (string * V))
  : list (string * V) :=
  map snd
    (fold_right insert_by_index []
       (flat_map
          (fun e => match array_index (fst e) with
                    | Some i => [(i, e)]
                    | None => []
                    end) o))
  ++ filter
       (fun e => match array_index (fst e) with
                 | Some _ => false
                 | None => true
                 end) o.

(** The indices ["0"], ..., ["n-1"] of an array or string of length [n]. *)
Definition indices (n : nat) : list string :=
  map (fun i => String_of_Z (Z.of_nat i)) (seq 0 n).

Definition hex_digit (n : nat) : ascii :=
  ascii_of_nat (if Nat.ltb n 10 then 48 + n else 87 + n).

Definition dquote : string := String (ascii_of_nat 34) "".

(** [JSON.stringify] of a string: quoted, with the mandatory escapes. *)
Fixpoint quote_chars (s : string) : string :=
  match s with
  | EmptyString => EmptyString
  | String c s' =>
      let n := nat_of_ascii c in
      let esc :=
        if Nat.eqb n 34 then ("\" ++ dquote)%string
        else if Nat.eqb n 92 then "\\"
        else if Nat.eqb n 8 then "\b"
        else if Nat.eqb n 9 then "\t"
        else if Nat.eqb n 10 then "\n"
        else if Nat.eqb n 12 then "\f"
        else if Nat.eqb n 13 then "\r"
        else if Nat.ltb n 32
             then String.append "\u00"
                    (String (hex_digit (Nat.div n 16))
                       (String (hex_digit (Nat.modulo n 16)) ""))
             else String c ""
      in (esc ++ quote_chars s')%string
  end.

Definition quote (s : string) : string :=
  (dquote ++ quote_chars s ++ dquote)%string.

(** [JSON.stringify(v)]; [None] is [undefined]. *)
Fixpoint JSON_stringify (v : value) : option string :=
  match v with
  | VUndefined => None
  | VNull => Some "null"
  | VBool b => Some (if b then "true" else "false")
  | VNum n => Some (String_of_Z n)
  | VStr s => Some (quote s)
  | VArr items =>
      Some ("[" ++
            String.concat ","
              (map (fun x => match JSON_stringify x with
                             | Some s => s
                             | None => "null"
                             end) items) ++ "]")%string
  | VObj props =>
      Some ("{" ++
            String.concat ","
              (flat_map (fun p => match snd p with
                                  | Some s => [(quote (fst p) ++ ":" ++ s)%string]
                                  | None => []
                                  end)
                 (Object_entries
                    (map (fun p => (fst p, JSON_stringify (snd p))) props)))
            ++ "}")%string
  end.

(* ================================================================== *)
(** ** Data model *)

Module Framework.
Record t : Type := {
  code : string;
  name : string;
  version : string;
  description : string
}.
End Framework.

(** What a predicate hands back: [{passed, message, details?, findings?,
    evidence?}].  [passed] is the truthiness of the property; an absent
    property is [None] or [VUndefined]. *)
Module Evaluation.
Record t : Type := {
  passed : bool;
  message : option string;
  details : value;
  findings : option (list string);
  evidence : value
}.
End Evaluation.

(** A value that was thrown, or with which a promise was rejected:
    [undefined] or [null], an object with a [message], or anything else. *)
Inductive thrown : Type :=
| ThrownNullish
| ThrownError (message : string)
| ThrownOther.

(** How the awaited call of a predicate ends: the promise is fulfilled
    with an evaluation ([None] when with [undefined] or [null]), or the
    call throws or the promise is rejected.  A call that never settles is
    not modelled. *)
Inductive completion : Type :=
| Resolves (evaluation : option Evaluation.t)
| Rejects (reason : thrown).

Module Rule.
Record t : Type := {
  code : string;
  framework : string;
  title : string;
  description : string;
  category : string;
  severity : option string;
  remediation : option string;
  evaluate : value -> completion
}.
End Rule.

Inductive status : Type := PASS | FAIL | SKIP | ERROR.

Definition status_eqb (a b : status) : bool :=
  match a, b with
  | PASS, PASS | FAIL, FAIL | SKIP, SKIP | ERROR, ERROR => true
  | _, _ => false
  end.

Module RuleOutcome.
Record t : Type := {
  rule_code : string;
  rule_title : string;
  status : status;
  message : option string;
  details : option value;
  findings : option (list string);
  evidence : option value;
  severity : option string;
  category : string;
  remediation : option string
}.
End RuleOutcome.

Module FrameworkResult.
Record t : Type := {
  framework : string;
  framework_code : string;
  version : string;
  total : Z;
  passed : Z;
  failed : Z;
  skipped : Z;
  compliance_percentage : number;
  risk_score : number;
  rule_results : list RuleOutcome.t
}.
End FrameworkResult.

Module InputSummary.
Record t : Type := {
  data_sources : list string;
  total_size : Z;
  has_system_info : bool;
  has_security_config : bool;
  has_services : bool;
  has_network : bool
}.
End InputSummary.

Module EvaluationResult.
Record t : Type := {
  session_id : string;
  timestamp : Z;
  input_data_summary : InputSummary.t;
  frameworks_tested : list string;
  total_rules : Z;
  passed_rules : Z;
  failed_rules : Z;
  skipped_rules : Z;
  execution_time_ms : Z;
  overall_risk_score : number;
  framework_results : list (string * FrameworkResult.t);
  detailed_results : list RuleOutcome.t
}.
End EvaluationResult.

(** The [options] argument of [executeCompliance]; [None] is [null] or an
    absent property. *)
Module Options.
Record t : Type := {
  frameworks : option (list string);
  categories : option (list string);
  severity : option (list string)
}.
Definition empty : t :=
  {| frameworks := None; categories := None; severity := None |}.
End Options.

(** What the clock and the random generator answer during one call. *)
Module Env.
Record t : Type := {
  startTime : Z;
  startTime36 : string;
  random36 : string;
  now : Z;
  endTime : Z
}.
End Env.

(* ================================================================== *)
(** ** [Map]: insertion-ordered, one entry per key *)

Section Map.
Context {V : Type}.

Definition Map := list (string * V).

Fixpoint Map_get (m : Map) (k : string) : option V :=
  match m with
  | [] => None
  | (k', v) :: m' => if String.eqb k' k then Some v else Map_get m' k
  end.

Definition Map_has (m : Map) (k : string) : bool :=
  match Map_get m k with Some _ => true | None => false end.

(** [m.set(k, v)]: an existing key keeps its position. *)
Fixpoint Map_set (m : Map) (k : string) (v : V) : Map :=
  match m with
  | [] => [(k, v)]
  | (k', v') :: m' =>
      if String.eqb k' k then (k, v) :: m' else (k', v') :: Map_set m' k v
  end.

Definition Map_values (m : Map) : list V := map snd m.
Definition Map_keys (m : Map) : list string := map fst m.
End Map.

Arguments Map V : clear implicits.

(** The engine's two registries. *)
Module RuleEngine.
Record t : Type := {
  rules : Map Rule.t;
  frameworks : Map Framework.t
}.
End RuleEngine.

(** [new RuleEngine()] *)
Definition constructor : RuleEngine.t :=
  {| RuleEngine.rules := []; RuleEngine.frameworks := [] |}.

(* ================================================================== *)
(** ** Computations: a trace of predicate calls, and thrown values *)

Definition trace : Type := list (Rule.t * value).

Inductive result (A : Type) : Type :=
| Ok (a : A)
| Throw (e : thrown).
Arguments Ok {A} a.
Arguments Throw {A} e.

Definition M (A : Type) : Type := trace -> result A * trace.

Definition ret {A} (a : A) : M A := fun tr => (Ok a, tr).

Definition throw {A} (e : thrown) : M A := fun tr => (Throw e, tr).

Definition bind {A B} (m : M A) (k : A -> M B) : M B :=
  fun tr =>
    match m tr with
    | (Ok a, tr') => k a tr'
    | (Throw e, tr') => (Throw e, tr')
    end.

(** [try { m } catch (error) { handler }] *)
Definition try_catch {A} (m : M A) (handler : thrown -> M A) : M A :=
  fun tr =>
    match m tr with
    | (Ok a, tr') => (Ok a, tr')
    | (Throw e, tr') => handler e tr'
    end.

Declare Scope js_scope.
Delimit Scope js_scope with js.
Notation "x <- m ;; k" := (bind m (fun x => k))
  (at level 61, m at next level, right associativity) : js_scope.
Open Scope js_scope.

(** [for (const x of xs) { s = body(s, x) }] *)
Fixpoint for_of {A S : Type} (xs : list A) (body : S -> A -> M S) (s : S) : M S :=
  match xs with
  | [] => ret s
  | x :: xs' => s' <- body s x ;; for_of xs' body s'
  end.

(** [xs.reduce(callback, initial)] with a callback that may throw. *)
Fixpoint reduce {A S : Type} (xs : list A) (callback : S -> A -> result S)
  (initial : S) : result S :=
  match xs with
  | [] => Ok initial
  | x :: xs' =>
      match callback initial x with
      | Ok accumulator => reduce xs' callback accumulator
      | Throw error => Throw error
      end
  end.

(** A call that invokes no predicate, inside a computation. *)
Definition lift {A} (r : result A) : M A := fun tr => (r, tr).

(** [await rule.evaluate(inputData)]: the call is recorded in the trace. *)
Definition call_evaluate (rule : Rule.t) (inputData : value)
  : M (option Evaluation.t) :=
  fun tr =>
    match Rule.evaluate rule inputData with
    | Resolves e => (Ok e, tr ++ [(rule, inputData)])
    | Rejects x => (Throw x, tr ++ [(rule, inputData)])
    end.

(** [x.p] for an [x] that may be [null] or [undefined]: reading the
    property then throws a [TypeError] (with the text that V8 gives it for
    [undefined]). *)
Definition deref {A} (x : option A) (p : string) : M A :=
  match x with
  | Some a => ret a
  | None =>
      throw (ThrownError
               ("Cannot read properties of undefined (reading '" ++ p ++ "')"))
  end.

(** [error.message]: a [TypeError] when [error] is [undefined] or [null],
    [undefined] when [error] has no such property. *)
Definition error_message (error : thrown) : M (option string) :=
  match error with
  | ThrownNullish =>
      throw (ThrownError
               "Cannot read properties of undefined (reading 'message')")
  | ThrownError m => ret (Some m)
  | ThrownOther => ret None
  end.

(** A value inside a template literal. *)
Definition interpolate (s : option string) : string :=
  match s with
  | Some s => s
  | None => "undefined"
  end.

(* ================================================================== *)
(** ** The rule catalog *)

(** [registerFramework(framework)] *)
Definition registerFramework (this : RuleEngine.t) (framework : Framework.t)
  : RuleEngine.t :=
  {| RuleEngine.rules := RuleEngine.rules this;
     RuleEngine.frameworks :=
       Map_set (RuleEngine.frameworks this) (Framework.code framework) framework |}.

(** The composite key [`${rule.framework}:${rule.code}`]. *)
Definition ruleKey (rule : Rule.t) : string :=
  (Rule.framework rule ++ ":" ++ Rule.code rule)%string.

(** [registerRule(rule)]: the completion of the call and the engine after it. *)
Definition registerRule (this : RuleEngine.t) (rule : Rule.t)
  : result unit * RuleEngine.t :=
  if negb (Map_has (RuleEngine.frameworks this) (Rule.framework rule))
  then (Throw (ThrownError
                 ("Framework " ++ Rule.framework rule ++ " not registered")),
        this)
  else (Ok tt,
        {| RuleEngine.rules := Map_set (RuleEngine.rules this) (ruleKey rule) rule;
           RuleEngine.frameworks := RuleEngine.frameworks this |}).

(** [getFrameworks()] *)
Definition getFrameworks (this : RuleEngine.t) : list Framework.t :=
  Map_values (RuleEngine.frameworks this).

(** [getRules(frameworkCode = null)] *)
Definition getRules (this : RuleEngine.t) (frameworkCode : option string)
  : list Rule.t :=
  match frameworkCode with
  | Some c =>
      if String.eqb c "" then Map_values (RuleEngine.rules this)
      else filter (fun rule => String.eqb (Rule.framework rule) c)
             (Map_values (RuleEngine.rules this))
  | None => Map_values (RuleEngine.rules this)
  end.

(** The engines that calls of the two registration methods can build. *)
Inductive reachable : RuleEngine.t -> Prop :=
| reachable_new : reachable constructor
| reachable_framework this framework :
    reachable this -> reachable (registerFramework this framework)
| reachable_rule this rule :
    reachable this -> reachable (snd (registerRule this rule)).

(* ================================================================== *)
(** ** Selection and grouping *)

(** [xs.includes(x)] on an array of strings. *)
Definition includes (xs : list string) (x : string) : bool :=
  existsb (String.eqb x) xs.

(** [xs.includes(x)] where [x] may be [undefined]. *)
Definition includes_opt (xs : list string) (x : option string) : bool :=
  match x with
  | Some s => includes xs s
  | None => false
  end.

(** [xs && xs.length > 0] *)
Definition given (xs : option (list string)) : option (list string) :=
  match xs with
  | Some (x :: l) => Some (x :: l)
  | _ => None
  end.

(** [filterRules(frameworks, categories, severity)] *)
Definition filterRules (this : RuleEngine.t)
  (frameworks categories severity : option (list string)) : list Rule.t :=
  let filteredRules := Map_values (RuleEngine.rules this) in
  let filteredRules :=
    match given frameworks with
    | Some fs => filter (fun rule => includes fs (Rule.framework rule)) filteredRules
    | None => filteredRules
    end in
  let filteredRules :=
    match given categories with
    | Some cs => filter (fun rule => includes cs (Rule.category rule)) filteredRules
    | None => filteredRules
    end in
  let filteredRules :=
    match given severity with
    | Some ss => filter (fun rule => includes_opt ss (Rule.severity rule)) filteredRules
    | None => filteredRules
    end in
  filteredRules.

(** The callback of the [reduce] in [groupRulesByFramework].  An array and
    an inherited member are both truthy, so [groups[rule.framework] = []]
    runs only when the lookup finds nothing; [push] is then called on what
    the lookup finds, and an inherited member has no [push]. *)
Definition push_rule (groups : Map (list Rule.t)) (rule : Rule.t)
  : result (Map (list Rule.t)) :=
  let groups :=
    match Obj_lookup groups (Rule.framework rule) with
    | Undefined => Map_set groups (Rule.framework rule) []
    | Own _ | Inherited => groups
    end in
  match Obj_lookup groups (Rule.framework rule) with
  | Own g => Ok (Map_set groups (Rule.framework rule) (g ++ [rule]))
  | Inherited =>
      Throw (ThrownError "groups[rule.framework].push is not a function")
  | Undefined =>
      Throw (ThrownError "Cannot read properties of undefined (reading 'push')")
  end.

(** [groupRulesByFramework(rules)] *)
Definition groupRulesByFramework (rules : list Rule.t)
  : result (Map (list Rule.t)) :=
  reduce rules push_rule [].

(* ================================================================== *)
(** ** Scoring *)

Definition weights : list (string * Z) :=
  [("low", 1); ("medium", 2); ("high", 3); ("critical", 4)].

(** What [table[key] || default] gives on a table of the program: a value
    of the table or the default, or else the member of [Object.prototype]
    that the key names, which is truthy. *)
Inductive looked_up (V : Type) : Type :=
| Plain (v : V)
| Member.
Arguments Plain {V} v.
Arguments Member {V}.

(** [getSeverityWeight(severity)]: [weights[severity] || 1] *)
Definition getSeverityWeight (severity : option string) : looked_up Z :=
  match severity with
  | Some s =>
      match Obj_lookup weights s with
      | Own w => if w =? 0 then Plain 1 else Plain w
      | Inherited => Member
      | Undefined => Plain 1
      end
  | None => Plain 1
  end.

(** The value of [weightedFailures] and of [totalWeight]: a number, until
    [+=] adds a member of [Object.prototype] to it.  That leaves a string,
    the digits of the sum followed by the text of the member, which a
    further [+=] only makes longer; such a string is no numeral, and its
    conversion to a number is [NaN]. *)
Inductive sum : Type :=
| Sum (n : Z)
| Text.

(** [sum += weight] *)
Definition add (s : sum) (weight : looked_up Z) : sum :=
  match s, weight with
  | Sum n, Plain w => Sum (n + w)
  | _, _ => Text
  end.

(** [calculateRiskScore(results)] *)
Definition calculateRiskScore (results : EvaluationResult.t) : number :=
  if EvaluationResult.total_rules results =? 0 then of_Z 0
  else
    let effectiveTotal :=
      EvaluationResult.total_rules results - EvaluationResult.skipped_rules results in
    if effectiveTotal =? 0 then of_Z 0
    else
      let failureRate :=
        div (of_Z (EvaluationResult.failed_rules results)) (of_Z effectiveTotal) in
      Math_round (mul failureRate (of_Z 100)).

(** The body of the [forEach] in [calculateFrameworkRiskScore], on the
    pair [(weightedFailures, totalWeight)]. *)
Definition accumulate (acc : sum * sum) (result : RuleOutcome.t) : sum * sum :=
  let '(weightedFailures, totalWeight) := acc in
  if negb (status_eqb (RuleOutcome.status result) SKIP)
  then
    let weight := getSeverityWeight (RuleOutcome.severity result) in
    let totalWeight := add totalWeight weight in
    if status_eqb (RuleOutcome.status result) FAIL
    then (add weightedFailures weight, totalWeight)
    else (weightedFailures, totalWeight)
  else (weightedFailures, totalWeight).

(** [totalWeight > 0 ? Math.round((weightedFailures / totalWeight) * 100) : 0]:
    a string that is no numeral compares false with 0, and divided by a
    number it gives [NaN]. *)
Definition weighted_percentage (weightedFailures totalWeight : sum) : number :=
  match totalWeight with
  | Sum t =>
      if t >? 0
      then match weightedFailures with
           | Sum w => Math_round (mul (div (of_Z w) (of_Z t)) (of_Z 100))
           | Text => NaN
           end
      else of_Z 0
  | Text => of_Z 0
  end.

(** [calculateFrameworkRiskScore(frameworkResult)] *)
Definition calculateFrameworkRiskScore (frameworkResult : FrameworkResult.t)
  : number :=
  let effectiveTotal :=
    FrameworkResult.total frameworkResult - FrameworkResult.skipped frameworkResult in
  if effectiveTotal =? 0 then of_Z 0
  else
    let '(weightedFailures, totalWeight) :=
      fold_left accumulate (FrameworkResult.rule_results frameworkResult)
        (Sum 0, Sum 0) in
    weighted_percentage weightedFailures totalWeight.

(* ================================================================== *)
(** ** Execution *)

(** [v || {}] and [v || []] on the optional fields of an evaluation. *)
Definition or_empty_object (v : value) : value :=
  if truthy v then v else VObj [].

Definition or_empty_array (l : option (list string)) : list string :=
  match l with
  | Some l => l
  | None => []
  end.

(** [rule.remediation || 'No remediation provided'] *)
Definition remediation_text (rule : Rule.t) : string :=
  match Rule.remediation rule with
  | Some s => if String.eqb s "" then "No remediation provided" else s
  | None => "No remediation provided"
  end.

(** [executeRule(rule, inputData)] *)
Definition executeRule (rule : Rule.t) (inputData : value) : M RuleOutcome.t :=
  try_catch
    (evaluation <- call_evaluate rule inputData ;;
     evaluation <- deref evaluation "passed" ;;
     ret {| RuleOutcome.rule_code := Rule.code rule;
            RuleOutcome.rule_title := Rule.title rule;
            RuleOutcome.status :=
              if Evaluation.passed evaluation then PASS else FAIL;
            RuleOutcome.message := Evaluation.message evaluation;
            RuleOutcome.details :=
              Some (or_empty_object (Evaluation.details evaluation));
            RuleOutcome.findings :=
              if Evaluation.passed evaluation then None
              else Some (or_empty_array (Evaluation.findings evaluation));
            RuleOutcome.evidence :=
              if Evaluation.passed evaluation then None
              else Some (or_empty_object (Evaluation.evidence evaluation));
            RuleOutcome.severity := Rule.severity rule;
            RuleOutcome.category := Rule.category rule;
            RuleOutcome.remediation := Some (remediation_text rule) |})
    (fun error =>
       message <- error_message error ;;
       ret {| RuleOutcome.rule_code := Rule.code rule;
              RuleOutcome.rule_title := Rule.title rule;
              RuleOutcome.status := ERROR;
              RuleOutcome.message :=
                Some ("Rule evaluation error: " ++ interpolate message)%string;
              RuleOutcome.details := Some (VObj []);
              RuleOutcome.findings := None;
              RuleOutcome.evidence := None;
              RuleOutcome.severity := Rule.severity rule;
              RuleOutcome.category := Rule.category rule;
              RuleOutcome.remediation := Some (remediation_text rule) |}).

(** The counters and the outcome list that the loop of
    [executeFrameworkRules] updates. *)
Module Tally.
Record t : Type := {
  passed : Z;
  failed : Z;
  skipped : Z;
  rule_results : list RuleOutcome.t
}.
Definition zero : t :=
  {| passed := 0; failed := 0; skipped := 0; rule_results := [] |}.
End Tally.

(** One iteration of the loop of [executeFrameworkRules]. *)
Definition executeFrameworkRule (inputData : value) (result : Tally.t)
  (rule : Rule.t) : M Tally.t :=
  try_catch
    (ruleResult <- executeRule rule inputData ;;
     let rule_results := Tally.rule_results result ++ [ruleResult] in
     ret match RuleOutcome.status ruleResult with
         | PASS =>
             {| Tally.passed := Tally.passed result + 1;
                Tally.failed := Tally.failed result;
                Tally.skipped := Tally.skipped result;
                Tally.rule_results := rule_results |}
         | FAIL =>
             {| Tally.passed := Tally.passed result;
                Tally.failed := Tally.failed result + 1;
                Tally.skipped := Tally.skipped result;
                Tally.rule_results := rule_results |}
         | SKIP =>
             {| Tally.passed := Tally.passed result;
                Tally.failed := Tally.failed result;
                Tally.skipped := Tally.skipped result + 1;
                Tally.rule_results := rule_results |}
         | ERROR =>
             {| Tally.passed := Tally.passed result;
                Tally.failed := Tally.failed result;
                Tally.skipped := Tally.skipped result;
                Tally.rule_results := rule_results |}
         end)
    (fun error =>
       message <- error_message error ;;
       ret {| Tally.passed := Tally.passed result;
              Tally.failed := Tally.failed result + 1;
              Tally.skipped := Tally.skipped result;
              Tally.rule_results :=
                Tally.rule_results result ++
                [{| RuleOutcome.rule_code := Rule.code rule;
                    RuleOutcome.rule_title := Rule.title rule;
                    RuleOutcome.status := ERROR;
                    RuleOutcome.message :=
                      Some ("Execution error: " ++ interpolate message)%string;
                    RuleOutcome.details := None;
                    RuleOutcome.findings := None;
                    RuleOutcome.evidence := None;
                    RuleOutcome.severity := Rule.severity rule;
                    RuleOutcome.category := Rule.category rule;
                    RuleOutcome.remediation := None |}] |}).

(** [executeFrameworkRules(frameworkCode, rules, inputData)] *)
Definition executeFrameworkRules (this : RuleEngine.t) (frameworkCode : string)
  (rules : list Rule.t) (inputData : value) : M FrameworkResult.t :=
  framework <- deref (Map_get (RuleEngine.frameworks this) frameworkCode) "name" ;;
  result <- for_of rules (executeFrameworkRule inputData) Tally.zero ;;
  let total := Z.of_nat (List.length rules) in
  let compliance_percentage :=
    if total >? 0
    then Math_round
           (mul (div (of_Z (Tally.passed result))
                     (of_Z (total - Tally.skipped result)))
                (of_Z 100))
    else of_Z 0 in
  let result :=
    {| FrameworkResult.framework := Framework.name framework;
       FrameworkResult.framework_code := frameworkCode;
       FrameworkResult.version := Framework.version framework;
       FrameworkResult.total := total;
       FrameworkResult.passed := Tally.passed result;
       FrameworkResult.failed := Tally.failed result;
       FrameworkResult.skipped := Tally.skipped result;
       FrameworkResult.compliance_percentage := compliance_percentage;
       FrameworkResult.risk_score := of_Z 0;
       FrameworkResult.rule_results := Tally.rule_results result |} in
  ret {| FrameworkResult.framework := FrameworkResult.framework result;
         FrameworkResult.framework_code := FrameworkResult.framework_code result;
         FrameworkResult.version := FrameworkResult.version result;
         FrameworkResult.total := FrameworkResult.total result;
         FrameworkResult.passed := FrameworkResult.passed result;
         FrameworkResult.failed := FrameworkResult.failed result;
         FrameworkResult.skipped := FrameworkResult.skipped result;
         FrameworkResult.compliance_percentage :=
           FrameworkResult.compliance_percentage result;
         FrameworkResult.risk_score := calculateFrameworkRiskScore result;
         FrameworkResult.rule_results := FrameworkResult.rule_results result |}.

(** [Object.keys(inputData)] *)
Definition Object_keys (v : value) : M (list string) :=
  match v with
  | VUndefined | VNull =>
      throw (ThrownError "Cannot convert undefined or null to object")
  | VObj props => ret (map fst (Object_entries props))
  | VArr items => ret (indices (List.length items))
  | VStr s => ret (indices (String.length s))
  | VBool _ | VNum _ => ret []
  end.

(** [summarizeInputData(inputData)] *)
Definition summarizeInputData (inputData : value) : M InputSummary.t :=
  data_sources <- Object_keys inputData ;;
  json <- deref (JSON_stringify inputData) "length" ;;
  ret {| InputSummary.data_sources := data_sources;
         InputSummary.total_size := Z.of_nat (String.length json);
         InputSummary.has_system_info := truthy (get_prop inputData "system_info");
         InputSummary.has_security_config :=
           truthy (get_prop inputData "security_config");
         InputSummary.has_services := truthy (get_prop inputData "services");
         InputSummary.has_network := truthy (get_prop inputData "network") |}.

(** [generateSessionId()] *)
Definition generateSessionId (env : Env.t) : string :=
  ("session_" ++ Env.startTime36 env ++ "_" ++ Env.random36 env)%string.

(** The fields of [results] that the loop of [executeCompliance] updates. *)
Module Totals.
Record t : Type := {
  passed_rules : Z;
  failed_rules : Z;
  skipped_rules : Z;
  framework_results : list (string * FrameworkResult.t);
  detailed_results : list RuleOutcome.t
}.
Definition zero : t :=
  {| passed_rules := 0; failed_rules := 0; skipped_rules := 0;
     framework_results := []; detailed_results := [] |}.
End Totals.

(** One iteration of the loop of [executeCompliance]. *)
Definition executeFramework (this : RuleEngine.t) (inputData : value)
  (results : Totals.t) (entry : string * list Rule.t) : M Totals.t :=
  let '(frameworkCode, frameworkRules) := entry in
  frameworkResult <- executeFrameworkRules this frameworkCode frameworkRules inputData ;;
  ret {| Totals.passed_rules :=
           Totals.passed_rules results + FrameworkResult.passed frameworkResult;
         Totals.failed_rules :=
           Totals.failed_rules results + FrameworkResult.failed frameworkResult;
         Totals.skipped_rules :=
           Totals.skipped_rules results + FrameworkResult.skipped frameworkResult;
         Totals.framework_results :=
           Map_set (Totals.framework_results results) frameworkCode frameworkResult;
         Totals.detailed_results :=
           Totals.detailed_results results ++
           FrameworkResult.rule_results frameworkResult |}.

(** [executeCompliance(inputData, options = {})] *)
Definition executeCompliance (env : Env.t) (this : RuleEngine.t)
  (inputData : value) (options : Options.t) : M EvaluationResult.t :=
  input_data_summary <- summarizeInputData inputData ;;
  try_catch
    (let rulesToExecute :=
       filterRules this (Options.frameworks options) (Options.categories options)
         (Options.severity options) in
     rulesByFramework <- lift (groupRulesByFramework rulesToExecute) ;;
     totals <- for_of (Object_entries rulesByFramework)
                 (executeFramework this inputData) Totals.zero ;;
     let results :=
       {| EvaluationResult.session_id := generateSessionId env;
          EvaluationResult.timestamp := Env.now env;
          EvaluationResult.input_data_summary := input_data_summary;
          EvaluationResult.frameworks_tested :=
            map fst (Object_entries rulesByFramework);
          EvaluationResult.total_rules := Z.of_nat (List.length rulesToExecute);
          EvaluationResult.passed_rules := Totals.passed_rules totals;
          EvaluationResult.failed_rules := Totals.failed_rules totals;
          EvaluationResult.skipped_rules := Totals.skipped_rules totals;
          EvaluationResult.execution_time_ms := 0;
          EvaluationResult.overall_risk_score := of_Z 0;
          EvaluationResult.framework_results := Totals.framework_results totals;
          EvaluationResult.detailed_results := Totals.detailed_results totals |} in
     ret {| EvaluationResult.session_id := EvaluationResult.session_id results;
            EvaluationResult.timestamp := EvaluationResult.timestamp results;
            EvaluationResult.input_data_summary :=
              EvaluationResult.input_data_summary results;
            EvaluationResult.frameworks_tested :=
              EvaluationResult.frameworks_tested results;
            EvaluationResult.total_rules := EvaluationResult.total_rules results;
            EvaluationResult.passed_rules := EvaluationResult.passed_rules results;
            EvaluationResult.failed_rules := EvaluationResult.failed_rules results;
            EvaluationResult.skipped_rules := EvaluationResult.skipped_rules results;
            EvaluationResult.execution_time_ms := Env.endTime env - Env.startTime env;
            EvaluationResult.overall_risk_score := calculateRiskScore results;
            EvaluationResult.framework_results :=
              EvaluationResult.framework_results results;
            EvaluationResult.detailed_results :=
              EvaluationResult.detailed_results results |})
    (fun error => throw error).

(* ================================================================== *)
(** ** Notions used to state the properties *)

(** A score that is a number between 0 and 100. *)
Definition in_percent_range (x : number) : Prop :=
  leq (of_Z 0) x /\ leq x (of_Z 100).

(** How many outcomes of a list carry a given status. *)
Definition count_status (s : status) (outcomes : list RuleOutcome.t) : Z :=
  Z.of_nat
    (List.length
       (filter (fun o => status_eqb (RuleOutcome.status o) s) outcomes)).

(** The two sums that the [forEach] of [calculateFrameworkRiskScore] leaves
    in [weightedFailures] and [totalWeight]. *)
Definition weightedFailures (outcomes : list RuleOutcome.t) : sum :=
  fst (fold_left accumulate outcomes (Sum 0, Sum 0)).

Definition totalWeight (outcomes : list RuleOutcome.t) : sum :=
  snd (fold_left accumulate outcomes (Sum 0, Sum 0)).

(** [x + y] on two such sums. *)
Definition plus (x y : sum) : sum :=
  match x, y with
  | Sum a, Sum b => Sum (a + b)
  | _, _ => Text
  end.

(** Whether a severity names a member of [Object.prototype], and whether
    an outcome whose status is counted has such a severity. *)
Definition inherited_severity (severity : option string) : bool :=
  match severity with
  | Some s => inherited s
  | None => false
  end.

Definition counts_a_member (counted : status -> bool)
  (outcomes : list RuleOutcome.t) : bool :=
  existsb
    (fun o =>
       counted (RuleOutcome.status o) &&
       inherited_severity (RuleOutcome.severity o))
    outcomes.

(** The weight table in the words of the specification: critical=4,
    high=3, medium=2, low=1, and 1 for anything else or nothing. *)
Definition spec_weight (severity : option string) : Z :=
  match severity with
  | Some s =>
      if String.eqb s "critical" then 4
      else if String.eqb s "high" then 3
      else if String.eqb s "medium" then 2
      else if String.eqb s "low" then 1
      else 1
  | None => 1
  end.

(** The sum of the weights of the outcomes whose status is counted. *)
Definition spec_weight_sum (counted : status -> bool)
  (outcomes : list RuleOutcome.t) : Z :=
  fold_right
    (fun o acc =>
       if counted (RuleOutcome.status o)
       then spec_weight (RuleOutcome.severity o) + acc
       else acc)
    0 outcomes.

(** The framework risk score in the words of the specification:
    round(sum of FAIL weights / sum of non-SKIP weights x 100), and 0 when
    the denominator is 0. *)
Definition spec_risk_score (outcomes : list RuleOutcome.t) : number :=
  let failed := spec_weight_sum (fun s => status_eqb s FAIL) outcomes in
  let counted := spec_weight_sum (fun s => negb (status_eqb s SKIP)) outcomes in
  if counted =? 0 then of_Z 0 else percentage failed counted.

(** round(part / (total - skipped) x 100), and 0 when the denominator is 0. *)
Definition spec_percentage (part total skipped : Z) : number :=
  if total - skipped =? 0 then of_Z 0
  else percentage part (total - skipped).

(** An allow-list accepts everything when it is absent or empty. *)
Definition allows (allow : option (list string)) (x : option string) : Prop :=
  match allow with
  | None | Some [] => True
  | Some l => exists s, x = Some s /\ In s l
  end.

(** The rules of the catalog that satisfy each of the three filters. *)
Definition selected (this : RuleEngine.t) (options : Options.t)
  (rule : Rule.t) : Prop :=
  In rule (Map_values (RuleEngine.rules this)) /\
  allows (Options.frameworks options) (Some (Rule.framework rule)) /\
  allows (Options.categories options) (Some (Rule.category rule)) /\
  allows (Options.severity options) (Rule.severity rule).

(** What the [reduce] of [groupRulesByFramework] does with a rule whose
    framework code is not inherited, and the groups that it then builds. *)
Definition group (groups : Map (list Rule.t)) (rule : Rule.t)
  : Map (list Rule.t) :=
  Map_set groups (Rule.framework rule)
    (match Map_get groups (Rule.framework rule) with
     | Some g => g
     | None => []
     end ++ [rule]).

Definition groups_of (rules : list Rule.t) : Map (list Rule.t) :=
  fold_left group rules [].

(** The rules in the order in which [executeCompliance] runs them, when the
    grouping completes. *)
Definition execution_order (this : RuleEngine.t) (options : Options.t)
  : list Rule.t :=
  match
    groupRulesByFramework
      (filterRules this (Options.frameworks options)
         (Options.categories options) (Options.severity options))
  with
  | Ok groups => List.concat (Map_values (Object_entries groups))
  | Throw _ => []
  end.

(** The outcome that reports a rule: its code and severity, and a status
    that follows from how the predicate ended. *)
Definition reports (inputData : value) (rule : Rule.t) (o : RuleOutcome.t)
  : Prop :=
  RuleOutcome.rule_code o = Rule.code rule /\
  RuleOutcome.severity o = Rule.severity rule /\
  match Rule.evaluate rule inputData with
  | Resolves (Some e) =>
      RuleOutcome.status o = (if Evaluation.passed e then PASS else FAIL) /\
      RuleOutcome.message o = Evaluation.message e
  | Resolves None => RuleOutcome.status o = ERROR
  | Rejects x =>
      RuleOutcome.status o = ERROR /\
      forall m, x = ThrownError m ->
                exists prefix, RuleOutcome.message o = Some (prefix ++ m)%string
  end.

(** What [executeFrameworkRules] leaves in the result of a framework for the
    rules it ran. *)
Definition tallies (inputData : value) (rules : list Rule.t)
  (r : FrameworkResult.t) : Prop :=
  Forall2 (reports inputData) rules (FrameworkResult.rule_results r) /\
  Forall (fun o => RuleOutcome.status o <> SKIP) (FrameworkResult.rule_results r) /\
  FrameworkResult.total r = Z.of_nat (List.length rules) /\
  FrameworkResult.passed r = count_status PASS (FrameworkResult.rule_results r) /\
  FrameworkResult.skipped r = 0 /\
  count_status FAIL (FrameworkResult.rule_results r) <= FrameworkResult.failed r /\
  FrameworkResult.failed r <=
  count_status FAIL (FrameworkResult.rule_results r) +
  count_status ERROR (FrameworkResult.rule_results r) /\
  FrameworkResult.compliance_percentage r =
  (if FrameworkResult.total r >? 0
   then percentage (FrameworkResult.passed r)
          (FrameworkResult.total r - FrameworkResult.skipped r)
   else of_Z 0) /\
  FrameworkResult.risk_score r = calculateFrameworkRiskScore r.

(** An outcome with another severity, and a framework result with another
    list of outcomes. *)
Definition with_severity (o : RuleOutcome.t) (severity : option string)
  : RuleOutcome.t :=
  {| RuleOutcome.rule_code := RuleOutcome.rule_code o;
     RuleOutcome.rule_title := RuleOutcome.rule_title o;
     RuleOutcome.status := RuleOutcome.status o;
     RuleOutcome.message := RuleOutcome.message o;
     RuleOutcome.details := RuleOutcome.details o;
     RuleOutcome.findings := RuleOutcome.findings o;
     RuleOutcome.evidence := RuleOutcome.evidence o;
     RuleOutcome.severity := severity;
     RuleOutcome.category := RuleOutcome.category o;
     RuleOutcome.remediation := RuleOutcome.remediation o |}.

Definition with_rule_results (r : FrameworkResult.t)
  (outcomes : list RuleOutcome.t) : FrameworkResult.t :=
  {| FrameworkResult.framework := FrameworkResult.framework r;
     FrameworkResult.framework_code := FrameworkResult.framework_code r;
     FrameworkResult.version := FrameworkResult.version r;
     FrameworkResult.total := FrameworkResult.total r;
     FrameworkResult.passed := FrameworkResult.passed r;
     FrameworkResult.failed := FrameworkResult.failed r;
     FrameworkResult.skipped := FrameworkResult.skipped r;
     FrameworkResult.compliance_percentage :=
       FrameworkResult.compliance_percentage r;
     FrameworkResult.risk_score := FrameworkResult.risk_score r;
     FrameworkResult.rule_results := outcomes |}.

(* ================================================================== *)
(** ** A small catalog on which the properties are exercised *)

Module Sample.

Definition env : Env.t :=
  {| Env.startTime := 1700000000000;
     Env.startTime36 := "loyw3v28";
     Env.random36 := "k3x9qa";
     Env.now := 1700000000000;
     Env.endTime := 1700000000007 |}.

Definition frameworkA : Framework.t :=
  {| Framework.code := "A"; Framework.name := "Framework A";
     Framework.version := "1.0"; Framework.description := "" |}.

Definition frameworkB : Framework.t :=
  {| Framework.code := "B"; Framework.name := "Framework B";
     Framework.version := "2.0"; Framework.description := "" |}.

Definition verdict (passed : bool) (message : string) : Evaluation.t :=
  {| Evaluation.passed := passed;
     Evaluation.message := Some message;
     Evaluation.details := VUndefined;
     Evaluation.findings := None;
     Evaluation.evidence := VUndefined |}.

Definition rule (framework code : string) (severity : option string)
  (evaluate : value -> completion) : Rule.t :=
  {| Rule.code := code; Rule.framework := framework; Rule.title := code;
     Rule.description := ""; Rule.category := "Access Control";
     Rule.severity := severity; Rule.remediation := None;
     Rule.evaluate := evaluate |}.

(** Fails on every snapshot. *)
Definition failing : Rule.t :=
  rule "A" "a1" (Some "critical")
    (fun _ => Resolves (Some (verdict false "not compliant"))).

(** Passes when the snapshot has a truthy [system_info] section. *)
Definition passing : Rule.t :=
  rule "B" "b1" (Some "low")
    (fun inputData =>
       Resolves
         (Some (if truthy (get_prop inputData "system_info")
                then verdict true "compliant"
                else verdict false "No system information available"))).

(** Rejects with [new Error("boom")]. *)
Definition rejecting : Rule.t :=
  rule "A" "a2" (Some "high") (fun _ => Rejects (ThrownError "boom")).

(** Rejects with no reason at all. *)
Definition rejecting_undefined : Rule.t :=
  rule "A" "a3" (Some "medium") (fun _ => Rejects ThrownNullish).

Definition snapshot : value :=
  VObj [("system_info", VObj [("hostname", VStr "web-01")])].

(** Framework A with one rule whose predicate rejects. *)
Definition engine_rejecting : RuleEngine.t :=
  snd (registerRule (registerFramework constructor frameworkA) rejecting).

(** Two frameworks: A with a failing critical rule, B with a passing low one. *)
Definition engine_two : RuleEngine.t :=
  snd (registerRule
         (snd (registerRule
                 (registerFramework (registerFramework constructor frameworkA)
                    frameworkB)
                 failing))
         passing).

(** The catalog of [engine_two] with the two rejecting rules added. *)
Definition engine_four : RuleEngine.t :=
  snd (registerRule (snd (registerRule engine_two rejecting)) rejecting_undefined).

(** A FAIL outcome of a given severity, and a PASS outcome. *)
Definition outcome (status : status) (severity : option string)
  : RuleOutcome.t :=
  {| RuleOutcome.rule_code := "r"; RuleOutcome.rule_title := "r";
     RuleOutcome.status := status; RuleOutcome.message := Some "";
     RuleOutcome.details := Some (VObj []); RuleOutcome.findings := None;
     RuleOutcome.evidence := None; RuleOutcome.severity := severity;
     RuleOutcome.category := "Access Control";
     RuleOutcome.remediation := None |}.

(** A framework result around a list of outcomes, with the counters that
    [executeFrameworkRules] would have left. *)
Definition framework_result (outcomes : list RuleOutcome.t)
  : FrameworkResult.t :=
  {| FrameworkResult.framework := "Framework A";
     FrameworkResult.framework_code := "A";
     FrameworkResult.version := "1.0";
     FrameworkResult.total := Z.of_nat (List.length outcomes);
     FrameworkResult.passed := count_status PASS outcomes;
     FrameworkResult.failed := count_status FAIL outcomes;
     FrameworkResult.skipped := count_status SKIP outcomes;
     FrameworkResult.compliance_percentage := of_Z 0;
     FrameworkResult.risk_score := of_Z 0;
     FrameworkResult.rule_results := outcomes |}.

(** A failing rule whose severity names a member of [Object.prototype], and
    framework A with the failing critical rule and that one. *)
Definition failing_member : Rule.t :=
  rule "A" "a4" (Some "constructor")
    (fun _ => Resolves (Some (verdict false "not compliant"))).

Definition engine_member : RuleEngine.t :=
  snd (registerRule
         (snd (registerRule (registerFramework constructor frameworkA) failing))
         failing_member).

(** A framework whose code names a member of [Object.prototype], with one
    rule that passes. *)
Definition frameworkC : Framework.t :=
  {| Framework.code := "constructor"; Framework.name := "Framework C";
     Framework.version := "1.0"; Framework.description := "" |}.

Definition engine_inherited : RuleEngine.t :=
  snd (registerRule (registerFramework constructor frameworkC)
         (rule "constructor" "c1" (Some "low")
            (fun _ => Resolves (Some (verdict true "compliant"))))).

(** The whole of [engine_four] run on [snapshot], and its result. *)
Definition run_all : result EvaluationResult.t * trace :=
  executeCompliance env engine_four snapshot Options.empty [].

Definition no_results : EvaluationResult.t :=
  {| EvaluationResult.session_id := "";
     EvaluationResult.timestamp := 0;
     EvaluationResult.input_data_summary :=
       {| InputSummary.data_sources := []; InputSummary.total_size := 0;
          InputSummary.has_system_info := false;
          InputSummary.has_security_config := false;
          InputSummary.has_services := false;
          InputSummary.has_network := false |};
     EvaluationResult.frameworks_tested := [];
     EvaluationResult.total_rules := 0;
     EvaluationResult.passed_rules := 0;
     EvaluationResult.failed_rules := 0;
     EvaluationResult.skipped_rules := 0;
     EvaluationResult.execution_time_ms := 0;
     EvaluationResult.overall_risk_score := of_Z 0;
     EvaluationResult.framework_results := [];
     EvaluationResult.detailed_results := [] |}.

Definition result_all : EvaluationResult.t :=
  match fst run_all with
  | Ok r => r
  | Throw _ => no_results
  end.

(** The result of framework A in [result_all]. *)
Definition result_A : FrameworkResult.t :=
  match Map_get (EvaluationResult.framework_results result_all) "A" with
  | Some r => r
  | None => framework_result []
  end.

End Sample.

(* ================================================================== *)
(** ** Further notions about the catalog and the counters *)

(** The rules of one framework, in the order of the list. *)
Definition rules_of (frameworkCode : string) (rules : list Rule.t) : list Rule.t :=
  filter (fun rule => String.eqb (Rule.framework rule) frameworkCode) rules.

(** Whether a string has a colon in it. *)
Fixpoint has_colon (s : string) : bool :=
  match s with
  | EmptyString => false
  | String c s' => Ascii.eqb c ":"%char || has_colon s'
  end.

(** Whether [executeRule] catches the way the predicate ended: it resolved
    with [undefined] or [null], or rejected with anything else than
    [undefined] or [null]. *)
Definition caught_by_executeRule (inputData : value) (rule : Rule.t) : bool :=
  match Rule.evaluate rule inputData with
  | Resolves None => true
  | Resolves (Some _) => false
  | Rejects ThrownNullish => false
  | Rejects _ => true
  end.

(** How many rules of a list satisfy a test. *)
Definition count_rules (p : Rule.t -> bool) (rules : list Rule.t) : Z :=
  Z.of_nat (List.length (filter p rules)).

(** The sum of one counter over the framework results. *)
Definition sum_of (counter : FrameworkResult.t -> Z)
  (results : list (string * FrameworkResult.t)) : Z :=
  fold_right (fun entry acc => counter (snd entry) + acc) 0 results.

(** Whether [executeRule] throws in its turn: the predicate rejected with
    [undefined] or [null]. *)
Definition rethrown_by_executeRule (inputData : value) (rule : Rule.t) : bool :=
  match Rule.evaluate rule inputData with
  | Rejects ThrownNullish => true
  | _ => false
  end.

(** What the loop of [executeFrameworkRules] records for one rule when the
    rule is run on its own, from an empty tally. *)
Definition outcomes_alone (inputData : value) (rule : Rule.t)
  : list RuleOutcome.t :=
  match executeFrameworkRule inputData Tally.zero rule [] with
  | (Ok result, _) => Tally.rule_results result
  | (Throw _, _) => []
  end.

(** Whether a string begins with another one. *)
Fixpoint starts_with (prefix s : string) : bool :=
  match prefix, s with
  | EmptyString, _ => true
  | String c p, String d s' => Ascii.eqb c d && starts_with p s'
  | String _ _, EmptyString => false
  end.

(** The fields of the outcome of a rule, by status. *)
Definition outcome_of_rule (rule : Rule.t) (o : RuleOutcome.t) : Prop :=
  RuleOutcome.rule_code o = Rule.code rule /\
  RuleOutcome.rule_title o = Rule.title rule /\
  RuleOutcome.severity o = Rule.severity rule /\
  RuleOutcome.category o = Rule.category rule /\
  match RuleOutcome.status o with
  | PASS =>
      RuleOutcome.details o <> None /\
      RuleOutcome.findings o = None /\
      RuleOutcome.evidence o = None /\
      RuleOutcome.remediation o = Some (remediation_text rule)
  | FAIL =>
      RuleOutcome.details o <> None /\
      RuleOutcome.findings o <> None /\
      RuleOutcome.evidence o <> None /\
      RuleOutcome.remediation o = Some (remediation_text rule)
  | ERROR =>
      RuleOutcome.findings o = None /\
      RuleOutcome.evidence o = None /\
      exists message,
        RuleOutcome.message o = Some message /\
        ((starts_with "Rule evaluation error: " message = true /\
          RuleOutcome.details o = Some (VObj []) /\
          RuleOutcome.remediation o = Some (remediation_text rule)) \/
         (starts_with "Execution error: " message = true /\
          RuleOutcome.details o = None /\
          RuleOutcome.remediation o = None))
  | SKIP => False
  end.

(** A sequence of [set] calls on a map. *)
Definition Map_set_all {V : Type} (m : Map V) (entries : list (string * V))
  : Map V :=
  fold_left (fun m entry => Map_set m (fst entry) (snd entry)) entries m.

(** The rules of a list that come before the first one whose framework is
    not registered, and that one. *)
Fixpoint registered_prefix (frameworks : Map Framework.t) (rules : list Rule.t)
  : list Rule.t :=
  match rules with
  | [] => []
  | rule :: rules' =>
      if Map_has frameworks (Rule.framework rule)
      then rule :: registered_prefix frameworks rules'
      else []
  end.

Definition first_unregistered (frameworks : Map Framework.t)
  (rules : list Rule.t) : option Rule.t :=
  find (fun rule => negb (Map_has frameworks (Rule.framework rule))) rules.

(* ================================================================== *)
(** ** The compliance service *)

(** A rule module, [{ framework, rules }]: what [cisRules] and
    [iso27001Rules] export.  The two modules are parameters of the model. *)
Module RuleSet.
Record t : Type := {
  framework : Framework.t;
  rules : list Rule.t
}.
End RuleSet.

Module ComplianceService.
Record t : Type := {
  ruleEngine : RuleEngine.t;
  initialized : bool
}.
End ComplianceService.

(** [new ComplianceService()] *)
Definition new_ComplianceService : ComplianceService.t :=
  {| ComplianceService.ruleEngine := constructor;
     ComplianceService.initialized := false |}.

(** [rules.forEach(rule => { this.ruleEngine.registerRule(rule); })]: the
    first call that throws ends the loop. *)
Fixpoint registerRules (engine : RuleEngine.t) (rules : list Rule.t)
  : result unit * RuleEngine.t :=
  match rules with
  | [] => (Ok tt, engine)
  | rule :: rules' =>
      match registerRule engine rule with
      | (Ok _, engine') => registerRules engine' rules'
      | (Throw error, engine') => (Throw error, engine')
      end
  end.

(** [initialize()]: the completion of the call and the service after it.
    The [catch] logs the error and throws it again. *)
Definition initialize (cisRules iso27001Rules : RuleSet.t)
  (this : ComplianceService.t) : result unit * ComplianceService.t :=
  let engine :=
    registerFramework (ComplianceService.ruleEngine this)
      (RuleSet.framework cisRules) in
  let engine := registerFramework engine (RuleSet.framework iso27001Rules) in
  match registerRules engine (RuleSet.rules cisRules) with
  | (Throw error, engine) =>
      (Throw error,
       {| ComplianceService.ruleEngine := engine;
          ComplianceService.initialized := ComplianceService.initialized this |})
  | (Ok _, engine) =>
      match registerRules engine (RuleSet.rules iso27001Rules) with
      | (Throw error, engine) =>
          (Throw error,
           {| ComplianceService.ruleEngine := engine;
              ComplianceService.initialized :=
                ComplianceService.initialized this |})
      | (Ok _, engine) =>
          (Ok tt,
           {| ComplianceService.ruleEngine := engine;
              ComplianceService.initialized := true |})
      end
  end.

(** [{ ...framework, rules_count }] *)
Module FrameworkInfo.
Record t : Type := {
  framework : Framework.t;
  rules_count : Z
}.
End FrameworkInfo.

(** [getAvailableFrameworks()] *)
Definition getAvailableFrameworks (this : ComplianceService.t)
  : list FrameworkInfo.t :=
  if negb (ComplianceService.initialized this) then []
  else
    map (fun framework =>
           {| FrameworkInfo.framework := framework;
              FrameworkInfo.rules_count :=
                Z.of_nat
                  (List.length
                     (getRules (ComplianceService.ruleEngine this)
                        (Some (Framework.code framework)))) |})
      (getFrameworks (ComplianceService.ruleEngine this)).

(** What [getFrameworkRules] keeps of a rule. *)
Module RuleInfo.
Record t : Type := {
  code : string;
  title : string;
  description : string;
  category : string;
  severity : option string;
  remediation : option string
}.
End RuleInfo.

(** [getFrameworkRules(frameworkCode)]; [None] is a call with no argument. *)
Definition getFrameworkRules (this : ComplianceService.t)
  (frameworkCode : option string) : list RuleInfo.t :=
  if negb (ComplianceService.initialized this) then []
  else
    map (fun rule =>
           {| RuleInfo.code := Rule.code rule;
              RuleInfo.title := Rule.title rule;
              RuleInfo.description := Rule.description rule;
              RuleInfo.category := Rule.category rule;
              RuleInfo.severity := Rule.severity rule;
              RuleInfo.remediation := Rule.remediation rule |})
      (getRules (ComplianceService.ruleEngine this) frameworkCode).

(** The sum of the [rules_count] of a list of frameworks. *)
Definition total_rules_count (infos : list FrameworkInfo.t) : Z :=
  fold_right (fun info acc => FrameworkInfo.rules_count info + acc) 0 infos.

(** A rule module with one rule, and one whose second rule belongs to a
    framework that nobody registers. *)
Module SampleService.

Definition cisRules : RuleSet.t :=
  {| RuleSet.framework := Sample.frameworkA;
     RuleSet.rules := [Sample.failing; Sample.rejecting] |}.

Definition iso27001Rules : RuleSet.t :=
  {| RuleSet.framework := Sample.frameworkB;
     RuleSet.rules := [Sample.passing] |}.

Definition stray : Rule.t :=
  Sample.rule "PCI" "p1" (Some "high") (fun _ => Resolves None).

Definition brokenRules : RuleSet.t :=
  {| RuleSet.framework := Sample.frameworkB;
     RuleSet.rules := [Sample.passing; stray; Sample.passing] |}.

Definition service : ComplianceService.t :=
  snd (initialize cisRules iso27001Rules new_ComplianceService).

End SampleService.

(* ================================================================== *)
(** ** The report service: what it derives from a result

    The tables of the report service are object literals, looked up as
    [weights] is: by their own properties and by the members inherited
    from [Object.prototype]. *)

(** [xs.forEach(x => { s = body(s, x) })] where the body may throw. *)
Fixpoint forEach {A S : Type} (xs : list A) (body : S -> A -> result S) (s : S)
  : result S :=
  match xs with
  | [] => Ok s
  | x :: xs' =>
      match body s x with
      | Ok s' => forEach xs' body s'
      | Throw error => Throw error
      end
  end.

(** An entry of [findings_by_severity]. *)
Module Finding.
Record t : Type := {
  rule_code : string;
  title : string;
  category : string;
  message : option string;
  findings : list string;
  remediation : option string
}.
End Finding.

(** [{ critical: [], high: [], medium: [], low: [] }] *)
Module Categories.
Record t : Type := {
  critical : list Finding.t;
  high : list Finding.t;
  medium : list Finding.t;
  low : list Finding.t
}.
Definition empty : t :=
  {| critical := []; high := []; medium := []; low := [] |}.
End Categories.

(** The object pushed by [categorizeFindingsBySeverity]. *)
Definition finding_of (rule : RuleOutcome.t) : Finding.t :=
  {| Finding.rule_code := RuleOutcome.rule_code rule;
     Finding.title := RuleOutcome.rule_title rule;
     Finding.category := RuleOutcome.category rule;
     Finding.message := RuleOutcome.message rule;
     Finding.findings := or_empty_array (RuleOutcome.findings rule);
     Finding.remediation := RuleOutcome.remediation rule |}.

(** [categories[rule.severity].push(finding)]: when [categories] has no
    array under the severity, reading [push] throws a [TypeError]; when the
    severity names a member of [Object.prototype], that member has no
    [push] and calling it throws a [TypeError] as well. *)
Definition push_finding (categories : Categories.t) (rule : RuleOutcome.t)
  : result Categories.t :=
  let finding := finding_of rule in
  let missing :=
    Throw (ThrownError "Cannot read properties of undefined (reading 'push')") in
  match RuleOutcome.severity rule with
  | Some severity =>
      if String.eqb severity "critical"
      then Ok {| Categories.critical := Categories.critical categories ++ [finding];
                 Categories.high := Categories.high categories;
                 Categories.medium := Categories.medium categories;
                 Categories.low := Categories.low categories |}
      else if String.eqb severity "high"
      then Ok {| Categories.critical := Categories.critical categories;
                 Categories.high := Categories.high categories ++ [finding];
                 Categories.medium := Categories.medium categories;
                 Categories.low := Categories.low categories |}
      else if String.eqb severity "medium"
      then Ok {| Categories.critical := Categories.critical categories;
                 Categories.high := Categories.high categories;
                 Categories.medium := Categories.medium categories ++ [finding];
                 Categories.low := Categories.low categories |}
      else if String.eqb severity "low"
      then Ok {| Categories.critical := Categories.critical categories;
                 Categories.high := Categories.high categories;
                 Categories.medium := Categories.medium categories;
                 Categories.low := Categories.low categories ++ [finding] |}
      else if inherited severity
      then Throw (ThrownError "categories[rule.severity].push is not a function")
      else missing
  | None => missing
  end.

(** [categorizeFindingsBySeverity(results)] *)
Definition categorizeFindingsBySeverity (results : EvaluationResult.t)
  : result Categories.t :=
  forEach (EvaluationResult.detailed_results results)
    (fun categories rule =>
       if status_eqb (RuleOutcome.status rule) FAIL
       then push_finding categories rule
       else Ok categories)
    Categories.empty.

(** The table [{ critical: 4, high: 3, medium: 2, low: 1 }] of the report
    service. *)
Definition severityWeight : list (string * Z) :=
  [("critical", 4); ("high", 3); ("medium", 2); ("low", 1)].

(** [assessBusinessImpact(rule)]: [severityImpact[rule.severity] || 1] *)
Definition assessBusinessImpact (rule : RuleOutcome.t) : looked_up Z :=
  match RuleOutcome.severity rule with
  | Some severity =>
      match Obj_lookup severityWeight severity with
      | Own impact => if impact =? 0 then Plain 1 else Plain impact
      | Inherited => Member
      | Undefined => Plain 1
      end
  | None => Plain 1
  end.

(** [calculateRuleImpact(rule)]: [severityWeight[rule.severity] || 1] *)
Definition calculateRuleImpact (rule : RuleOutcome.t) : looked_up Z :=
  match RuleOutcome.severity rule with
  | Some severity =>
      match Obj_lookup severityWeight severity with
      | Own weight => if weight =? 0 then Plain 1 else Plain weight
      | Inherited => Member
      | Undefined => Plain 1
      end
  | None => Plain 1
  end.

(** [calculatePriorityLevel(rule)] *)
Definition calculatePriorityLevel (rule : RuleOutcome.t) : string :=
  match RuleOutcome.severity rule with
  | Some severity =>
      if String.eqb severity "critical" then "Immediate"
      else if String.eqb severity "high" then "High"
      else if String.eqb severity "medium" then "Medium"
      else "Low"
  | None => "Low"
  end.

Definition effortMap : list (string * string) :=
  [("SSH Configuration", "Low"); ("Password Policy", "Medium");
   ("Network Security", "High"); ("Access Control", "Medium");
   ("Logging and Monitoring", "High")].

(** [estimateRemediationEffort(rule)]: [effortMap[rule.category] || 'Medium'] *)
Definition estimateRemediationEffort (rule : RuleOutcome.t) : looked_up string :=
  match Obj_lookup effortMap (RuleOutcome.category rule) with
  | Own effort => if String.eqb effort "" then Plain "Medium" else Plain effort
  | Inherited => Member
  | Undefined => Plain "Medium"
  end.

(** An entry of [remediation_priority]. *)
Module Priority.
Record t : Type := {
  priority_level : string;
  rule_code : string;
  title : string;
  severity : option string;
  category : string;
  estimated_effort : looked_up string;
  business_impact : looked_up Z;
  remediation : option string;
  findings : list string
}.
End Priority.

Definition priority_of (rule : RuleOutcome.t) : Priority.t :=
  {| Priority.priority_level := calculatePriorityLevel rule;
     Priority.rule_code := RuleOutcome.rule_code rule;
     Priority.title := RuleOutcome.rule_title rule;
     Priority.severity := RuleOutcome.severity rule;
     Priority.category := RuleOutcome.category rule;
     Priority.estimated_effort := estimateRemediationEffort rule;
     Priority.business_impact := assessBusinessImpact rule;
     Priority.remediation := RuleOutcome.remediation rule;
     Priority.findings := or_empty_array (RuleOutcome.findings rule) |}.

(** [severityWeight[a.severity] * a.business_impact]; [None] is [NaN], the
    product when the table has nothing under the severity or when a factor
    is a member of [Object.prototype]. *)
Definition priority_weight (a : Priority.t) : option Z :=
  match Priority.severity a with
  | Some severity =>
      match Obj_lookup severityWeight severity, Priority.business_impact a with
      | Own weight, Plain impact => Some (weight * impact)
      | _, _ => None
      end
  | None => None
  end.

(** Whether the comparator [(a, b) => bWeight - aWeight] returns a positive
    number, which puts [a] after [b]; [NaN] counts as 0. *)
Definition sorts_after (a b : Priority.t) : bool :=
  match priority_weight a, priority_weight b with
  | Some aWeight, Some bWeight => bWeight - aWeight >? 0
  | _, _ => false
  end.

(** [Array.prototype.sort] is stable, and with a comparator that orders the
    elements consistently its result is determined: it is the one that this
    insertion sort computes.  When a weight is [NaN] the comparator is not
    consistent and the standard leaves the order to the implementation. *)
Fixpoint insert_sorted {A : Type} (after : A -> A -> bool) (a : A) (l : list A)
  : list A :=
  match l with
  | [] => [a]
  | b :: l' => if after a b then b :: insert_sorted after a l' else a :: b :: l'
  end.

Definition Array_sort {A : Type} (after : A -> A -> bool) (l : list A) : list A :=
  fold_right (insert_sorted after) [] l.

(** [generateRemediationPriority(results)] *)
Definition generateRemediationPriority (results : EvaluationResult.t)
  : list Priority.t :=
  let priorities :=
    map priority_of
      (filter (fun rule => status_eqb (RuleOutcome.status rule) FAIL)
         (EvaluationResult.detailed_results results)) in
  Array_sort sorts_after priorities.

(** The FAIL outcomes of one severity, in order. *)
Definition has_severity (severity : string) (o : RuleOutcome.t) : bool :=
  match RuleOutcome.severity o with
  | Some s => String.eqb s severity
  | None => false
  end.

Definition failures_of (severity : string) (outcomes : list RuleOutcome.t)
  : list RuleOutcome.t :=
  filter
    (fun o => status_eqb (RuleOutcome.status o) FAIL && has_severity severity o)
    outcomes.

(** Whether a severity is one of the four that the report service knows. *)
Definition known_severity (severity : option string) : bool :=
  match severity with
  | Some s =>
      String.eqb s "critical" || String.eqb s "high" || String.eqb s "medium"
      || String.eqb s "low"
  | None => false
  end.

(** [x >= y] between two numbers; a comparison with [NaN] is false. *)
Definition number_geq (x y : number) : bool :=
  match x, y with
  | Fin a, Fin b => Qle_bool b a
  | Infinity false, (Fin _ | Infinity _) => true
  | (Fin _ | Infinity _), Infinity true => true
  | _, _ => false
  end.

(** [getOverallStatus(results)] *)
Definition getOverallStatus (results : EvaluationResult.t) : string :=
  let complianceRate :=
    mul (div (of_Z (EvaluationResult.passed_rules results))
           (of_Z (EvaluationResult.total_rules results
                  - EvaluationResult.skipped_rules results)))
      (of_Z 100) in
  if number_geq complianceRate (of_Z 80) then "Good"
  else if number_geq complianceRate (of_Z 60) then "Acceptable"
  else "Needs Improvement".

(** A catalog with a failing rule that has no severity, and its result. *)
Module SampleReport.

Definition unrated : Rule.t :=
  Sample.rule "A" "a9" None
    (fun _ => Resolves (Some (Sample.verdict false "not compliant"))).

Definition engine : RuleEngine.t :=
  snd (registerRule Sample.engine_two unrated).

Definition unrated_result : EvaluationResult.t :=
  match fst (executeCompliance Sample.env engine Sample.snapshot Options.empty [])
  with
  | Ok r => r
  | Throw _ => Sample.no_results
  end.

(** A result in which every failure has one of the four severities. *)
Definition rated_result : EvaluationResult.t :=
  match fst (executeCompliance Sample.env Sample.engine_two (VObj [])
               Options.empty []) with
  | Ok r => r
  | Throw _ => Sample.no_results
  end.

End SampleReport.

(* ================================================================== *)
(** * Properties *)

(** ** Rounding to binary64 *)

Section Rounding.
Local Open Scope Q_scope.

Ltac Qcompare_spec :=
  repeat match goal with
    | H : Qcompare _ _ = Eq |- _ => apply Qeq_alt in H
    | H : Qcompare _ _ = Lt |- _ => apply Qlt_alt in H
    | H : Qcompare _ _ = Gt |- _ => apply Qgt_alt in H
    end.

Lemma rne_bounds (q : Q) : (Qfloor q <= rne q <= Qfloor q + 1)%Z.
Proof.
  unfold rne. destruct (Qcompare _ _); [destruct (Z.even _)| |]; lia.
Qed.

Lemma rne_Z (n : Z) : rne (inject_Z n) = n.
Proof.
  unfold rne. rewrite Qfloor_Z.
  destruct (Qcompare (inject_Z n - inject_Z n) (1 # 2)) eqn:C; [|reflexivity|].
  all: Qcompare_spec; exfalso; lra.
Qed.

Lemma rne_mono (x y : Q) : x <= y -> (rne x <= rne y)%Z.
Proof.
  intros Hxy.
  pose proof (Qfloor_resp_le _ _ Hxy) as Hf.
  pose proof (rne_bounds x) as Bx. pose proof (rne_bounds y) as By.
  destruct (Z.eq_dec (Qfloor x) (Qfloor y)) as [E|N]; [|lia].
  clear Bx By Hf. unfold rne. rewrite <- E.
  destruct (Qcompare (x - inject_Z (Qfloor x)) (1 # 2)) eqn:Cx;
    destruct (Qcompare (y - inject_Z (Qfloor x)) (1 # 2)) eqn:Cy;
    try (destruct (Z.even (Qfloor x))); try lia;
    Qcompare_spec; exfalso; lra.
Qed.

Lemma pow2_pos (k : Z) : 0 < 2 ^ k.
Proof. apply Qpower_0_lt. reflexivity. Qed.

Lemma pow2_plus (a b : Z) : 2 ^ (a + b) == 2 ^ a * 2 ^ b.
Proof. apply Qpower_plus. discriminate. Qed.

Lemma pow2_le (a b : Z) : (a <= b)%Z -> 2 ^ a <= 2 ^ b.
Proof. intros. apply Qpower_le_compat_l; [assumption | discriminate]. Qed.

Lemma pow2_lt_inv (a b : Z) : 2 ^ a < 2 ^ b -> (a < b)%Z.
Proof.
  intros H. destruct (Z_lt_le_dec a b) as [L|L]; [assumption|].
  apply pow2_le in L. lra.
Qed.

Lemma pow2_inject (k : Z) : (0 <= k)%Z -> inject_Z (2 ^ k) == 2 ^ k.
Proof. intros. now rewrite Zpower_Qpower. Qed.

Lemma log2_bounds_Q (n : Z) :
  (0 < n)%Z -> 2 ^ Z.log2 n <= inject_Z n /\ inject_Z n < 2 * 2 ^ Z.log2 n.
Proof.
  intros Hn. pose proof (Z.log2_spec n Hn) as [Hl Hu].
  pose proof (Z.log2_nonneg n) as Hnn.
  rewrite <- (pow2_inject (Z.log2 n)) by assumption.
  split.
  - rewrite <- Zle_Qle. assumption.
  - setoid_replace (2 * inject_Z (2 ^ Z.log2 n)) with (inject_Z (2 ^ Z.succ (Z.log2 n))).
    + rewrite <- Zlt_Qlt. assumption.
    + rewrite Z.pow_succ_r by assumption. rewrite inject_Z_mult. reflexivity.
Qed.

Lemma mag_spec (x : Q) : 0 < x -> 2 ^ mag x <= x /\ x < 2 ^ (mag x + 1).
Proof.
  intros Hx. destruct x as [n d].
  assert (Hn : (0 < n)%Z) by (unfold Qlt in Hx; simpl in Hx; lia).
  unfold mag. cbn [Qnum Qden].
  rewrite (Z.abs_eq n) by lia.
  assert (Habs : Qabs (n # d) == n # d) by (apply Qabs_pos; lra).
  destruct (log2_bounds_Q n Hn) as [Nl Nu].
  destruct (log2_bounds_Q (Zpos d) eq_refl) as [Dl Du].
  set (ln := Z.log2 n) in *. set (ld := Z.log2 (Zpos d)) in *.
  assert (HE : 2 ^ ln == 2 ^ (ln - ld) * 2 ^ ld).
  { rewrite <- pow2_plus. now replace (ln - ld + ld)%Z with ln by lia. }
  assert (Hxd : (n # d) * inject_Z (Zpos d) == inject_Z n).
  { rewrite (Qmake_Qdiv n d). field. discriminate. }
  pose proof (pow2_pos (ln - ld)) as PE. pose proof (pow2_pos ld) as PB.
  pose proof (pow2_pos ln) as PA.
  set (E := 2 ^ (ln - ld)) in *. set (B := 2 ^ ld) in *. set (A := 2 ^ ln) in *.
  set (N := inject_Z n) in *. set (D := inject_Z (Zpos d)) in *.
  set (x := n # d) in *.
  destruct (Qle_bool E (Qabs x)) eqn:C.
  - apply Qle_bool_iff in C. rewrite Habs in C. split; [assumption|].
    rewrite pow2_plus. fold E. change (2 ^ 1) with 2.
    apply Qnot_le_lt. intros Hc.
    assert (E * 2 * D <= x * D) by (apply Qmult_le_compat_r; lra).
    assert (E * B < E * D \/ E * B == E * D) by nra. nra.
  - assert (C' : x < E).
    { apply Qnot_le_lt. intros Hc. rewrite <- Habs in Hc.
      apply Qle_bool_iff in Hc. congruence. }
    replace (ln - ld - 1 + 1)%Z with (ln - ld)%Z by lia. fold E.
    split; [|assumption].
    assert (HE1 : E == 2 ^ (ln - ld - 1) * 2).
    { unfold E. change 2 with (2 ^ 1) at 3. rewrite <- pow2_plus.
      now replace (ln - ld - 1 + 1)%Z with (ln - ld)%Z by lia. }
    pose proof (pow2_pos (ln - ld - 1)) as PH.
    set (Hf := 2 ^ (ln - ld - 1)) in *.
    apply Qnot_lt_le. intros Hc.
    assert (x * D < Hf * D) by (apply Qmult_lt_compat_r; lra).
    nra.
Qed.

Lemma round_zero (x : Q) : x == 0 -> round x = 0.
Proof. intros H. unfold round. apply Qeq_bool_iff in H. now rewrite H. Qed.

Lemma round_nonzero (x : Q) :
  ~ x == 0 ->
  round x = inject_Z (rne (x / 2 ^ (mag x - (prec - 1)))) * 2 ^ (mag x - (prec - 1)).
Proof.
  intros H. unfold round. destruct (Qeq_bool x 0) eqn:C; [|reflexivity].
  apply Qeq_bool_iff in C. contradiction.
Qed.

(** The scaled significand of a positive number lies in [2^52, 2^53). *)
Lemma significand_bounds (x : Q) :
  0 < x ->
  inject_Z (2 ^ 52) <= x / 2 ^ (mag x - (prec - 1)) /\
  x / 2 ^ (mag x - (prec - 1)) < inject_Z (2 ^ 53).
Proof.
  intros Hx. destruct (mag_spec x Hx) as [Hl Hu].
  pose proof (pow2_pos (mag x - (prec - 1))) as PK.
  rewrite !pow2_inject by lia.
  assert (E1 : 2 ^ mag x == 2 ^ 52 * 2 ^ (mag x - (prec - 1))).
  { rewrite <- pow2_plus. unfold prec.
    now replace (52 + (mag x - (53 - 1)))%Z with (mag x) by lia. }
  assert (E2 : 2 ^ (mag x + 1) == 2 ^ 53 * 2 ^ (mag x - (prec - 1))).
  { rewrite <- pow2_plus. unfold prec.
    now replace (53 + (mag x - (53 - 1)))%Z with (mag x + 1)%Z by lia. }
  rewrite E1 in Hl. rewrite E2 in Hu.
  set (K := 2 ^ (mag x - (prec - 1))) in *.
  split.
  - apply Qle_shift_div_l; assumption.
  - apply Qlt_shift_div_r; assumption.
Qed.

Lemma round_pos_bounds (x : Q) :
  0 < x -> 2 ^ mag x <= round x /\ round x <= 2 ^ (mag x + 1).
Proof.
  intros Hx. destruct (significand_bounds x Hx) as [Hl Hu].
  rewrite round_nonzero by lra.
  pose proof (pow2_pos (mag x - (prec - 1))) as PK.
  assert (E1 : 2 ^ mag x == inject_Z (2 ^ 52) * 2 ^ (mag x - (prec - 1))).
  { rewrite pow2_inject by lia. rewrite <- pow2_plus. unfold prec.
    now replace (52 + (mag x - (53 - 1)))%Z with (mag x) by lia. }
  assert (E2 : 2 ^ (mag x + 1) == inject_Z (2 ^ 53) * 2 ^ (mag x - (prec - 1))).
  { rewrite pow2_inject by lia. rewrite <- pow2_plus. unfold prec.
    now replace (53 + (mag x - (53 - 1)))%Z with (mag x + 1)%Z by lia. }
  rewrite E1, E2.
  set (K := 2 ^ (mag x - (prec - 1))) in *.
  set (s := x / K) in *.
  assert (L : (2 ^ 52 <= rne s)%Z).
  { rewrite <- (rne_Z (2 ^ 52)). now apply rne_mono. }
  assert (U : (rne s <= 2 ^ 53)%Z).
  { rewrite <- (rne_Z (2 ^ 53)). apply rne_mono. lra. }
  rewrite Zle_Qle in L. rewrite Zle_Qle in U.
  split; apply Qmult_le_compat_r; lra.
Qed.

Lemma round_nonneg (x : Q) : 0 <= x -> 0 <= round x.
Proof.
  intros Hx. destruct (Qeq_dec x 0) as [E|N].
  - rewrite (round_zero x E). lra.
  - assert (P : 0 < x) by lra.
    destruct (round_pos_bounds x P) as [L _].
    pose proof (pow2_pos (mag x)). lra.
Qed.

Lemma mag_mono (x y : Q) : 0 < x -> x <= y -> (mag x <= mag y)%Z.
Proof.
  intros Hx Hxy.
  destruct (mag_spec x Hx) as [Lx _].
  destruct (mag_spec y) as [_ Uy]; [lra|].
  assert (H : 2 ^ mag x < 2 ^ (mag y + 1)) by lra.
  apply pow2_lt_inv in H. lia.
Qed.

(** Rounding to binary64 is monotone. *)
Lemma round_mono (x y : Q) : 0 <= x -> x <= y -> round x <= round y.
Proof.
  intros Hx Hxy.
  destruct (Qeq_dec x 0) as [E|N].
  { rewrite (round_zero x E). apply round_nonneg. lra. }
  assert (Px : 0 < x) by lra. assert (Py : 0 < y) by lra.
  pose proof (mag_mono x y Px Hxy) as Hm.
  destruct (Z.eq_dec (mag x) (mag y)) as [Em|Nm].
  - rewrite !round_nonzero by lra. rewrite <- Em.
    pose proof (pow2_pos (mag x - (prec - 1))) as PK.
    set (K := 2 ^ (mag x - (prec - 1))) in *.
    assert (S : x / K <= y / K).
    { apply Qle_shift_div_l; [assumption|].
      setoid_replace (x / K * K) with x by (field; lra). assumption. }
    apply rne_mono in S. rewrite Zle_Qle in S.
    apply Qmult_le_compat_r; lra.
  - destruct (round_pos_bounds x Px) as [_ Ux].
    destruct (round_pos_bounds y Py) as [Ly _].
    assert (H : 2 ^ (mag x + 1) <= 2 ^ mag y) by (apply pow2_le; lia).
    lra.
Qed.

Lemma round_1 : round 1 == 1.
Proof. vm_compute. reflexivity. Qed.

Lemma round_100 : round 100 == 100.
Proof. vm_compute. reflexivity. Qed.

Lemma Qeq_bool_inject_Z (b : Z) : b <> 0%Z -> Qeq_bool (inject_Z b) 0 = false.
Proof.
  intros Hb. destruct (Qeq_bool (inject_Z b) 0) eqn:C; [|reflexivity].
  apply Qeq_bool_iff in C. unfold Qeq in C. simpl in C. lia.
Qed.

Lemma percentage_eq (a b : Z) :
  b <> 0%Z ->
  percentage a b =
  of_Z (Qfloor (round (round (inject_Z a / inject_Z b) * inject_Z 100) + (1 # 2))).
Proof.
  intros Hb. unfold percentage, div, mul, of_Z, Math_round.
  now rewrite (Qeq_bool_inject_Z b Hb).
Qed.

Lemma ratio_bounds (a b : Z) :
  (0 <= a <= b)%Z -> (0 < b)%Z ->
  0 <= inject_Z a / inject_Z b /\ inject_Z a / inject_Z b <= 1.
Proof.
  intros [Ha Hab] Hb.
  rewrite Zle_Qle in Ha, Hab. rewrite Zlt_Qlt in Hb.
  change (inject_Z 0) with 0 in *.
  split.
  - apply Qle_shift_div_l; lra.
  - apply Qle_shift_div_r; lra.
Qed.

Lemma ratio_le (a b a' b' : Z) :
  (0 < b)%Z -> (0 < b')%Z -> (a * b' <= a' * b)%Z ->
  inject_Z a / inject_Z b <= inject_Z a' / inject_Z b'.
Proof.
  intros Hb Hb' H.
  rewrite Zle_Qle in H. rewrite !inject_Z_mult in H.
  rewrite Zlt_Qlt in Hb, Hb'.
  change (inject_Z 0) with 0 in *.
  apply Qle_shift_div_l; [assumption|].
  setoid_replace (inject_Z a / inject_Z b * inject_Z b')
    with (inject_Z a * inject_Z b' / inject_Z b) by (field; lra).
  apply Qle_shift_div_r; assumption.
Qed.

(** [Math.round((a / b) * 100)] lies between 0 and 100 when [0 <= a <= b]. *)
Lemma percentage_range (a b : Z) :
  (0 <= a <= b)%Z -> (0 < b)%Z ->
  leq (of_Z 0) (percentage a b) /\ leq (percentage a b) (of_Z 100).
Proof.
  intros Hab Hb. rewrite percentage_eq by lia.
  destruct (ratio_bounds a b Hab Hb) as [L U].
  pose proof (round_nonneg _ L) as R0.
  pose proof (round_mono _ _ L U) as R1. rewrite round_1 in R1.
  change (inject_Z 100) with 100.
  set (r := round (inject_Z a / inject_Z b)) in *.
  assert (L2 : 0 <= r * 100) by lra.
  assert (U2 : r * 100 <= 100) by lra.
  pose proof (round_nonneg _ L2) as S0.
  pose proof (round_mono _ _ L2 U2) as S1. rewrite round_100 in S1.
  set (s := round (r * 100)) in *.
  unfold leq, of_Z. rewrite <- !Zle_Qle. split.
  - rewrite <- (Qfloor_Z 0). apply Qfloor_resp_le. change (inject_Z 0) with 0. lra.
  - change 100%Z with (Qfloor (100 + (1 # 2))). apply Qfloor_resp_le. lra.
Qed.

(** [Math.round((a / b) * 100)] grows with the quotient [a / b]. *)
Lemma percentage_mono (a b a' b' : Z) :
  (0 <= a)%Z -> (0 < b)%Z -> (0 < b')%Z -> (a * b' <= a' * b)%Z ->
  leq (percentage a b) (percentage a' b').
Proof.
  intros Ha Hb Hb' H. rewrite !percentage_eq by lia.
  pose proof (ratio_le a b a' b' Hb Hb' H) as Hq.
  assert (L : 0 <= inject_Z a / inject_Z b).
  { rewrite Zle_Qle in Ha. rewrite Zlt_Qlt in Hb.
    change (inject_Z 0) with 0 in *. apply Qle_shift_div_l; lra. }
  pose proof (round_nonneg _ L) as R0.
  pose proof (round_mono _ _ L Hq) as R1.
  change (inject_Z 100) with 100.
  set (r := round (inject_Z a / inject_Z b)) in *.
  set (r' := round (inject_Z a' / inject_Z b')) in *.
  assert (L2 : 0 <= r * 100) by lra.
  assert (U2 : r * 100 <= r' * 100) by lra.
  pose proof (round_mono _ _ L2 U2) as S1.
  unfold leq, of_Z. rewrite <- Zle_Qle. apply Qfloor_resp_le. lra.
Qed.

End Rounding.

(** ** Maps *)

Section MapFacts.
Context {V : Type}.
Implicit Types (m : Map V) (k : string) (v : V).

Lemma Map_get_set_eq m k v : Map_get (Map_set m k v) k = Some v.
Proof.
  induction m as [|[k' v'] m IH]; simpl.
  - now rewrite String.eqb_refl.
  - destruct (String.eqb k' k) eqn:E; simpl.
    + now rewrite String.eqb_refl.
    + now rewrite E.
Qed.

Lemma Map_get_set_neq m k v k' :
  k' <> k -> Map_get (Map_set m k v) k' = Map_get m k'.
Proof.
  intros N. induction m as [|[k0 v0] m IH]; simpl.
  - destruct (String.eqb_spec k k'); congruence.
  - destruct (String.eqb_spec k0 k) as [->|Nk]; simpl.
    + destruct (String.eqb_spec k k'); congruence.
    + destruct (String.eqb_spec k0 k'); congruence.
Qed.

Lemma Map_has_set m k v k' :
  Map_has (Map_set m k v) k' = true <-> k' = k \/ Map_has m k' = true.
Proof.
  unfold Map_has. destruct (String.eqb_spec k' k) as [->|N].
  - rewrite Map_get_set_eq. tauto.
  - rewrite Map_get_set_neq by assumption. tauto.
Qed.

Lemma Map_get_In m k v : Map_get m k = Some v -> In (k, v) m.
Proof.
  induction m as [|[k' v'] m IH]; simpl; [discriminate|].
  destruct (String.eqb_spec k' k) as [->|N]; intros H.
  - left. congruence.
  - right. auto.
Qed.

Lemma In_Map_set m k v k' v' :
  In (k', v') (Map_set m k v) -> (k', v') = (k, v) \/ In (k', v') m.
Proof.
  induction m as [|[k0 v0] m IH]; simpl.
  - intros [E|[]]. left. now symmetry.
  - destruct (String.eqb k0 k); simpl.
    + intros [E|H]; [left; now symmetry|right; now right].
    + intros [E|H]; [right; now left|].
      destruct (IH H); [now left|right; now right].
Qed.

Lemma In_values_Map_set m k v x :
  In x (Map_values (Map_set m k v)) -> x = v \/ In x (Map_values m).
Proof.
  unfold Map_values. rewrite !in_map_iff. intros [[k' v'] [E H]].
  simpl in E. subst v'. apply In_Map_set in H as [H|H].
  - left. congruence.
  - right. exists (k', x). auto.
Qed.

(** [set] replaces the entry of a key that is present, and adds one
    otherwise. *)
Lemma length_Map_set m k v :
  List.length (Map_set m k v) =
  if Map_has m k then List.length m else S (List.length m).
Proof.
  unfold Map_has. induction m as [|[k' v'] m IH]; simpl; [reflexivity|].
  destruct (String.eqb k' k); simpl; [reflexivity|].
  rewrite IH. now destruct (Map_get m k).
Qed.

End MapFacts.

(** ** The catalog *)

(** Every rule of a catalog built through the registration methods names a
    registered framework. *)
Lemma reachable_frameworks_registered (this : RuleEngine.t) :
  reachable this ->
  forall rule,
    In rule (Map_values (RuleEngine.rules this)) ->
    Map_has (RuleEngine.frameworks this) (Rule.framework rule) = true.
Proof.
  induction 1 as [|this framework R IH|this rule0 R IH]; intros rule Hin.
  - destruct Hin.
  - simpl in *. apply Map_has_set. right. auto.
  - unfold registerRule in *.
    destruct (Map_has (RuleEngine.frameworks this) (Rule.framework rule0)) eqn:E;
      simpl in *.
    + apply In_values_Map_set in Hin as [->|Hin]; auto.
    + auto.
Qed.

Lemma includes_In (xs : list string) (x : string) :
  includes xs x = true <-> In x xs.
Proof.
  unfold includes. rewrite existsb_exists. split.
  - intros [y [Hy E]]. apply String.eqb_eq in E. now subst.
  - intros H. exists x. split; [assumption|apply String.eqb_refl].
Qed.

Lemma given_allows (allow : option (list string)) (x : option string) :
  match given allow with
  | Some l => includes_opt l x = true <-> allows allow x
  | None => allows allow x
  end.
Proof.
  destruct allow as [[|a l]|]; simpl; try exact I.
  destruct x as [s|]; simpl.
  - rewrite (includes_In (a :: l) s). simpl. split.
    + intros H. exists s. auto.
    + intros [s' [E H]]. congruence.
  - split; [discriminate|]. intros [s' [E _]]. discriminate.
Qed.

(** A rule is selected exactly when it belongs to the catalog and passes
    each of the three filters. *)
Lemma filterRules_selected (this : RuleEngine.t) (options : Options.t)
  (rule : Rule.t) :
  In rule
    (filterRules this (Options.frameworks options) (Options.categories options)
       (Options.severity options))
  <-> selected this options rule.
Proof.
  unfold filterRules, selected.
  pose proof (given_allows (Options.frameworks options) (Some (Rule.framework rule))) as F.
  pose proof (given_allows (Options.categories options) (Some (Rule.category rule))) as C.
  pose proof (given_allows (Options.severity options) (Rule.severity rule)) as S.
  destruct (given (Options.frameworks options));
    destruct (given (Options.categories options));
    destruct (given (Options.severity options));
    repeat rewrite filter_In; simpl in *; tauto.
Qed.

Lemma filterRules_incl (this : RuleEngine.t) (fs cs ss : option (list string)) :
  incl (filterRules this fs cs ss) (Map_values (RuleEngine.rules this)).
Proof.
  intros rule H.
  apply (filterRules_selected this
           {| Options.frameworks := fs; Options.categories := cs;
              Options.severity := ss |}) in H.
  apply H.
Qed.

(** ** Enumeration of an object *)

Lemma insert_by_index_perm {V : Type} (x : Z * (string * V))
  (l : list (Z * (string * V))) :
  Permutation (insert_by_index x l) (x :: l).
Proof.
  induction l as [|y l IH]; simpl; [reflexivity|].
  destruct (fst x <? fst y); [reflexivity|].
  rewrite IH. apply perm_swap.
Qed.

Lemma sort_by_index_perm {V : Type} (l : list (Z * (string * V))) :
  Permutation (fold_right insert_by_index [] l) l.
Proof.
  induction l as [|x l IH]; simpl; [reflexivity|].
  rewrite insert_by_index_perm. now constructor.
Qed.

(** [Object.entries] lists every property once. *)
Lemma Object_entries_perm {V : Type} (o : list (string * V)) :
  Permutation (Object_entries o) o.
Proof.
  unfold Object_entries. rewrite sort_by_index_perm.
  induction o as [|e o IH]; simpl; [reflexivity|].
  destruct (array_index (fst e)); simpl.
  - now constructor.
  - rewrite <- Permutation_middle. now constructor.
Qed.

Lemma concat_values_entries (o : Map (list Rule.t)) :
  Permutation (List.concat (Map_values (Object_entries o)))
    (List.concat (Map_values o)).
Proof.
  unfold Map_values. rewrite <- !flat_map_concat_map.
  apply Permutation_flat_map, Object_entries_perm.
Qed.


Lemma Map_set_set {V : Type} (m : Map V) (k : string) (v v' : V) :
  Map_set (Map_set m k v) k v' = Map_set m k v'.
Proof.
  induction m as [|[k0 v0] m IH]; simpl.
  - now rewrite String.eqb_refl.
  - destruct (String.eqb k0 k) eqn:E; simpl.
    + now rewrite String.eqb_refl.
    + now rewrite E, IH.
Qed.

(** ** Groups *)

Lemma Obj_get_Map_get {V : Type} (m : Map V) (k : string) :
  Obj_get m k = Map_get m k.
Proof. induction m as [|[k' v] m IH]; simpl; [reflexivity|]. now rewrite IH. Qed.

Lemma concat_values_Map_set (m : Map (list Rule.t)) (k : string) (rule : Rule.t) :
  Permutation
    (List.concat
       (Map_values
          (Map_set m k
             (match Map_get m k with Some g => g | None => [] end ++ [rule]))))
    (List.concat (Map_values m) ++ [rule]).
Proof.
  induction m as [|[k0 g0] m IH]; simpl.
  - reflexivity.
  - destruct (String.eqb k0 k) eqn:E; simpl.
    + rewrite <- !app_assoc. apply Permutation_app_head.
      apply Permutation_app_comm.
    + rewrite <- app_assoc. apply Permutation_app_head. exact IH.
Qed.

(** What holds of the groups after a prefix of the rules went in: a group is
    never empty, it holds rules of its own framework taken from the prefix,
    and the groups together hold the prefix. *)
Lemma groups_invariant (rules : list Rule.t) :
  forall groups done,
    (forall k g, In (k, g) groups ->
                 g <> [] /\ forall r, In r g -> Rule.framework r = k /\ In r done) ->
    Permutation (List.concat (Map_values groups)) done ->
    let groups' := fold_left group rules groups in
    (forall k g, In (k, g) groups' ->
                 g <> [] /\
                 forall r, In r g -> Rule.framework r = k /\ In r (done ++ rules)) /\
    Permutation (List.concat (Map_values groups')) (done ++ rules).
Proof.
  induction rules as [|rule rules IH]; intros groups done Hs Hp.
  - simpl. rewrite app_nil_r. auto.
  - cbn zeta. change (rule :: rules) with ([rule] ++ rules).
    rewrite fold_left_app, app_assoc. cbn [fold_left].
    apply IH.
    + intros k g Hin. unfold group in Hin. apply In_Map_set in Hin as [E|Hin].
      * injection E as -> ->. split.
        { destruct (Map_get groups (Rule.framework rule)) as [[|r0 g0]|];
            discriminate. }
        intros r Hr. apply in_app_or in Hr as [Hr|[<-|[]]].
        -- destruct (Map_get groups (Rule.framework rule)) as [g|] eqn:G;
             [|destruct Hr].
           apply Map_get_In in G. destruct (Hs _ _ G) as [_ Hg].
           destruct (Hg r Hr). split; [assumption|]. apply in_or_app. now left.
        -- split; [reflexivity|]. apply in_or_app. right. now left.
      * destruct (Hs _ _ Hin) as [Hne Hg]. split; [assumption|].
        intros r Hr. destruct (Hg r Hr). split; [assumption|].
        apply in_or_app. now left.
    + unfold group. rewrite concat_values_Map_set. now apply Permutation_app_tail.
Qed.

(** The groups partition the rules by framework. *)
Lemma groups_of_spec (rules : list Rule.t) :
  (forall k g, In (k, g) (groups_of rules) ->
               g <> [] /\ forall r, In r g -> Rule.framework r = k /\ In r rules) /\
  Permutation (List.concat (Map_values (groups_of rules))) rules.
Proof.
  apply (groups_invariant rules [] []).
  - intros k g [].
  - reflexivity.
Qed.

(** ** Grouping and the members of [Object.prototype] *)

(** On groups that have no inherited name among their keys, the callback
    throws for a rule whose framework code is inherited, and adds any other
    rule to the group of its framework. *)
Lemma push_rule_eq (groups : Map (list Rule.t)) (rule : Rule.t) :
  (forall k, inherited k = true -> Map_get groups k = None) ->
  push_rule groups rule =
  if inherited (Rule.framework rule)
  then Throw (ThrownError "groups[rule.framework].push is not a function")
  else Ok (group groups rule).
Proof.
  intros H. unfold push_rule, Obj_lookup, group. cbv zeta.
  rewrite !Obj_get_Map_get.
  destruct (inherited (Rule.framework rule)) eqn:I.
  - rewrite (H _ I). cbv beta iota. rewrite (H _ I). reflexivity.
  - destruct (Map_get groups (Rule.framework rule)) as [g|] eqn:G;
      cbv beta iota.
    + rewrite G. reflexivity.
    + rewrite Map_get_set_eq, Map_set_set. reflexivity.
Qed.

Lemma group_keeps_inherited_names_out (groups : Map (list Rule.t)) (rule : Rule.t) :
  inherited (Rule.framework rule) = false ->
  (forall k, inherited k = true -> Map_get groups k = None) ->
  forall k, inherited k = true -> Map_get (group groups rule) k = None.
Proof.
  intros I H k Ik. unfold group. rewrite Map_get_set_neq; [now apply H|].
  intros ->. congruence.
Qed.

Lemma reduce_push_rule (rules : list Rule.t) :
  forall groups,
    (forall k, inherited k = true -> Map_get groups k = None) ->
    reduce rules push_rule groups =
    if existsb (fun rule => inherited (Rule.framework rule)) rules
    then Throw (ThrownError "groups[rule.framework].push is not a function")
    else Ok (fold_left group rules groups).
Proof.
  induction rules as [|rule rules IH]; intros groups H; [reflexivity|].
  cbn [reduce existsb fold_left]. rewrite (push_rule_eq groups rule H).
  destruct (inherited (Rule.framework rule)) eqn:I; [reflexivity|].
  cbn [orb]. apply IH. now apply group_keeps_inherited_names_out.
Qed.

(** [groupRulesByFramework] throws when the framework code of a rule names
    a member of [Object.prototype], and returns the groups otherwise. *)
Lemma groupRulesByFramework_eq (rules : list Rule.t) :
  groupRulesByFramework rules =
  if existsb (fun rule => inherited (Rule.framework rule)) rules
  then Throw (ThrownError "groups[rule.framework].push is not a function")
  else Ok (groups_of rules).
Proof. apply reduce_push_rule. intros k _. reflexivity. Qed.

Lemma groupRulesByFramework_Ok (rules : list Rule.t) (groups : Map (list Rule.t)) :
  groupRulesByFramework rules = Ok groups ->
  groups = groups_of rules /\
  Forall (fun rule => inherited (Rule.framework rule) = false) rules.
Proof.
  rewrite groupRulesByFramework_eq.
  destruct (existsb _ rules) eqn:Ex; [discriminate|].
  intros E. injection E as <-. split; [reflexivity|].
  apply Forall_forall. intros rule Hin.
  destruct (inherited (Rule.framework rule)) eqn:I; [|reflexivity].
  assert (existsb (fun rule => inherited (Rule.framework rule)) rules = true)
    by (apply existsb_exists; now exists rule).
  congruence.
Qed.

Lemma groupRulesByFramework_ordinary (rules : list Rule.t) :
  Forall (fun rule => inherited (Rule.framework rule) = false) rules ->
  groupRulesByFramework rules = Ok (groups_of rules).
Proof.
  intros H. rewrite groupRulesByFramework_eq.
  destruct (existsb _ rules) eqn:Ex; [|reflexivity].
  apply existsb_exists in Ex as (rule & Hin & I).
  rewrite Forall_forall in H. rewrite (H rule Hin) in I. discriminate.
Qed.

(** In a catalog built through the registration methods, every group of
    selected rules belongs to a registered framework. *)
Lemma groups_registered (this : RuleEngine.t) (fs cs ss : option (list string)) :
  reachable this ->
  forall k g,
    In (k, g) (Object_entries (groups_of (filterRules this fs cs ss))) ->
    exists framework, Map_get (RuleEngine.frameworks this) k = Some framework.
Proof.
  intros R k g Hin.
  apply (Permutation_in _ (Object_entries_perm _)) in Hin.
  destruct (groups_of_spec (filterRules this fs cs ss)) as [Hs _].
  destruct (Hs k g Hin) as [Hne Hg].
  destruct g as [|r g]; [congruence|].
  destruct (Hg r (or_introl eq_refl)) as [<- Hr].
  apply filterRules_incl in Hr.
  pose proof (reachable_frameworks_registered this R r Hr) as H.
  unfold Map_has in H.
  destruct (Map_get (RuleEngine.frameworks this) (Rule.framework r)); eauto.
  discriminate.
Qed.

(** ** Loops *)

Section ForOf.
Context {A S : Type} (body : S -> A -> M S).

(** A loop whose body always completes, and keeps an invariant of the
    elements gone through, completes and establishes it for all of them. *)
Lemma for_of_total (I : list A -> S -> trace -> Prop) (xs : list A) :
  forall done s tr,
    I done s tr ->
    (forall done x s tr,
        In x xs -> I done s tr ->
        exists s' tr', body s x tr = (Ok s', tr') /\ I (done ++ [x]) s' tr') ->
    exists s' tr', for_of xs body s tr = (Ok s', tr') /\ I (done ++ xs) s' tr'.
Proof.
  induction xs as [|x xs IH]; intros done s tr HI Hbody.
  - exists s, tr. now rewrite app_nil_r.
  - destruct (Hbody done x s tr (or_introl eq_refl) HI) as (s1 & tr1 & E1 & H1).
    destruct (IH (done ++ [x]) s1 tr1 H1) as (s2 & tr2 & E2 & H2).
    { intros d y s0 tr0 Hy. apply Hbody. now right. }
    exists s2, tr2. split.
    + simpl. unfold bind. now rewrite E1.
    + now rewrite <- app_assoc in H2.
Qed.

(** A loop that completed established every invariant that its body keeps. *)
Lemma for_of_partial (I : list A -> S -> trace -> Prop) (xs : list A) :
  forall done s tr s' tr',
    I done s tr ->
    (forall done x s tr s' tr',
        In x xs -> I done s tr -> body s x tr = (Ok s', tr') ->
        I (done ++ [x]) s' tr') ->
    for_of xs body s tr = (Ok s', tr') ->
    I (done ++ xs) s' tr'.
Proof.
  induction xs as [|x xs IH]; intros done s tr s' tr' HI Hbody E.
  - simpl in E. injection E as <- <-. now rewrite app_nil_r.
  - simpl in E. unfold bind in E.
    destruct (body s x tr) as [[s1|e] tr1] eqn:E1; [|discriminate].
    change (x :: xs) with ([x] ++ xs). rewrite app_assoc.
    apply (IH (done ++ [x]) s1 tr1 s' tr').
    + apply (Hbody done x s tr s1 tr1); auto. now left.
    + intros d y s0 tr0 s0' tr0' Hy. apply Hbody. now right.
    + exact E.
Qed.

End ForOf.

(** ** One rule *)

Lemma count_status_app (s : status) (l : list RuleOutcome.t) (o : RuleOutcome.t) :
  count_status s (l ++ [o]) =
  count_status s l + (if status_eqb (RuleOutcome.status o) s then 1 else 0).
Proof.
  unfold count_status. rewrite filter_app, length_app. simpl.
  destruct (status_eqb (RuleOutcome.status o) s); simpl; lia.
Qed.

Lemma count_status_nonneg (s : status) (l : list RuleOutcome.t) :
  0 <= count_status s l.
Proof. unfold count_status. lia. Qed.

(** [executeRule] calls the predicate once.  It returns an outcome that
    reports the rule and is not SKIP, except when the predicate rejected
    with [undefined] or [null]: then reading [error.message] throws. *)
Lemma executeRule_spec (rule : Rule.t) (inputData : value) (tr : trace) :
  match Rule.evaluate rule inputData with
  | Rejects ThrownNullish =>
      exists m,
        executeRule rule inputData tr =
        (Throw (ThrownError m), tr ++ [(rule, inputData)])
  | _ =>
      exists o,
        executeRule rule inputData tr = (Ok o, tr ++ [(rule, inputData)]) /\
        reports inputData rule o /\
        RuleOutcome.status o <> SKIP
  end.
Proof.
  unfold executeRule, try_catch, bind, call_evaluate, reports.
  destruct (Rule.evaluate rule inputData) as [[e|]|[|m|]]; simpl.
  - eexists. split; [reflexivity|]. simpl.
    repeat split. destruct (Evaluation.passed e); discriminate.
  - eexists. split; [reflexivity|]. simpl.
    repeat split. discriminate.
  - eexists. reflexivity.
  - eexists. split; [reflexivity|]. simpl.
    repeat split; [|discriminate].
    intros m' Hm. injection Hm as <-.
    exists "Rule evaluation error: ". reflexivity.
  - eexists. split; [reflexivity|]. simpl.
    repeat split; [|discriminate]. intros m' Hm. discriminate.
Qed.

(** One iteration of the loop of [executeFrameworkRules] always completes:
    it calls the predicate once and adds one outcome, which reports the
    rule and is not SKIP. *)
Lemma executeFrameworkRule_spec (inputData : value) (result : Tally.t)
  (rule : Rule.t) (tr : trace) :
  exists o result',
    executeFrameworkRule inputData result rule tr =
    (Ok result', tr ++ [(rule, inputData)]) /\
    Tally.rule_results result' = Tally.rule_results result ++ [o] /\
    reports inputData rule o /\
    RuleOutcome.status o <> SKIP /\
    Tally.skipped result' = Tally.skipped result /\
    Tally.passed result' =
    Tally.passed result + (if status_eqb (RuleOutcome.status o) PASS then 1 else 0) /\
    Tally.failed result + (if status_eqb (RuleOutcome.status o) FAIL then 1 else 0)
    <= Tally.failed result' /\
    Tally.failed result' <=
    Tally.failed result + (if status_eqb (RuleOutcome.status o) FAIL then 1 else 0)
    + (if status_eqb (RuleOutcome.status o) ERROR then 1 else 0).
Proof.
  pose proof (executeRule_spec rule inputData tr) as H.
  unfold executeFrameworkRule, try_catch, bind.
  destruct (Rule.evaluate rule inputData) as [[e|]|[|m|]] eqn:E.
  3: { destruct H as (m & ->). simpl.
       eexists. eexists. split; [reflexivity|]. split; [reflexivity|].
       unfold reports. simpl. rewrite E.
       repeat split; try discriminate; try lia. }
  all: destruct H as (o & -> & Hr & Hs); exists o;
    destruct (RuleOutcome.status o) eqn:St; try congruence;
    eexists; (split; [reflexivity|]); (split; [reflexivity|]);
    (split; [exact Hr|]); (split; [congruence|]); simpl;
    repeat split; lia.
Qed.

(** ** Scoring *)

Lemma spec_weight_bounds (severity : option string) :
  1 <= spec_weight severity <= 4.
Proof.
  unfold spec_weight. destruct severity as [s|]; [|lia].
  repeat match goal with |- context [String.eqb ?a ?b] => destruct (String.eqb a b) end;
    lia.
Qed.

(** The weight table of the code is the one of the specification, except
    on the names of the members of [Object.prototype]. *)
Lemma getSeverityWeight_eq (severity : option string) :
  getSeverityWeight severity =
  if inherited_severity severity then Member else Plain (spec_weight severity).
Proof.
  destruct severity as [s|]; [|reflexivity].
  unfold getSeverityWeight, inherited_severity, Obj_lookup, spec_weight, weights.
  cbn [Obj_get].
  destruct (String.eqb_spec "low" s) as [<-|N1]; [reflexivity|].
  destruct (String.eqb_spec "medium" s) as [<-|N2]; [reflexivity|].
  destruct (String.eqb_spec "high" s) as [<-|N3]; [reflexivity|].
  destruct (String.eqb_spec "critical" s) as [<-|N4]; [reflexivity|].
  destruct (String.eqb_spec s "critical"); [congruence|].
  destruct (String.eqb_spec s "high"); [congruence|].
  destruct (String.eqb_spec s "medium"); [congruence|].
  destruct (String.eqb_spec s "low"); [congruence|].
  now destruct (inherited s).
Qed.

(** Sums of numbers and strings. *)
Lemma plus_0_l (x : sum) : plus (Sum 0) x = x.
Proof. destruct x as [n|]; [|reflexivity]. reflexivity. Qed.

Lemma plus_0_r (x : sum) : plus x (Sum 0) = x.
Proof. destruct x as [n|]; [|reflexivity]. simpl. f_equal. lia. Qed.

Lemma plus_assoc (x y z : sum) : plus x (plus y z) = plus (plus x y) z.
Proof.
  destruct x as [a|], y as [b|], z as [c|]; simpl; try reflexivity.
  f_equal. lia.
Qed.

Lemma add_plus (s : sum) (w : looked_up Z) : add s w = plus s (add (Sum 0) w).
Proof. destruct s as [n|], w as [w|]; simpl; try reflexivity. Qed.

(** What one outcome adds to [weightedFailures] and [totalWeight]. *)
Lemma accumulate_adds (a b : sum) (o : RuleOutcome.t) :
  accumulate (a, b) o =
  (plus a (if status_eqb (RuleOutcome.status o) FAIL
           then add (Sum 0) (getSeverityWeight (RuleOutcome.severity o))
           else Sum 0),
   plus b (if status_eqb (RuleOutcome.status o) SKIP
           then Sum 0
           else add (Sum 0) (getSeverityWeight (RuleOutcome.severity o)))).
Proof.
  unfold accumulate.
  destruct (RuleOutcome.status o); cbn [status_eqb negb];
    rewrite ?plus_0_r, <- ?add_plus; reflexivity.
Qed.

Lemma fold_accumulate (l : list RuleOutcome.t) (a b : sum) :
  fold_left accumulate l (a, b) = (plus a (weightedFailures l), plus b (totalWeight l)).
Proof.
  unfold weightedFailures, totalWeight.
  revert a b. induction l as [|o l IH]; intros a b.
  - simpl. now rewrite !plus_0_r.
  - cbn [fold_left]. rewrite !accumulate_adds, IH, (IH (plus (Sum 0) _) (plus (Sum 0) _)).
    cbn [fst snd]. now rewrite !plus_0_l, !plus_assoc.
Qed.

Lemma weightedFailures_cons (o : RuleOutcome.t) (l : list RuleOutcome.t) :
  weightedFailures (o :: l) =
  plus (if status_eqb (RuleOutcome.status o) FAIL
        then add (Sum 0) (getSeverityWeight (RuleOutcome.severity o))
        else Sum 0)
    (weightedFailures l).
Proof.
  unfold weightedFailures at 1. cbn [fold_left].
  rewrite accumulate_adds, fold_accumulate. cbn [fst]. now rewrite plus_0_l.
Qed.

Lemma totalWeight_cons (o : RuleOutcome.t) (l : list RuleOutcome.t) :
  totalWeight (o :: l) =
  plus (if status_eqb (RuleOutcome.status o) SKIP
        then Sum 0
        else add (Sum 0) (getSeverityWeight (RuleOutcome.severity o)))
    (totalWeight l).
Proof.
  unfold totalWeight at 1. cbn [fold_left].
  rewrite accumulate_adds, fold_accumulate. cbn [snd]. now rewrite plus_0_l.
Qed.

Lemma weightedFailures_app (l1 l2 : list RuleOutcome.t) :
  weightedFailures (l1 ++ l2) = plus (weightedFailures l1) (weightedFailures l2).
Proof.
  induction l1 as [|o l1 IH]; [now rewrite plus_0_l|].
  rewrite <- app_comm_cons. now rewrite !weightedFailures_cons, IH, plus_assoc.
Qed.

Lemma totalWeight_app (l1 l2 : list RuleOutcome.t) :
  totalWeight (l1 ++ l2) = plus (totalWeight l1) (totalWeight l2).
Proof.
  induction l1 as [|o l1 IH]; [now rewrite plus_0_l|].
  rewrite <- app_comm_cons. now rewrite !totalWeight_cons, IH, plus_assoc.
Qed.

(** The sums of the specification. *)
Lemma spec_weight_sum_cons (counted : status -> bool) (o : RuleOutcome.t)
  (l : list RuleOutcome.t) :
  spec_weight_sum counted (o :: l) =
  (if counted (RuleOutcome.status o) then spec_weight (RuleOutcome.severity o) else 0)
  + spec_weight_sum counted l.
Proof.
  unfold spec_weight_sum. cbn [fold_right].
  destruct (counted (RuleOutcome.status o)); lia.
Qed.

Lemma spec_weight_sum_app (counted : status -> bool) (l1 l2 : list RuleOutcome.t) :
  spec_weight_sum counted (l1 ++ l2) =
  spec_weight_sum counted l1 + spec_weight_sum counted l2.
Proof.
  induction l1 as [|o l1 IH]; [reflexivity|].
  rewrite <- app_comm_cons, !spec_weight_sum_cons, IH. lia.
Qed.

(** The failed weight is part of the counted weight. *)
Lemma weights_ordered (l : list RuleOutcome.t) :
  0 <= spec_weight_sum (fun s => status_eqb s FAIL) l
    <= spec_weight_sum (fun s => negb (status_eqb s SKIP)) l.
Proof.
  induction l as [|o l IH]; [unfold spec_weight_sum; simpl; lia|].
  rewrite !spec_weight_sum_cons.
  pose proof (spec_weight_bounds (RuleOutcome.severity o)).
  destruct (RuleOutcome.status o); simpl; lia.
Qed.

Lemma counts_a_member_cons (counted : status -> bool) (o : RuleOutcome.t)
  (l : list RuleOutcome.t) :
  counts_a_member counted (o :: l) =
  (counted (RuleOutcome.status o) && inherited_severity (RuleOutcome.severity o))
  || counts_a_member counted l.
Proof. reflexivity. Qed.

Lemma counts_a_member_app (counted : status -> bool) (l1 l2 : list RuleOutcome.t) :
  counts_a_member counted (l1 ++ l2) =
  counts_a_member counted l1 || counts_a_member counted l2.
Proof. unfold counts_a_member. apply existsb_app. Qed.

(** A failed member is a counted member. *)
Lemma failed_member_is_counted (l : list RuleOutcome.t) :
  counts_a_member (fun s => status_eqb s FAIL) l = true ->
  counts_a_member (fun s => negb (status_eqb s SKIP)) l = true.
Proof.
  induction l as [|o l IH]; [discriminate|].
  rewrite !counts_a_member_cons.
  destruct (RuleOutcome.status o),
    (inherited_severity (RuleOutcome.severity o));
    cbn [status_eqb negb andb orb]; intros H;
    first [reflexivity | now apply IH | discriminate].
Qed.

(** The two sums of the code: those of the specification, unless an
    outcome that is counted has a severity that names a member of
    [Object.prototype]. *)
Lemma sum_of_the_code (counted : status -> bool) (l : list RuleOutcome.t) :
  fold_right
    (fun o acc =>
       plus (if counted (RuleOutcome.status o)
             then add (Sum 0) (getSeverityWeight (RuleOutcome.severity o))
             else Sum 0) acc)
    (Sum 0) l =
  if counts_a_member counted l then Text
  else Sum (spec_weight_sum counted l).
Proof.
  induction l as [|o l IH]; [reflexivity|].
  cbn [fold_right]. rewrite IH, counts_a_member_cons, spec_weight_sum_cons.
  rewrite getSeverityWeight_eq.
  destruct (counted (RuleOutcome.status o)); cbn [andb].
  - destruct (inherited_severity (RuleOutcome.severity o)); cbn [orb add];
      [reflexivity|].
    destruct (counts_a_member counted l); reflexivity.
  - cbn [orb]. rewrite plus_0_l. reflexivity.
Qed.

Lemma weightedFailures_eq (l : list RuleOutcome.t) :
  weightedFailures l =
  if counts_a_member (fun s => status_eqb s FAIL) l then Text
  else Sum (spec_weight_sum (fun s => status_eqb s FAIL) l).
Proof.
  rewrite <- sum_of_the_code.
  induction l as [|o l IH]; [reflexivity|].
  rewrite weightedFailures_cons, IH. reflexivity.
Qed.

Lemma totalWeight_eq (l : list RuleOutcome.t) :
  totalWeight l =
  if counts_a_member (fun s => negb (status_eqb s SKIP)) l then Text
  else Sum (spec_weight_sum (fun s => negb (status_eqb s SKIP)) l).
Proof.
  rewrite <- sum_of_the_code.
  induction l as [|o l IH]; [reflexivity|].
  rewrite totalWeight_cons, IH. cbn [fold_right].
  destruct (status_eqb (RuleOutcome.status o) SKIP); reflexivity.
Qed.

(** Only SKIP outcomes carry no weight. *)
Lemma all_skipped_weigh_nothing (l : list RuleOutcome.t) :
  Z.of_nat (List.length l) - count_status SKIP l = 0 ->
  counts_a_member (fun s => negb (status_eqb s SKIP)) l = false /\
  spec_weight_sum (fun s => negb (status_eqb s SKIP)) l = 0.
Proof.
  unfold count_status.
  induction l as [|o l IH]; [split; reflexivity|].
  rewrite counts_a_member_cons, spec_weight_sum_cons. cbn [filter List.length].
  pose proof (filter_length_le (fun o => status_eqb (RuleOutcome.status o) SKIP) l)
    as Hle.
  destruct (status_eqb (RuleOutcome.status o) SKIP); cbn [List.length negb andb orb];
    rewrite ?Nat2Z.inj_succ; intros H; [|lia].
  destruct IH as [-> ->]; [lia|]. split; reflexivity.
Qed.

Lemma counted_weight_positive (l : list RuleOutcome.t) :
  Z.of_nat (List.length l) - count_status SKIP l <> 0 ->
  0 < spec_weight_sum (fun s => negb (status_eqb s SKIP)) l.
Proof.
  unfold count_status.
  induction l as [|o l IH]; [simpl; lia|].
  rewrite spec_weight_sum_cons. cbn [filter List.length].
  pose proof (filter_length_le (fun o => status_eqb (RuleOutcome.status o) SKIP) l)
    as Hle.
  pose proof (spec_weight_bounds (RuleOutcome.severity o)) as Hw.
  pose proof (weights_ordered l) as Ho.
  destruct (status_eqb (RuleOutcome.status o) SKIP); cbn [List.length negb];
    rewrite ?Nat2Z.inj_succ; intros H; [|lia].
  assert (0 < spec_weight_sum (fun s => negb (status_eqb s SKIP)) l) by (apply IH; lia).
  lia.
Qed.

(** [calculateFrameworkRiskScore] in terms of the two sums. *)
Lemma calculateFrameworkRiskScore_eq (r : FrameworkResult.t) :
  calculateFrameworkRiskScore r =
  if FrameworkResult.total r - FrameworkResult.skipped r =? 0 then of_Z 0
  else weighted_percentage (weightedFailures (FrameworkResult.rule_results r))
         (totalWeight (FrameworkResult.rule_results r)).
Proof.
  unfold calculateFrameworkRiskScore. rewrite fold_accumulate.
  now rewrite !plus_0_l.
Qed.

(** The percentage of two sums: 0 as soon as a counted outcome has a
    severity that names a member of [Object.prototype], and the percentage
    of the two sums of the specification otherwise. *)
Lemma weighted_percentage_eq (l : list RuleOutcome.t) :
  weighted_percentage (weightedFailures l) (totalWeight l) =
  if counts_a_member (fun s => negb (status_eqb s SKIP)) l then of_Z 0
  else if spec_weight_sum (fun s => negb (status_eqb s SKIP)) l >? 0
       then percentage (spec_weight_sum (fun s => status_eqb s FAIL) l)
              (spec_weight_sum (fun s => negb (status_eqb s SKIP)) l)
       else of_Z 0.
Proof.
  rewrite weightedFailures_eq, totalWeight_eq.
  destruct (counts_a_member (fun s => negb (status_eqb s SKIP)) l) eqn:C;
    [reflexivity|].
  destruct (counts_a_member (fun s => status_eqb s FAIL) l) eqn:F.
  - apply failed_member_is_counted in F. congruence.
  - reflexivity.
Qed.

Lemma calculateFrameworkRiskScore_cases (r : FrameworkResult.t) :
  calculateFrameworkRiskScore r =
  if FrameworkResult.total r - FrameworkResult.skipped r =? 0 then of_Z 0
  else if counts_a_member (fun s => negb (status_eqb s SKIP))
            (FrameworkResult.rule_results r) then of_Z 0
  else if spec_weight_sum (fun s => negb (status_eqb s SKIP))
            (FrameworkResult.rule_results r) >? 0
       then percentage
              (spec_weight_sum (fun s => status_eqb s FAIL)
                 (FrameworkResult.rule_results r))
              (spec_weight_sum (fun s => negb (status_eqb s SKIP))
                 (FrameworkResult.rule_results r))
       else of_Z 0.
Proof. now rewrite calculateFrameworkRiskScore_eq, weighted_percentage_eq. Qed.

Lemma zero_in_range : in_percent_range (of_Z 0).
Proof. unfold in_percent_range, leq, of_Z. simpl. split; discriminate. Qed.

(** The framework risk score is a number between 0 and 100. *)
Lemma calculateFrameworkRiskScore_range (r : FrameworkResult.t) :
  in_percent_range (calculateFrameworkRiskScore r).
Proof.
  rewrite calculateFrameworkRiskScore_cases.
  destruct (_ =? 0); [apply zero_in_range|].
  destruct (counts_a_member _ _); [apply zero_in_range|].
  destruct (Z.gtb_spec
              (spec_weight_sum (fun s => negb (status_eqb s SKIP))
                 (FrameworkResult.rule_results r)) 0) as [P|N];
    [|apply zero_in_range].
  apply percentage_range; [apply weights_ordered|assumption].
Qed.

(** ** One framework *)

Lemma count_status_concat (s : status) (l1 l2 : list RuleOutcome.t) :
  count_status s (l1 ++ l2) = count_status s l1 + count_status s l2.
Proof. unfold count_status. rewrite filter_app, length_app. lia. Qed.

Lemma count_status_le_length (s : status) (l : list RuleOutcome.t) :
  count_status s l <= Z.of_nat (List.length l).
Proof.
  unfold count_status.
  pose proof (filter_length_le (fun o => status_eqb (RuleOutcome.status o) s) l).
  lia.
Qed.

(** The loop of [executeFrameworkRules] completes whatever the predicates
    do: it calls each of them once, in order, and leaves one outcome per
    rule. *)
Lemma tally_loop (inputData : value) (rules : list Rule.t) (tr : trace) :
  exists result,
    for_of rules (executeFrameworkRule inputData) Tally.zero tr =
    (Ok result, tr ++ map (fun rule => (rule, inputData)) rules) /\
    Forall2 (reports inputData) rules (Tally.rule_results result) /\
    Forall (fun o => RuleOutcome.status o <> SKIP) (Tally.rule_results result) /\
    Tally.skipped result = 0 /\
    Tally.passed result = count_status PASS (Tally.rule_results result) /\
    count_status FAIL (Tally.rule_results result) <= Tally.failed result /\
    Tally.failed result <=
    count_status FAIL (Tally.rule_results result) +
    count_status ERROR (Tally.rule_results result).
Proof.
  destruct (for_of_total (executeFrameworkRule inputData)
              (fun done result tr' =>
                 tr' = tr ++ map (fun rule => (rule, inputData)) done /\
                 Forall2 (reports inputData) done (Tally.rule_results result) /\
                 Forall (fun o => RuleOutcome.status o <> SKIP)
                   (Tally.rule_results result) /\
                 Tally.skipped result = 0 /\
                 Tally.passed result = count_status PASS (Tally.rule_results result) /\
                 count_status FAIL (Tally.rule_results result) <= Tally.failed result /\
                 Tally.failed result <=
                 count_status FAIL (Tally.rule_results result) +
                 count_status ERROR (Tally.rule_results result))
              rules [] Tally.zero tr) as (result & tr' & E & I).
  - simpl. rewrite app_nil_r. repeat split; try constructor; reflexivity.
  - intros done rule result tr0 _ (-> & F2 & NS & Sk & Pa & Fl & Fu).
    destruct (executeFrameworkRule_spec inputData result rule
                (tr ++ map (fun rule => (rule, inputData)) done))
      as (o & result' & E & RR & Rep & St & Sk' & Pa' & Fl' & Fu').
    exists result', ((tr ++ map (fun rule => (rule, inputData)) done) ++
                     [(rule, inputData)]).
    split; [exact E|].
    rewrite RR, !count_status_app.
    split; [now rewrite map_app, app_assoc|].
    split; [apply Forall2_app; [assumption|now constructor]|].
    split; [apply Forall_app; split; [assumption|now constructor]|].
    destruct (RuleOutcome.status o); simpl in *; repeat split; try lia; congruence.
  - simpl in I. destruct I as (-> & I). exists result. split; [exact E|exact I].
Qed.

(** [executeFrameworkRules] on a registered framework completes. *)
Lemma executeFrameworkRules_registered (this : RuleEngine.t) (frameworkCode : string)
  (rules : list Rule.t) (inputData : value) (tr : trace) (framework : Framework.t) :
  Map_get (RuleEngine.frameworks this) frameworkCode = Some framework ->
  exists r,
    executeFrameworkRules this frameworkCode rules inputData tr =
    (Ok r, tr ++ map (fun rule => (rule, inputData)) rules) /\
    tallies inputData rules r.
Proof.
  intros G. destruct (tally_loop inputData rules tr)
    as (result & E & F2 & NS & Sk & Pa & Fl & Fu).
  unfold executeFrameworkRules, bind. rewrite G. simpl. rewrite E.
  eexists. split; [reflexivity|].
  unfold tallies. simpl. repeat split; assumption.
Qed.

(** On a framework that is not registered it throws before any predicate
    is called. *)
Lemma executeFrameworkRules_unregistered (this : RuleEngine.t)
  (frameworkCode : string) (rules : list Rule.t) (inputData : value) (tr : trace) :
  Map_get (RuleEngine.frameworks this) frameworkCode = None ->
  exists e,
    executeFrameworkRules this frameworkCode rules inputData tr = (Throw e, tr).
Proof.
  intros G. unfold executeFrameworkRules, bind. rewrite G. simpl.
  eexists. reflexivity.
Qed.

(** Whenever [executeFrameworkRules] returns a result, it called every
    predicate once and the result tallies the rules. *)
Lemma executeFrameworkRules_Ok (this : RuleEngine.t) (frameworkCode : string)
  (rules : list Rule.t) (inputData : value) (tr tr' : trace)
  (r : FrameworkResult.t) :
  executeFrameworkRules this frameworkCode rules inputData tr = (Ok r, tr') ->
  tr' = tr ++ map (fun rule => (rule, inputData)) rules /\
  tallies inputData rules r.
Proof.
  intros E.
  destruct (Map_get (RuleEngine.frameworks this) frameworkCode) as [fw|] eqn:G.
  - destruct (executeFrameworkRules_registered this frameworkCode rules inputData
                tr fw G) as (r0 & E0 & T).
    rewrite E0 in E. injection E as <- <-. auto.
  - destruct (executeFrameworkRules_unregistered this frameworkCode rules
                inputData tr G) as (e & E0).
    rewrite E0 in E. discriminate.
Qed.

(** The scores of a framework result that tallies its rules. *)
Lemma tallies_scores (inputData : value) (rules : list Rule.t)
  (r : FrameworkResult.t) :
  tallies inputData rules r ->
  FrameworkResult.compliance_percentage r =
  spec_percentage (FrameworkResult.passed r) (FrameworkResult.total r)
    (FrameworkResult.skipped r) /\
  in_percent_range (FrameworkResult.compliance_percentage r) /\
  in_percent_range (FrameworkResult.risk_score r).
Proof.
  intros (F2 & NS & To & Pa & Sk & Fl & Fu & Cp & Rs).
  pose proof (Forall2_length F2) as Len.
  pose proof (count_status_le_length PASS (FrameworkResult.rule_results r)) as Hp.
  pose proof (count_status_nonneg PASS (FrameworkResult.rule_results r)) as Hp0.
  rewrite Cp, Rs. unfold spec_percentage. rewrite Sk, Z.sub_0_r.
  destruct (Z.gtb_spec (FrameworkResult.total r) 0) as [P|N].
  - destruct (Z.eqb_spec (FrameworkResult.total r) 0) as [Z0|_]; [lia|].
    split; [reflexivity|]. split.
    + apply percentage_range; lia.
    + apply calculateFrameworkRiskScore_range.
  - destruct (Z.eqb_spec (FrameworkResult.total r) 0) as [_|NZ]; [|lia].
    split; [reflexivity|]. split.
    + apply zero_in_range.
    + apply calculateFrameworkRiskScore_range.
Qed.

(** ** The whole evaluation *)

(** The summary fails exactly on [undefined] and [null], and calls no
    predicate. *)
Lemma summarizeInputData_spec (inputData : value) (tr : trace) :
  if nullish inputData
  then exists e, summarizeInputData inputData tr = (Throw e, tr)
  else exists summary,
      summarizeInputData inputData tr = (Ok summary, tr) /\
      InputSummary.has_system_info summary = truthy (get_prop inputData "system_info") /\
      InputSummary.has_security_config summary =
      truthy (get_prop inputData "security_config") /\
      InputSummary.has_services summary = truthy (get_prop inputData "services") /\
      InputSummary.has_network summary = truthy (get_prop inputData "network").
Proof.
  unfold summarizeInputData, bind.
  destruct inputData; simpl; eexists; try reflexivity; repeat split.
Qed.

(** One iteration of the loop of [executeCompliance] that completed. *)
Lemma executeFramework_Ok (this : RuleEngine.t) (inputData : value)
  (results results' : Totals.t) (frameworkCode : string) (rules : list Rule.t)
  (tr tr' : trace) :
  executeFramework this inputData results (frameworkCode, rules) tr = (Ok results', tr') ->
  exists r,
    tr' = tr ++ map (fun rule => (rule, inputData)) rules /\
    tallies inputData rules r /\
    Totals.passed_rules results' = Totals.passed_rules results + FrameworkResult.passed r /\
    Totals.failed_rules results' = Totals.failed_rules results + FrameworkResult.failed r /\
    Totals.skipped_rules results' =
    Totals.skipped_rules results + FrameworkResult.skipped r /\
    Totals.framework_results results' =
    Map_set (Totals.framework_results results) frameworkCode r /\
    Totals.detailed_results results' =
    Totals.detailed_results results ++ FrameworkResult.rule_results r.
Proof.
  unfold executeFramework, bind. intros E.
  destruct (executeFrameworkRules this frameworkCode rules inputData tr)
    as [[r|e] tr1] eqn:R; [|discriminate].
  apply executeFrameworkRules_Ok in R as [-> T].
  injection E as <- <-. exists r.
  split; [reflexivity|]. split; [exact T|]. simpl. repeat split.
Qed.

(** What the loop of [executeCompliance] has established when it
    completes. *)
Lemma totals_loop (this : RuleEngine.t) (inputData : value)
  (groups : Map (list Rule.t)) (tr tr' : trace) (totals : Totals.t) :
  for_of groups (executeFramework this inputData) Totals.zero tr = (Ok totals, tr') ->
  tr' = tr ++ map (fun rule => (rule, inputData)) (List.concat (Map_values groups)) /\
  Forall2 (reports inputData) (List.concat (Map_values groups))
    (Totals.detailed_results totals) /\
  Forall (fun o => RuleOutcome.status o <> SKIP) (Totals.detailed_results totals) /\
  Totals.skipped_rules totals = 0 /\
  Totals.passed_rules totals = count_status PASS (Totals.detailed_results totals) /\
  count_status FAIL (Totals.detailed_results totals) <= Totals.failed_rules totals /\
  Totals.failed_rules totals <=
  count_status FAIL (Totals.detailed_results totals) +
  count_status ERROR (Totals.detailed_results totals) /\
  forall code r,
    In (code, r) (Totals.framework_results totals) ->
    exists rules, In (code, rules) groups /\ tallies inputData rules r.
Proof.
  intros E.
  apply (for_of_partial (executeFramework this inputData)
           (fun done totals tr' =>
              tr' = tr ++ map (fun rule => (rule, inputData))
                            (List.concat (Map_values done)) /\
              Forall2 (reports inputData) (List.concat (Map_values done))
                (Totals.detailed_results totals) /\
              Forall (fun o => RuleOutcome.status o <> SKIP)
                (Totals.detailed_results totals) /\
              Totals.skipped_rules totals = 0 /\
              Totals.passed_rules totals =
              count_status PASS (Totals.detailed_results totals) /\
              count_status FAIL (Totals.detailed_results totals)
              <= Totals.failed_rules totals /\
              Totals.failed_rules totals <=
              count_status FAIL (Totals.detailed_results totals) +
              count_status ERROR (Totals.detailed_results totals) /\
              forall code r,
                In (code, r) (Totals.framework_results totals) ->
                exists rules, In (code, rules) done /\ tallies inputData rules r)
           groups [] Totals.zero tr totals tr') in E.
  - exact E.
  - simpl. rewrite app_nil_r.
    repeat split; try constructor; try (unfold count_status; simpl; lia).
  - clear E. intros done [code rules] s tr0 s' tr0' _
      (-> & F2 & NS & Sk & Pa & Fl & Fu & FR) Ex.
    apply executeFramework_Ok in Ex
      as (r & -> & T & Pa' & Fa' & Sk' & FR' & DR').
    pose proof T as (F2r & NSr & To & Par & Skr & Flr & Fur & _).
    unfold Map_values. rewrite map_app, concat_app. simpl. rewrite app_nil_r.
    rewrite DR', !count_status_concat.
    split; [now rewrite map_app, app_assoc|].
    split; [now apply Forall2_app|].
    split; [apply Forall_app; now split|].
    repeat split; try lia.
    intros c r0 Hin. rewrite FR' in Hin.
    apply In_Map_set in Hin as [Eq|Hin].
    + injection Eq as -> ->. exists rules. split; [|assumption].
      apply in_or_app. right. now left.
    + destruct (FR c r0 Hin) as (rs & Hrs & Trs). exists rs. split; [|assumption].
      apply in_or_app. now left.
Qed.

(** The loop completes when every group belongs to a registered
    framework. *)
Lemma totals_loop_total (this : RuleEngine.t) (inputData : value)
  (groups : Map (list Rule.t)) (tr : trace) :
  (forall k g, In (k, g) groups ->
               exists framework,
                 Map_get (RuleEngine.frameworks this) k = Some framework) ->
  exists totals tr',
    for_of groups (executeFramework this inputData) Totals.zero tr = (Ok totals, tr').
Proof.
  intros Reg.
  destruct (for_of_total (executeFramework this inputData) (fun _ _ _ => True)
              groups [] Totals.zero tr I) as (totals & tr' & E & _).
  - intros done [k g] s tr0 Hin _.
    destruct (Reg k g Hin) as (fw & G).
    destruct (executeFrameworkRules_registered this k g inputData tr0 fw G)
      as (r & E & _).
    unfold executeFramework, bind. rewrite E. eexists. eexists. split; [reflexivity|exact I].
  - eauto.
Qed.

(** The result that [executeCompliance] assembles from the summary and the
    totals of the loop. *)
Lemma executeCompliance_Ok (env : Env.t) (this : RuleEngine.t) (inputData : value)
  (options : Options.t) (tr tr' : trace) (results : EvaluationResult.t) :
  executeCompliance env this inputData options tr = (Ok results, tr') ->
  nullish inputData = false /\
  summarizeInputData inputData tr =
  (Ok (EvaluationResult.input_data_summary results), tr) /\
  exists totals,
    for_of
      (Object_entries
         (groups_of
            (filterRules this (Options.frameworks options)
               (Options.categories options) (Options.severity options))))
      (executeFramework this inputData) Totals.zero tr = (Ok totals, tr') /\
    EvaluationResult.total_rules results =
    Z.of_nat
      (List.length
         (filterRules this (Options.frameworks options) (Options.categories options)
            (Options.severity options))) /\
    EvaluationResult.passed_rules results = Totals.passed_rules totals /\
    EvaluationResult.failed_rules results = Totals.failed_rules totals /\
    EvaluationResult.skipped_rules results = Totals.skipped_rules totals /\
    EvaluationResult.framework_results results = Totals.framework_results totals /\
    EvaluationResult.detailed_results results = Totals.detailed_results totals /\
    EvaluationResult.overall_risk_score results = calculateRiskScore results.
Proof.
  intros E. unfold executeCompliance, bind, try_catch, lift in E.
  pose proof (summarizeInputData_spec inputData tr) as S.
  destruct (nullish inputData).
  - destruct S as (e & S). rewrite S in E. discriminate.
  - split; [reflexivity|]. destruct S as (summary & S & _). rewrite S in E.
    destruct (groupRulesByFramework _) as [groups|e] eqn:G;
      [|unfold throw in E; discriminate].
    apply groupRulesByFramework_Ok in G as [-> _].
    destruct (for_of _ _ Totals.zero tr) as [[totals|e] tr1] eqn:L.
    + injection E as <- <-. split; [exact S|]. exists totals. repeat split.
    + unfold throw in E. discriminate.
Qed.

(** When [executeCompliance] returns a result the grouping completed: no
    selected rule has a framework code that names a member of
    [Object.prototype]. *)
Lemma executeCompliance_groups (env : Env.t) (this : RuleEngine.t)
  (inputData : value) (options : Options.t) (tr tr' : trace)
  (results : EvaluationResult.t) :
  executeCompliance env this inputData options tr = (Ok results, tr') ->
  groupRulesByFramework
    (filterRules this (Options.frameworks options) (Options.categories options)
       (Options.severity options)) =
  Ok (groups_of
        (filterRules this (Options.frameworks options) (Options.categories options)
           (Options.severity options))) /\
  Forall (fun rule => inherited (Rule.framework rule) = false)
    (filterRules this (Options.frameworks options) (Options.categories options)
       (Options.severity options)).
Proof.
  intros E. unfold executeCompliance, bind, try_catch, lift in E.
  destruct (summarizeInputData inputData tr) as [[summary|e] tr0]; [|discriminate].
  destruct (groupRulesByFramework _) as [groups|e] eqn:G;
    [|unfold throw in E; discriminate].
  destruct (groupRulesByFramework_Ok _ _ G) as [-> H]. now split.
Qed.

(** The order of execution, when the grouping completes. *)
Lemma execution_order_eq (this : RuleEngine.t) (options : Options.t) :
  Forall (fun rule => inherited (Rule.framework rule) = false)
    (filterRules this (Options.frameworks options) (Options.categories options)
       (Options.severity options)) ->
  execution_order this options =
  List.concat
    (Map_values
       (Object_entries
          (groups_of
             (filterRules this (Options.frameworks options)
                (Options.categories options) (Options.severity options))))).
Proof.
  intros H. unfold execution_order.
  now rewrite (groupRulesByFramework_ordinary _ H).
Qed.

(** On a snapshot other than [undefined] and [null], when a selected rule
    has a framework code that names a member of [Object.prototype],
    [executeCompliance] throws before any predicate is called. *)
Lemma executeCompliance_inherited (env : Env.t) (this : RuleEngine.t)
  (inputData : value) (options : Options.t) (tr : trace) :
  nullish inputData = false ->
  existsb (fun rule => inherited (Rule.framework rule))
    (filterRules this (Options.frameworks options) (Options.categories options)
       (Options.severity options)) = true ->
  executeCompliance env this inputData options tr =
  (Throw (ThrownError "groups[rule.framework].push is not a function"), tr).
Proof.
  intros N Ex.
  pose proof (summarizeInputData_spec inputData tr) as S. rewrite N in S.
  destruct S as (summary & S & _).
  unfold executeCompliance, bind, try_catch, lift. rewrite S.
  rewrite groupRulesByFramework_eq, Ex. reflexivity.
Qed.

(** [executeCompliance] completes on every snapshot other than [undefined]
    and [null], for every catalog built through the registration methods,
    when the grouping does. *)
Lemma executeCompliance_total (env : Env.t) (this : RuleEngine.t)
  (inputData : value) (options : Options.t) (tr : trace) :
  reachable this -> nullish inputData = false ->
  Forall (fun rule => inherited (Rule.framework rule) = false)
    (filterRules this (Options.frameworks options) (Options.categories options)
       (Options.severity options)) ->
  exists results tr',
    executeCompliance env this inputData options tr = (Ok results, tr').
Proof.
  intros R N H.
  destruct (totals_loop_total this inputData
              (Object_entries
                 (groups_of
                    (filterRules this (Options.frameworks options)
                       (Options.categories options) (Options.severity options))))
              tr)
    as (totals & tr' & L).
  { intros k g. apply groups_registered. exact R. }
  pose proof (summarizeInputData_spec inputData tr) as S. rewrite N in S.
  destruct S as (summary & S & _).
  unfold executeCompliance, bind, try_catch, lift.
  rewrite S, (groupRulesByFramework_ordinary _ H), L.
  eexists. eexists. reflexivity.
Qed.

(* ================================================================== *)
(** * The engine's contract *)

(** ** Worked examples *)

(** 23 passed rules out of 40: the quotient 0.575 is not a binary64 value,
    the product with 100 rounds to 57.49999999999999, and [Math.round]
    gives 57.  The binary64 operations of the Standard Library agree. *)
Example percentage_23_of_40 :
  percentage 23 40 = of_Z 57 /\ SF_percentage 23 40 = of_Z 57.
Proof. split; vm_compute; reflexivity. Qed.

(** On the quotients of counters up to 64 the model of binary64 rounding
    computes what the binary64 operations of the Standard Library do. *)
Example percentage_agrees_with_SpecFloat : agrees_with_SpecFloat 64 = true.
Proof. vm_compute. reflexivity. Qed.

(** A framework code that is an array index is enumerated before the
    others, whatever the order of registration. *)
Example entries_of_an_object :
  map fst (Object_entries [("CIS", 1); ("27001", 2); ("NIST", 3); ("7", 4)]) =
  ["7"; "27001"; "CIS"; "NIST"].
Proof. reflexivity. Qed.

(** Framework A has one critical rule that fails, framework B one low rule
    that passes: the overall risk score is 50, that of A is 100 and that
    of B is 0. *)
Example two_frameworks_scenario :
  match fst (executeCompliance Sample.env Sample.engine_two Sample.snapshot
               Options.empty []) with
  | Ok results =>
      EvaluationResult.total_rules results = 2 /\
      EvaluationResult.overall_risk_score results = of_Z 50 /\
      map (fun entry => (fst entry, FrameworkResult.risk_score (snd entry)))
        (EvaluationResult.framework_results results) =
      [("A", of_Z 100); ("B", of_Z 0)]
  | Throw _ => False
  end.
Proof. vm_compute. repeat split. Qed.

(** A framework registered under the code [constructor], with one rule:
    the grouping finds [Object] under that name, which has no [push], and
    [executeCompliance] throws before any predicate is called. *)
Example framework_named_constructor :
  executeCompliance Sample.env Sample.engine_inherited Sample.snapshot
    Options.empty [] =
  (Throw (ThrownError "groups[rule.framework].push is not a function"), []).
Proof. reflexivity. Qed.

(** The sample catalog is built by registration calls. *)
Lemma engine_four_reachable : reachable Sample.engine_four.
Proof.
  exact (reachable_rule _ Sample.rejecting_undefined
           (reachable_rule _ Sample.rejecting
              (reachable_rule _ Sample.passing
                 (reachable_rule _ Sample.failing
                    (reachable_framework _ Sample.frameworkB
                       (reachable_framework _ Sample.frameworkA reachable_new)))))).
Qed.

(** ** Rule errors and scoring *)

Lemma Forall2_split_at {A B : Type} (P : A -> B -> Prop) (l1 : list A) (a : A)
  (l2 : list A) (l' : list B) :
  Forall2 P (l1 ++ a :: l2) l' ->
  exists l1' b l2',
    l' = l1' ++ b :: l2' /\ Forall2 P l1 l1' /\ P a b /\ Forall2 P l2 l2'.
Proof.
  intros H. apply Forall2_app_inv_l in H as (l1' & l2' & H1 & H2 & ->).
  inversion H2 as [|a0 b l20 l2'' Hab H2' E1 E2]; subst.
  exists l1', b, l2''. auto.
Qed.

(** C1 as it was stated does not hold.  A rule of severity [high] whose
    predicate rejects with [new Error("boom")], alone in its framework: the
    outcome is ERROR, the [failed] counters of the framework and of the
    result are 0, and the weight 3 of the rule is in [totalWeight] but not
    in [weightedFailures], so the risk score is 0. *)
Lemma rejecting_rule_is_not_counted_as_failed :
  match fst (executeCompliance Sample.env Sample.engine_rejecting Sample.snapshot
               Options.empty []) with
  | Ok results =>
      map (fun o => (RuleOutcome.status o, RuleOutcome.message o))
        (EvaluationResult.detailed_results results) =
      [(ERROR, Some "Rule evaluation error: boom")] /\
      EvaluationResult.failed_rules results = 0 /\
      map (fun entry =>
             (fst entry,
              FrameworkResult.failed (snd entry),
              weightedFailures (FrameworkResult.rule_results (snd entry)),
              totalWeight (FrameworkResult.rule_results (snd entry)),
              FrameworkResult.risk_score (snd entry)))
        (EvaluationResult.framework_results results) =
      [("A", 0, Sum 0, Sum 3, of_Z 0)]
  | Throw _ => False
  end.
Proof. vm_compute. repeat split. Qed.

(** The ERROR outcome of a rule whose predicate rejected, within the
    result of its framework: its weight is added to [totalWeight] and not
    to [weightedFailures]. *)
Lemma tallies_error_outcome (inputData : value) (rules : list Rule.t)
  (r : FrameworkResult.t) (before after : list Rule.t) (rule : Rule.t) :
  tallies inputData rules r ->
  rules = before ++ rule :: after ->
  (exists reason, Rule.evaluate rule inputData = Rejects reason) ->
  exists outcomes_before o outcomes_after,
    FrameworkResult.rule_results r = outcomes_before ++ o :: outcomes_after /\
    List.length outcomes_before = List.length before /\
    RuleOutcome.status o = ERROR /\
    RuleOutcome.severity o = Rule.severity rule /\
    weightedFailures (FrameworkResult.rule_results r) =
    plus (weightedFailures outcomes_before) (weightedFailures outcomes_after) /\
    totalWeight (FrameworkResult.rule_results r) =
    plus (add (totalWeight outcomes_before) (getSeverityWeight (Rule.severity rule)))
      (totalWeight outcomes_after) /\
    FrameworkResult.risk_score r =
    weighted_percentage
      (plus (weightedFailures outcomes_before) (weightedFailures outcomes_after))
      (plus (add (totalWeight outcomes_before)
               (getSeverityWeight (Rule.severity rule)))
         (totalWeight outcomes_after)).
Proof.
  intros T -> [reason Hrej].
  destruct T as (F2 & NS & To & Pa & Sk & Fl & Fu & Cp & Rs).
  apply Forall2_split_at in F2 as (rb & o & ra & Err & Fb & Rep & Fa).
  destruct Rep as (Hcode & Hsev & Hst). rewrite Hrej in Hst. destruct Hst as [Hst _].
  assert (Hwf : weightedFailures (FrameworkResult.rule_results r) =
                plus (weightedFailures rb) (weightedFailures ra)).
  { rewrite Err, weightedFailures_app, weightedFailures_cons, Hst.
    cbn [status_eqb]. now rewrite plus_0_l. }
  assert (Htw : totalWeight (FrameworkResult.rule_results r) =
                plus (add (totalWeight rb) (getSeverityWeight (Rule.severity rule)))
                  (totalWeight ra)).
  { rewrite Err, totalWeight_app, totalWeight_cons, Hst, Hsev.
    cbn [status_eqb]. now rewrite plus_assoc, <- add_plus. }
  exists rb, o, ra.
  split; [exact Err|]. split; [now apply Forall2_length in Fb|].
  split; [exact Hst|]. split; [exact Hsev|].
  split; [exact Hwf|]. split; [exact Htw|].
  rewrite Rs, calculateFrameworkRiskScore_eq, Sk, To, Hwf, Htw.
  rewrite length_app. cbn [List.length].
  destruct (Z.eqb_spec (Z.of_nat (List.length before + S (List.length after)) - 0) 0);
    [lia|reflexivity].
Qed.

(** C1 (as amended).  When the predicate of a selected rule throws or
    rejects, the ERROR outcome of that rule is not counted as skipped (the
    [skipped] counter of its framework and [skipped_rules] stay 0), and its
    severity weight is added to the denominator of the framework's risk
    score ([totalWeight]) but not to the weighted-failure numerator
    ([weightedFailures]), which sums the FAIL outcomes only. *)
Theorem error_outcome_weighs_in_denominator_only (env : Env.t)
  (this : RuleEngine.t) (inputData : value) (options : Options.t)
  (tr tr' : trace) (results : EvaluationResult.t) :
  executeCompliance env this inputData options tr = (Ok results, tr') ->
  EvaluationResult.skipped_rules results = 0 /\
  exists groups,
    groupRulesByFramework
      (filterRules this (Options.frameworks options) (Options.categories options)
         (Options.severity options)) = Ok groups /\
    forall code r,
      In (code, r) (EvaluationResult.framework_results results) ->
      FrameworkResult.skipped r = 0 /\
      exists rules,
        In (code, rules) (Object_entries groups) /\
        forall before rule after,
          rules = before ++ rule :: after ->
          (exists reason, Rule.evaluate rule inputData = Rejects reason) ->
          exists outcomes_before o outcomes_after,
            FrameworkResult.rule_results r =
            outcomes_before ++ o :: outcomes_after /\
            List.length outcomes_before = List.length before /\
            RuleOutcome.status o = ERROR /\
            RuleOutcome.severity o = Rule.severity rule /\
            weightedFailures (FrameworkResult.rule_results r) =
            plus (weightedFailures outcomes_before)
              (weightedFailures outcomes_after) /\
            totalWeight (FrameworkResult.rule_results r) =
            plus (add (totalWeight outcomes_before)
                    (getSeverityWeight (Rule.severity rule)))
              (totalWeight outcomes_after) /\
            FrameworkResult.risk_score r =
            weighted_percentage
              (plus (weightedFailures outcomes_before)
                 (weightedFailures outcomes_after))
              (plus (add (totalWeight outcomes_before)
                       (getSeverityWeight (Rule.severity rule)))
                 (totalWeight outcomes_after)).
Proof.
  intros E.
  destruct (executeCompliance_groups _ _ _ _ _ _ _ E) as [G _].
  apply executeCompliance_Ok in E
    as (_ & _ & totals & L & _ & _ & _ & Sk & Fr & _).
  apply totals_loop in L as (_ & _ & _ & Sk0 & _ & _ & _ & FR).
  split; [now rewrite Sk|].
  eexists. split; [exact G|].
  intros code r Hin. rewrite Fr in Hin.
  destruct (FR code r Hin) as (rules & Hrules & T).
  split; [apply T|]. exists rules. split; [exact Hrules|].
  intros before rule after. now apply tallies_error_outcome.
Qed.

Lemma error_outcome_weighs_in_denominator_only_witness :
  EvaluationResult.skipped_rules Sample.result_all = 0 /\
  exists outcomes_before o outcomes_after,
    FrameworkResult.rule_results Sample.result_A =
    outcomes_before ++ o :: outcomes_after /\
    List.length outcomes_before = List.length [Sample.failing] /\
    RuleOutcome.status o = ERROR /\
    RuleOutcome.severity o = Rule.severity Sample.rejecting /\
    weightedFailures (FrameworkResult.rule_results Sample.result_A) =
    plus (weightedFailures outcomes_before) (weightedFailures outcomes_after) /\
    totalWeight (FrameworkResult.rule_results Sample.result_A) =
    plus (add (totalWeight outcomes_before)
            (getSeverityWeight (Rule.severity Sample.rejecting)))
      (totalWeight outcomes_after) /\
    FrameworkResult.risk_score Sample.result_A =
    weighted_percentage
      (plus (weightedFailures outcomes_before) (weightedFailures outcomes_after))
      (plus (add (totalWeight outcomes_before)
               (getSeverityWeight (Rule.severity Sample.rejecting)))
         (totalWeight outcomes_after)).
Proof.
  destruct (error_outcome_weighs_in_denominator_only Sample.env Sample.engine_four
              Sample.snapshot Options.empty [] (snd Sample.run_all)
              Sample.result_all) as [Hs (groups & G & H)].
  - vm_compute. reflexivity.
  - split; [exact Hs|].
    destruct (H "A" Sample.result_A) as (_ & rules & Hin & Hrej).
    + vm_compute. left. reflexivity.
    + vm_compute in G. injection G as <-.
      vm_compute in Hin. destruct Hin as [E|[E|[]]]; [|discriminate E].
      injection E as <-.
      exact (Hrej [Sample.failing] Sample.rejecting [Sample.rejecting_undefined]
               eq_refl (ex_intro _ (ThrownError "boom") eq_refl)).
Defined.

(** ** Error isolation *)

(** C2.  Whatever the predicates of the selected rules do,
    [executeCompliance] returns a result: every selected rule is evaluated
    exactly once, each has exactly one outcome in [detailed_results], and
    the outcome of a rule whose predicate throws or rejects has status
    ERROR and a message that ends with the message of the error.  This is
    so on every snapshot other than [undefined] and [null], on which the
    summary fails, and when no selected rule has a framework code that names
    a member of [Object.prototype], on which the grouping fails: the two
    failures of [executeCompliance] that no predicate causes. *)
Theorem rule_errors_are_isolated (env : Env.t) (this : RuleEngine.t)
  (inputData : value) (options : Options.t) (tr : trace) :
  reachable this ->
  nullish inputData = false ->
  Forall (fun rule => inherited (Rule.framework rule) = false)
    (filterRules this (Options.frameworks options) (Options.categories options)
       (Options.severity options)) ->
  exists results tr',
    executeCompliance env this inputData options tr = (Ok results, tr') /\
    tr' = tr ++ map (fun rule => (rule, inputData)) (execution_order this options) /\
    Permutation (execution_order this options)
      (filterRules this (Options.frameworks options) (Options.categories options)
         (Options.severity options)) /\
    Forall2 (reports inputData) (execution_order this options)
      (EvaluationResult.detailed_results results) /\
    EvaluationResult.total_rules results =
    Z.of_nat (List.length (EvaluationResult.detailed_results results)).
Proof.
  intros R N H.
  destruct (executeCompliance_total env this inputData options tr R N H)
    as (results & tr' & E).
  exists results, tr'. split; [exact E|].
  apply executeCompliance_Ok in E
    as (_ & _ & totals & L & To & _ & _ & _ & _ & Dr & _).
  apply totals_loop in L as (Htr & F2 & _).
  destruct (groups_of_spec
              (filterRules this (Options.frameworks options)
                 (Options.categories options) (Options.severity options)))
    as [_ Perm].
  pose proof (Permutation_trans (concat_values_entries _) Perm) as Perm'.
  rewrite (execution_order_eq this options H), Dr.
  split; [exact Htr|]. split; [exact Perm'|]. split; [exact F2|].
  rewrite To. apply Forall2_length in F2. rewrite <- F2.
  now rewrite (Permutation_length Perm').
Qed.

(** The rules of the sample catalog belong to frameworks A and B. *)
Lemma engine_four_ordinary :
  Forall (fun rule => inherited (Rule.framework rule) = false)
    (filterRules Sample.engine_four None None None).
Proof. repeat constructor. Qed.

Lemma rule_errors_are_isolated_witness :
  exists results tr',
    executeCompliance Sample.env Sample.engine_four Sample.snapshot Options.empty []
    = (Ok results, tr') /\
    tr' = [] ++ map (fun rule => (rule, Sample.snapshot))
                  (execution_order Sample.engine_four Options.empty) /\
    Permutation (execution_order Sample.engine_four Options.empty)
      (filterRules Sample.engine_four None None None) /\
    Forall2 (reports Sample.snapshot) (execution_order Sample.engine_four Options.empty)
      (EvaluationResult.detailed_results results) /\
    EvaluationResult.total_rules results =
    Z.of_nat (List.length (EvaluationResult.detailed_results results)).
Proof.
  apply (rule_errors_are_isolated Sample.env Sample.engine_four Sample.snapshot
           Options.empty []).
  - exact engine_four_reachable.
  - reflexivity.
  - exact engine_four_ordinary.
Defined.

(** ** The two percentages of a framework *)

(** C3 does not hold of the code.  [weights[severity] || 1] gives 1 for a
    severity that the table does not have, unless the severity names a
    member of [Object.prototype]: the lookup then finds that member, which
    is truthy, and [totalWeight +=] makes a string of the sum, which does
    not compare greater than 0.  Two failing rules of one framework, of
    severities [critical] and [constructor]: both outcomes are FAIL, the
    weights of the claim are 4 and 1 and its score is 100, and the risk
    score of the code is 0. *)
Theorem inherited_severity_makes_the_risk_score_0 :
  getSeverityWeight (Some "constructor") = Member /\
  spec_weight (Some "constructor") = 1 /\
  match fst (executeCompliance Sample.env Sample.engine_member Sample.snapshot
               Options.empty []) with
  | Ok results =>
      map (fun entry =>
             (fst entry,
              map (fun o => (RuleOutcome.status o, RuleOutcome.severity o))
                (FrameworkResult.rule_results (snd entry)),
              totalWeight (FrameworkResult.rule_results (snd entry)),
              FrameworkResult.risk_score (snd entry),
              spec_risk_score (FrameworkResult.rule_results (snd entry))))
        (EvaluationResult.framework_results results) =
      [("A", [(FAIL, Some "critical"); (FAIL, Some "constructor")], Text,
        of_Z 0, of_Z 100)]
  | Throw _ => False
  end.
Proof. vm_compute. repeat split. Qed.

(** C4.  In every framework result that [executeCompliance] produces,
    [compliance_percentage] is round(passed / (total - skipped) x 100), and
    0 when [total - skipped] is 0; [compliance_percentage] and [risk_score]
    both lie between 0 and 100. *)
Theorem framework_percentages (env : Env.t) (this : RuleEngine.t)
  (inputData : value) (options : Options.t) (tr tr' : trace)
  (results : EvaluationResult.t) :
  executeCompliance env this inputData options tr = (Ok results, tr') ->
  forall code r,
    In (code, r) (EvaluationResult.framework_results results) ->
    FrameworkResult.compliance_percentage r =
    spec_percentage (FrameworkResult.passed r) (FrameworkResult.total r)
      (FrameworkResult.skipped r) /\
    in_percent_range (FrameworkResult.compliance_percentage r) /\
    in_percent_range (FrameworkResult.risk_score r).
Proof.
  intros E code r Hin.
  apply executeCompliance_Ok in E
    as (_ & _ & totals & L & _ & _ & _ & _ & Fr & _).
  apply totals_loop in L as (_ & _ & _ & _ & _ & _ & _ & FR).
  rewrite Fr in Hin. destruct (FR code r Hin) as (rules & _ & T).
  exact (tallies_scores inputData rules r T).
Qed.

Lemma framework_percentages_witness :
  Forall
    (fun entry =>
       FrameworkResult.compliance_percentage (snd entry) =
       spec_percentage (FrameworkResult.passed (snd entry))
         (FrameworkResult.total (snd entry)) (FrameworkResult.skipped (snd entry)) /\
       in_percent_range (FrameworkResult.compliance_percentage (snd entry)) /\
       in_percent_range (FrameworkResult.risk_score (snd entry)))
    (EvaluationResult.framework_results Sample.result_all).
Proof.
  apply Forall_forall. intros [code r] Hin.
  apply (framework_percentages Sample.env Sample.engine_four Sample.snapshot
           Options.empty [] (snd Sample.run_all) Sample.result_all) with (code := code).
  - vm_compute. reflexivity.
  - exact Hin.
Defined.

(** ** The overall risk score *)

(** C5.  The overall risk score of every result is
    round(failed_rules / (total_rules - skipped_rules) x 100), computed
    from the three counters alone, and it is 0 when [total_rules] is 0 or
    when [total_rules - skipped_rules] is 0. *)
Theorem overall_risk_score_formula (env : Env.t) (this : RuleEngine.t)
  (inputData : value) (options : Options.t) (tr tr' : trace)
  (results : EvaluationResult.t) :
  executeCompliance env this inputData options tr = (Ok results, tr') ->
  EvaluationResult.overall_risk_score results =
  if EvaluationResult.total_rules results =? 0 then of_Z 0
  else spec_percentage (EvaluationResult.failed_rules results)
         (EvaluationResult.total_rules results)
         (EvaluationResult.skipped_rules results).
Proof.
  intros E.
  apply executeCompliance_Ok in E as (_ & _ & totals & _ & _ & _ & _ & _ & _ & _ & Rs).
  rewrite Rs. reflexivity.
Qed.

Lemma overall_risk_score_formula_witness :
  EvaluationResult.overall_risk_score Sample.result_all =
  if EvaluationResult.total_rules Sample.result_all =? 0 then of_Z 0
  else spec_percentage (EvaluationResult.failed_rules Sample.result_all)
         (EvaluationResult.total_rules Sample.result_all)
         (EvaluationResult.skipped_rules Sample.result_all).
Proof.
  apply (overall_risk_score_formula Sample.env Sample.engine_four Sample.snapshot
           Options.empty [] (snd Sample.run_all) Sample.result_all).
  vm_compute. reflexivity.
Defined.

(** ** Selection *)

Lemma given_None_filterRules (this : RuleEngine.t) (fs cs ss : option (list string)) :
  given fs = None -> given cs = None -> given ss = None ->
  filterRules this fs cs ss = Map_values (RuleEngine.rules this).
Proof. intros F C S. unfold filterRules. now rewrite F, C, S. Qed.

Lemma filter_nothing {A : Type} (p : A -> bool) (l : list A) :
  (forall x, In x l -> p x = false) -> filter p l = [].
Proof.
  induction l as [|a l IH]; intros H; [reflexivity|].
  simpl. rewrite (H a (or_introl eq_refl)). apply IH.
  intros x Hx. apply H. now right.
Qed.

Lemma unregistered_frameworks_select_nothing (this : RuleEngine.t)
  (fs : list string) (cs ss : option (list string)) :
  reachable this ->
  fs <> [] ->
  (forall c, In c fs -> Map_has (RuleEngine.frameworks this) c = false) ->
  filterRules this (Some fs) cs ss = [].
Proof.
  intros R NE Un. unfold filterRules.
  destruct fs as [|f fs]; [congruence|]. cbn [given].
  rewrite filter_nothing.
  - destruct (given cs); destruct (given ss); reflexivity.
  - intros rule Hin.
    destruct (includes (f :: fs) (Rule.framework rule)) eqn:I; [|reflexivity].
    apply includes_In in I. apply Un in I.
    rewrite (reachable_frameworks_registered this R rule Hin) in I. discriminate.
Qed.

(** C6.  The selected rules are exactly the rules of the catalog that pass
    each of the three allow-lists, an absent or empty list accepting every
    rule; [total_rules] of a result is their number, so with no filter it
    is the size of the catalog; and a [frameworks] list that names
    unregistered codes only yields a result with [total_rules = 0], not an
    error.  (A result is returned when no selected rule has a framework
    code that names a member of [Object.prototype].) *)
Theorem selection_is_the_intersection_of_the_filters (env : Env.t)
  (this : RuleEngine.t) (inputData : value) (options : Options.t) (tr : trace) :
  reachable this ->
  nullish inputData = false ->
  (forall rule,
      In rule
        (filterRules this (Options.frameworks options) (Options.categories options)
           (Options.severity options))
      <-> selected this options rule) /\
  (forall results tr',
      executeCompliance env this inputData options tr = (Ok results, tr') ->
      EvaluationResult.total_rules results =
      Z.of_nat
        (List.length
           (filterRules this (Options.frameworks options)
              (Options.categories options) (Options.severity options))) /\
      (given (Options.frameworks options) = None ->
       given (Options.categories options) = None ->
       given (Options.severity options) = None ->
       EvaluationResult.total_rules results =
       Z.of_nat (List.length (Map_values (RuleEngine.rules this))))) /\
  (Forall (fun rule => inherited (Rule.framework rule) = false)
     (filterRules this (Options.frameworks options) (Options.categories options)
        (Options.severity options)) ->
   exists results tr',
     executeCompliance env this inputData options tr = (Ok results, tr')) /\
  (forall fs,
      Options.frameworks options = Some fs -> fs <> [] ->
      (forall c, In c fs -> Map_has (RuleEngine.frameworks this) c = false) ->
      exists results tr',
        executeCompliance env this inputData options tr = (Ok results, tr') /\
        EvaluationResult.total_rules results = 0).
Proof.
  intros R N. split; [apply filterRules_selected|].
  split; [|split].
  - intros results tr' E.
    apply executeCompliance_Ok in E as (_ & _ & totals & _ & To & _).
    split; [exact To|].
    intros F C S. now rewrite To, given_None_filterRules.
  - now apply executeCompliance_total.
  - intros fs F NE Un.
    assert (Hnone : filterRules this (Options.frameworks options)
                      (Options.categories options) (Options.severity options) = []).
    { rewrite F. now apply unregistered_frameworks_select_nothing. }
    destruct (executeCompliance_total env this inputData options tr R N)
      as (results & tr' & E).
    { rewrite Hnone. constructor. }
    exists results, tr'. split; [exact E|].
    apply executeCompliance_Ok in E as (_ & _ & totals & _ & To & _).
    now rewrite To, Hnone.
Qed.

Lemma selection_is_the_intersection_of_the_filters_witness :
  exists results tr',
    executeCompliance Sample.env Sample.engine_four Sample.snapshot
      {| Options.frameworks := Some ["PCI"]; Options.categories := None;
         Options.severity := Some [] |} [] = (Ok results, tr') /\
    EvaluationResult.total_rules results = 0.
Proof.
  destruct (selection_is_the_intersection_of_the_filters Sample.env
              Sample.engine_four Sample.snapshot
              {| Options.frameworks := Some ["PCI"]; Options.categories := None;
                 Options.severity := Some [] |} [])
    as (_ & _ & _ & Un).
  - exact engine_four_reachable.
  - reflexivity.
  - apply (Un ["PCI"]); [reflexivity|discriminate|].
    intros c [<-|[]]. reflexivity.
Defined.

(** ** Weighting *)

(** C7.  Replacing the severity [low] of one FAIL outcome of a framework by
    [critical], every other outcome and the counters being the same, never
    decreases the risk score computed from the outcomes. *)
Theorem raising_a_failure_never_lowers_the_risk_score (r : FrameworkResult.t)
  (before after : list RuleOutcome.t) (o : RuleOutcome.t) :
  FrameworkResult.rule_results r = before ++ o :: after ->
  RuleOutcome.status o = FAIL ->
  RuleOutcome.severity o = Some "low" ->
  leq (calculateFrameworkRiskScore r)
    (calculateFrameworkRiskScore
       (with_rule_results r
          (before ++ with_severity o (Some "critical") :: after))).
Proof.
  intros Rr St Sev. rewrite !calculateFrameworkRiskScore_cases.
  unfold with_rule_results.
  cbn [FrameworkResult.total FrameworkResult.skipped FrameworkResult.rule_results].
  rewrite Rr.
  destruct (_ =? 0); [unfold leq, of_Z; discriminate|].
  rewrite !counts_a_member_app, !counts_a_member_cons, !spec_weight_sum_app,
    !spec_weight_sum_cons.
  unfold with_severity. cbn [RuleOutcome.status RuleOutcome.severity].
  rewrite St, Sev.
  change (inherited_severity (Some "low")) with false.
  change (inherited_severity (Some "critical")) with false.
  change (spec_weight (Some "low")) with 1.
  change (spec_weight (Some "critical")) with 4.
  cbn [status_eqb negb andb orb].
  destruct (counts_a_member _ before || counts_a_member _ after);
    [unfold leq, of_Z; discriminate|].
  pose proof (weights_ordered before). pose proof (weights_ordered after).
  match goal with
  | |- context [?a + (1 + ?b) >? 0] => destruct (Z.gtb_spec (a + (1 + b)) 0); [|lia]
  end.
  match goal with
  | |- context [?a + (4 + ?b) >? 0] => destruct (Z.gtb_spec (a + (4 + b)) 0); [|lia]
  end.
  apply percentage_mono; lia.
Qed.

Lemma raising_a_failure_never_lowers_the_risk_score_witness :
  leq
    (calculateFrameworkRiskScore
       (Sample.framework_result
          [Sample.outcome PASS (Some "high"); Sample.outcome FAIL (Some "low")]))
    (calculateFrameworkRiskScore
       (Sample.framework_result
          [Sample.outcome PASS (Some "high"); Sample.outcome FAIL (Some "critical")])).
Proof.
  apply (raising_a_failure_never_lowers_the_risk_score
           (Sample.framework_result
              [Sample.outcome PASS (Some "high"); Sample.outcome FAIL (Some "low")])
           [Sample.outcome PASS (Some "high")] []
           (Sample.outcome FAIL (Some "low"))); reflexivity.
Defined.

(** ** Registration *)

(** C8.  [registerRule(rule)] throws exactly when [rule.framework] is not a
    registered framework code, and then leaves the engine as it was; when
    it returns, the frameworks are untouched and the rule is the entry of
    the key [framework:code], which it replaced or added, every other entry
    being as before. *)
Theorem registerRule_contract (this : RuleEngine.t) (rule : Rule.t) :
  match registerRule this rule with
  | (Throw e, this') =>
      Map_has (RuleEngine.frameworks this) (Rule.framework rule) = false /\
      e = ThrownError ("Framework " ++ Rule.framework rule ++ " not registered") /\
      this' = this
  | (Ok _, this') =>
      Map_has (RuleEngine.frameworks this) (Rule.framework rule) = true /\
      RuleEngine.frameworks this' = RuleEngine.frameworks this /\
      RuleEngine.rules this' =
      Map_set (RuleEngine.rules this)
        (Rule.framework rule ++ ":" ++ Rule.code rule) rule /\
      Map_get (RuleEngine.rules this')
        (Rule.framework rule ++ ":" ++ Rule.code rule) = Some rule /\
      (forall key,
          key <> (Rule.framework rule ++ ":" ++ Rule.code rule)%string ->
          Map_get (RuleEngine.rules this') key = Map_get (RuleEngine.rules this) key) /\
      List.length (RuleEngine.rules this') =
      if Map_has (RuleEngine.rules this)
           (Rule.framework rule ++ ":" ++ Rule.code rule)
      then List.length (RuleEngine.rules this)
      else S (List.length (RuleEngine.rules this))
  end.
Proof.
  unfold registerRule, ruleKey.
  destruct (Map_has (RuleEngine.frameworks this) (Rule.framework rule));
    cbn [negb RuleEngine.rules RuleEngine.frameworks].
  - split; [reflexivity|]. split; [reflexivity|]. split; [reflexivity|].
    split; [apply Map_get_set_eq|].
    split; [intros key N; now apply Map_get_set_neq|apply length_Map_set].
  - repeat split.
Qed.

Lemma registerRule_contract_witness :
  registerRule constructor Sample.failing =
  (Throw (ThrownError "Framework A not registered"), constructor) /\
  fst (registerRule (registerFramework constructor Sample.frameworkA) Sample.failing)
  = Ok tt.
Proof.
  pose proof (registerRule_contract constructor Sample.failing) as H.
  destruct (registerRule constructor Sample.failing) as [[u|e] this'].
  - destruct H as [H _]. discriminate H.
  - destruct H as (_ & -> & ->). split; reflexivity.
Defined.

(** ** Statuses *)

(** C9.  An outcome returned by [executeRule] is PASS when the predicate
    returned [passed: true], FAIL when it returned [passed: false], and
    ERROR otherwise, never SKIP; when [executeRule] itself throws, the
    predicate had rejected with [undefined] or [null], and the outcome that
    [executeFrameworkRules] records is ERROR as well.  So no outcome of a
    result is SKIP, and the [skipped] counters of every framework result
    and of the result as a whole are 0. *)
Theorem no_outcome_is_skipped (env : Env.t) (this : RuleEngine.t)
  (inputData : value) (options : Options.t) (tr : trace) :
  (forall rule tr0,
      match executeRule rule inputData tr0 with
      | (Ok o, _) =>
          RuleOutcome.status o =
          match Rule.evaluate rule inputData with
          | Resolves (Some e) => if Evaluation.passed e then PASS else FAIL
          | _ => ERROR
          end
      | (Throw _, _) => Rule.evaluate rule inputData = Rejects ThrownNullish
      end) /\
  match executeCompliance env this inputData options tr with
  | (Ok results, _) =>
      EvaluationResult.skipped_rules results = 0 /\
      Forall (fun o => RuleOutcome.status o <> SKIP)
        (EvaluationResult.detailed_results results) /\
      forall code r,
        In (code, r) (EvaluationResult.framework_results results) ->
        FrameworkResult.skipped r = 0 /\
        Forall (fun o => RuleOutcome.status o <> SKIP)
          (FrameworkResult.rule_results r) /\
        exists rules,
          Forall2 (reports inputData) rules (FrameworkResult.rule_results r)
  | (Throw _, _) => True
  end.
Proof.
  split.
  - intros rule tr0. pose proof (executeRule_spec rule inputData tr0) as H.
    unfold reports in H.
    destruct (Rule.evaluate rule inputData) as [[e|]|[|m|]].
    3: { destruct H as (m & ->). reflexivity. }
    all: destruct H as (o & -> & (_ & _ & Hst) & _); try apply Hst; exact Hst.
  - destruct (executeCompliance env this inputData options tr)
      as [[results|e] tr'] eqn:E; [|exact I].
    apply executeCompliance_Ok in E
      as (_ & _ & totals & L & _ & _ & _ & Sk & Fr & Dr & _).
    apply totals_loop in L as (_ & _ & NS & Sk0 & _ & _ & _ & FR).
    rewrite Sk, Dr, Fr. split; [exact Sk0|]. split; [exact NS|].
    intros code r Hin. destruct (FR code r Hin) as (rules & _ & T).
    destruct T as (F2 & NSr & _ & _ & Skr & _).
    split; [exact Skr|]. split; [exact NSr|]. exists rules. exact F2.
Qed.

Lemma no_outcome_is_skipped_witness :
  EvaluationResult.skipped_rules Sample.result_all = 0.
Proof.
  pose proof (no_outcome_is_skipped Sample.env Sample.engine_four Sample.snapshot
                Options.empty []) as H.
  destruct H as [_ H]. vm_compute in H. vm_compute. exact (proj1 H).
Defined.

(** ** The snapshot *)

(** C10.  On a snapshot that is [null] or [undefined], [executeCompliance]
    throws while it builds the input summary: no predicate has been called
    and no result is returned.  On any other snapshot, sections may be
    absent: the summary records which of them are there, and every
    predicate is called with the snapshot as it was given (for a catalog
    that can be grouped: no selected rule has a framework code that names a
    member of [Object.prototype]). *)
Theorem null_snapshot_fails_before_any_rule (env : Env.t) (this : RuleEngine.t)
  (inputData : value) (options : Options.t) (tr : trace) :
  (nullish inputData = true ->
   exists e, executeCompliance env this inputData options tr = (Throw e, tr)) /\
  (nullish inputData = false ->
   reachable this ->
   Forall (fun rule => inherited (Rule.framework rule) = false)
     (filterRules this (Options.frameworks options) (Options.categories options)
        (Options.severity options)) ->
   exists results tr',
     executeCompliance env this inputData options tr = (Ok results, tr') /\
     tr' = tr ++ map (fun rule => (rule, inputData)) (execution_order this options) /\
     InputSummary.has_system_info (EvaluationResult.input_data_summary results) =
     truthy (get_prop inputData "system_info") /\
     InputSummary.has_security_config (EvaluationResult.input_data_summary results) =
     truthy (get_prop inputData "security_config") /\
     InputSummary.has_services (EvaluationResult.input_data_summary results) =
     truthy (get_prop inputData "services") /\
     InputSummary.has_network (EvaluationResult.input_data_summary results) =
     truthy (get_prop inputData "network")).
Proof.
  pose proof (summarizeInputData_spec inputData tr) as S.
  split; intros N; rewrite N in S.
  - destruct S as (e & S). exists e.
    unfold executeCompliance, bind. now rewrite S.
  - intros R H.
    destruct (executeCompliance_total env this inputData options tr R N H)
      as (results & tr' & E).
    exists results, tr'. split; [exact E|].
    apply executeCompliance_Ok in E as (_ & Sm & totals & L & _).
    apply totals_loop in L as (Htr & _).
    rewrite (execution_order_eq this options H).
    split; [exact Htr|].
    destruct S as (summary & S & Hs). rewrite S in Sm.
    injection Sm as <-. exact Hs.
Qed.

Lemma null_snapshot_fails_before_any_rule_witness :
  (exists e,
      executeCompliance Sample.env Sample.engine_four VNull Options.empty [] =
      (Throw e, [])) /\
  (exists results tr',
      executeCompliance Sample.env Sample.engine_four (VObj []) Options.empty [] =
      (Ok results, tr') /\
      tr' = [] ++ map (fun rule => (rule, VObj []))
                    (execution_order Sample.engine_four Options.empty) /\
      InputSummary.has_system_info (EvaluationResult.input_data_summary results) =
      false).
Proof.
  split.
  - apply (null_snapshot_fails_before_any_rule Sample.env Sample.engine_four VNull
             Options.empty []). reflexivity.
  - destruct (null_snapshot_fails_before_any_rule Sample.env Sample.engine_four
                (VObj []) Options.empty []) as [_ H].
    destruct H as (results & tr' & E & Htr & Hs & _).
    + reflexivity.
    + exact engine_four_reachable.
    + exact engine_four_ordinary.
    + exists results, tr'. split; [exact E|]. split; [exact Htr|exact Hs].
Defined.

(* ================================================================== *)
(** * Further properties of the engine *)

(** ** Keys of a map *)

Section MapKeys.
Context {V : Type}.
Implicit Types (m : Map V) (k : string) (v : V).

Lemma Map_get_None_keys m k : Map_get m k = None <-> ~ In k (Map_keys m).
Proof.
  induction m as [|[k' v'] m IH]; simpl.
  - tauto.
  - destruct (String.eqb_spec k' k) as [->|N].
    + split; [discriminate|]. intros H. exfalso. apply H. now left.
    + rewrite IH. tauto.
Qed.

Lemma Map_keys_set m k v :
  Map_keys (Map_set m k v) =
  if Map_has m k then Map_keys m else Map_keys m ++ [k].
Proof.
  unfold Map_has. induction m as [|[k' v'] m IH]; simpl; [reflexivity|].
  destruct (String.eqb_spec k' k) as [->|N]; simpl; [reflexivity|].
  rewrite IH. now destruct (Map_get m k).
Qed.

Lemma Map_set_absent m k v : Map_get m k = None -> Map_set m k v = m ++ [(k, v)].
Proof.
  induction m as [|[k' v'] m IH]; simpl; [reflexivity|].
  destruct (String.eqb k' k); [discriminate|]. intros H. now rewrite IH.
Qed.

(** [set] keeps the keys of a map distinct. *)
Lemma NoDup_keys_set m k v : NoDup (Map_keys m) -> NoDup (Map_keys (Map_set m k v)).
Proof.
  intros H. rewrite Map_keys_set. unfold Map_has.
  destruct (Map_get m k) eqn:G; [assumption|].
  apply Map_get_None_keys in G.
  apply NoDup_app; [assumption|repeat constructor; intros []|].
  intros x Hx [<-|[]]. contradiction.
Qed.

Lemma In_Map_get m k v : NoDup (Map_keys m) -> In (k, v) m -> Map_get m k = Some v.
Proof.
  induction m as [|[k' v'] m IH]; simpl; intros ND Hin; [destruct Hin|].
  inversion ND as [|? ? Hni ND']; subst.
  destruct Hin as [E|Hin].
  - injection E as -> ->. now rewrite String.eqb_refl.
  - destruct (String.eqb_spec k' k) as [->|N]; [|auto].
    exfalso. apply Hni. change k with (fst (k, v)). now apply in_map.
Qed.

End MapKeys.

(** ** Grouping keeps the order of the rules *)

Lemma groups_of_snoc (rules : list Rule.t) (rule : Rule.t) :
  groups_of (rules ++ [rule]) =
  Map_set (groups_of rules) (Rule.framework rule)
    (match Map_get (groups_of rules) (Rule.framework rule) with
     | Some g => g
     | None => []
     end ++ [rule]).
Proof. unfold groups_of. rewrite fold_left_app. reflexivity. Qed.

Lemma rules_of_snoc (k : string) (rules : list Rule.t) (rule : Rule.t) :
  rules_of k (rules ++ [rule]) =
  rules_of k rules ++ (if String.eqb (Rule.framework rule) k then [rule] else []).
Proof. unfold rules_of. rewrite filter_app. reflexivity. Qed.

Lemma groups_of_get (rules : list Rule.t) (k : string) :
  Map_get (groups_of rules) k =
  match rules_of k rules with
  | [] => None
  | g => Some g
  end.
Proof.
  induction rules as [|rule rules IH] using rev_ind; [reflexivity|].
  rewrite groups_of_snoc, rules_of_snoc.
  destruct (String.eqb_spec (Rule.framework rule) k) as [->|N].
  - rewrite Map_get_set_eq, IH.
    destruct (rules_of k rules); reflexivity.
  - rewrite Map_get_set_neq by congruence. rewrite IH, app_nil_r. reflexivity.
Qed.

Lemma groups_of_NoDup (rules : list Rule.t) :
  NoDup (Map_keys (groups_of rules)).
Proof.
  induction rules as [|rule rules IH] using rev_ind; [constructor|].
  rewrite groups_of_snoc. now apply NoDup_keys_set.
Qed.

Lemma groups_of_In (rules : list Rule.t) (k : string)
  (g : list Rule.t) :
  In (k, g) (groups_of rules) <-> g = rules_of k rules /\ g <> [].
Proof.
  split.
  - intros Hin.
    apply (In_Map_get _ _ _ (groups_of_NoDup rules)) in Hin.
    rewrite groups_of_get in Hin.
    destruct (rules_of k rules) as [|r l]; [discriminate|].
    injection Hin as <-. split; [reflexivity|discriminate].
  - intros [-> Hne]. apply Map_get_In.
    rewrite groups_of_get.
    destruct (rules_of k rules); [congruence|reflexivity].
Qed.

(** X1.  [groupRulesByFramework] throws a [TypeError] when a rule of the
    list has a framework code that names a member of [Object.prototype].
    Otherwise it makes one group per framework that has a rule in the list,
    and the group of a framework holds exactly the rules of that framework,
    in the order of the list. *)
Theorem groups_keep_the_order_of_the_rules (rules : list Rule.t) :
  match groupRulesByFramework rules with
  | Ok groups =>
      Forall (fun rule => inherited (Rule.framework rule) = false) rules /\
      NoDup (Map_keys groups) /\
      forall k g, In (k, g) groups <-> g = rules_of k rules /\ g <> []
  | Throw error =>
      error = ThrownError "groups[rule.framework].push is not a function" /\
      Exists (fun rule => inherited (Rule.framework rule) = true) rules
  end.
Proof.
  rewrite groupRulesByFramework_eq.
  destruct (existsb _ rules) eqn:E.
  - split; [reflexivity|]. apply Exists_exists.
    apply existsb_exists in E. exact E.
  - split; [|split; [apply groups_of_NoDup|apply groups_of_In]].
    apply Forall_forall. intros rule Hin.
    destruct (inherited (Rule.framework rule)) eqn:I; [|reflexivity].
    assert (existsb (fun rule => inherited (Rule.framework rule)) rules = true)
      by (apply existsb_exists; eauto).
    congruence.
Qed.

(** ** Invariants of the catalog *)

Lemma In_set_own_key {V : Type} (key_of : V -> string) (m : Map V) (k : string) (v : V) :
  key_of v = k ->
  (forall k' v', In (k', v') m -> key_of v' = k') ->
  forall k' v', In (k', v') (Map_set m k v) -> key_of v' = k'.
Proof.
  intros Hk Hm k' v' Hin. apply In_Map_set in Hin as [E|Hin]; [|eauto].
  injection E as -> ->. exact Hk.
Qed.

Lemma registries_invariant (this : RuleEngine.t) :
  reachable this ->
  NoDup (Map_keys (RuleEngine.frameworks this)) /\
  NoDup (Map_keys (RuleEngine.rules this)) /\
  (forall k f, In (k, f) (RuleEngine.frameworks this) -> Framework.code f = k) /\
  (forall k r, In (k, r) (RuleEngine.rules this) -> ruleKey r = k).
Proof.
  induction 1 as [|this framework R IH|this rule R IH].
  - simpl. repeat split; try constructor; intros ? ? [].
  - destruct IH as (Nf & Nr & Kf & Kr). simpl.
    split; [now apply NoDup_keys_set|]. split; [assumption|].
    split; [|assumption]. now apply In_set_own_key.
  - destruct IH as (Nf & Nr & Kf & Kr). unfold registerRule.
    destruct (Map_has (RuleEngine.frameworks this) (Rule.framework rule)); simpl.
    + split; [assumption|]. split; [now apply NoDup_keys_set|].
      split; [assumption|]. now apply In_set_own_key.
    + auto.
Qed.

Lemma map_key_of_values {V : Type} (key_of : V -> string) (m : Map V) :
  (forall k v, In (k, v) m -> key_of v = k) ->
  map key_of (Map_values m) = Map_keys m.
Proof.
  unfold Map_values, Map_keys. induction m as [|[k v] m IH]; intros H; [reflexivity|].
  simpl. rewrite (H k v (or_introl eq_refl)), IH; [reflexivity|].
  intros k' v' Hin. apply H. now right.
Qed.

Lemma catalog_facts (this : RuleEngine.t) :
  reachable this ->
  NoDup (map Framework.code (getFrameworks this)) /\
  NoDup (map ruleKey (getRules this None)) /\
  forall rule,
    In rule (getRules this None) ->
    exists framework,
      In framework (getFrameworks this) /\
      Framework.code framework = Rule.framework rule.
Proof.
  intros R. destruct (registries_invariant this R) as (Nf & Nr & Kf & Kr).
  unfold getFrameworks, getRules.
  rewrite (map_key_of_values Framework.code _ Kf), (map_key_of_values ruleKey _ Kr).
  split; [assumption|]. split; [assumption|].
  intros rule Hin.
  pose proof (reachable_frameworks_registered this R rule Hin) as H.
  unfold Map_has in H.
  destruct (Map_get (RuleEngine.frameworks this) (Rule.framework rule)) as [f|] eqn:G;
    [|discriminate].
  apply Map_get_In in G. exists f. split.
  - unfold Map_values. change f with (snd (Rule.framework rule, f)). now apply in_map.
  - now apply Kf.
Qed.

(** X2.  In a catalog built through the registration methods no two
    frameworks have the same code, no two rules have the same key
    [framework:code], and every rule belongs to a framework of the
    catalog. *)
Theorem catalog_entries_are_distinct (this : RuleEngine.t) :
  reachable this ->
  NoDup (map Framework.code (getFrameworks this)) /\
  NoDup (map ruleKey (getRules this None)) /\
  forall rule,
    In rule (getRules this None) ->
    exists framework,
      In framework (getFrameworks this) /\
      Framework.code framework = Rule.framework rule.
Proof. exact (catalog_facts this). Qed.

Lemma catalog_entries_are_distinct_witness :
  NoDup (map Framework.code (getFrameworks Sample.engine_four)) /\
  NoDup (map ruleKey (getRules Sample.engine_four None)).
Proof.
  destruct (catalog_entries_are_distinct Sample.engine_four engine_four_reachable)
    as (Hf & Hr & _).
  split; assumption.
Defined.

(** ** Registration and lookup *)

Lemma In_values_set {V : Type} (m : Map V) (k : string) (v : V) :
  In v (Map_values (Map_set m k v)).
Proof.
  unfold Map_values. change v with (snd (k, v)) at 1. apply in_map.
  apply Map_get_In, Map_get_set_eq.
Qed.

(** X3.  A rule that [registerRule] accepted is returned by [getRules], with
    and without its framework code, and is selected by [filterRules] under
    no filter; registering it a second time changes nothing. *)
Theorem registered_rule_is_listed (this : RuleEngine.t) (rule : Rule.t) :
  Map_has (RuleEngine.frameworks this) (Rule.framework rule) = true ->
  fst (registerRule this rule) = Ok tt /\
  In rule (getRules (snd (registerRule this rule)) None) /\
  In rule (getRules (snd (registerRule this rule)) (Some (Rule.framework rule))) /\
  In rule (filterRules (snd (registerRule this rule)) None None None) /\
  registerRule (snd (registerRule this rule)) rule =
  (Ok tt, snd (registerRule this rule)).
Proof.
  intros H. unfold registerRule. rewrite H. simpl.
  split; [reflexivity|].
  split; [apply In_values_set|].
  split.
  - destruct (String.eqb (Rule.framework rule) ""); [apply In_values_set|].
    apply filter_In. split; [apply In_values_set|apply String.eqb_refl].
  - split; [apply In_values_set|].
    rewrite H. simpl. now rewrite Map_set_set.
Qed.

Lemma registered_rule_is_listed_witness :
  In Sample.failing
    (getRules (snd (registerRule (registerFramework constructor Sample.frameworkA)
                      Sample.failing)) (Some "A")).
Proof.
  apply (registered_rule_is_listed (registerFramework constructor Sample.frameworkA)
           Sample.failing).
  reflexivity.
Defined.

(** ** Keys that collide *)

Lemma append_colon_injective (a b c d : string) :
  has_colon a = false -> has_colon c = false ->
  (a ++ ":" ++ b)%string = (c ++ ":" ++ d)%string ->
  a = c /\ b = d.
Proof.
  revert c. induction a as [|x a IH]; intros c Ha Hc E.
  - destruct c as [|y c]; simpl in *.
    + injection E as ->. auto.
    + injection E as <- _. simpl in Hc. discriminate.
  - destruct c as [|y c]; simpl in *.
    + injection E as -> _. simpl in Ha. discriminate.
    + injection E as -> E.
      apply orb_false_elim in Ha as [_ Ha]. apply orb_false_elim in Hc as [_ Hc].
      destruct (IH c Ha Hc E) as [-> ->]. auto.
Qed.

(** X4.  When framework codes have no colon, the key [framework:code]
    tells rules apart: registering a rule leaves every rule with another
    framework or another code in the catalog. *)
Theorem registration_keeps_the_other_rules (this : RuleEngine.t)
  (rule other : Rule.t) :
  reachable this ->
  has_colon (Rule.framework rule) = false ->
  has_colon (Rule.framework other) = false ->
  In other (getRules this None) ->
  Rule.framework other <> Rule.framework rule \/ Rule.code other <> Rule.code rule ->
  In other (getRules (snd (registerRule this rule)) None).
Proof.
  intros R Hr Ho Hin Hne.
  destruct (registries_invariant this R) as (_ & Nr & _ & Kr).
  unfold registerRule, getRules in *.
  destruct (Map_has (RuleEngine.frameworks this) (Rule.framework rule));
    simpl; [|assumption].
  unfold Map_values in Hin. apply in_map_iff in Hin as [[k o] [E Hin]].
  simpl in E. subst o. pose proof (Kr k other Hin) as Hk.
  apply (In_Map_get _ _ _ Nr) in Hin.
  unfold Map_values. change other with (snd (k, other)). apply in_map.
  apply Map_get_In. rewrite Map_get_set_neq; [assumption|].
  intros ->. unfold ruleKey in Hk.
  destruct (append_colon_injective _ _ _ _ Ho Hr Hk) as [E1 E2].
  destruct Hne; contradiction.
Qed.

Lemma registration_keeps_the_other_rules_witness :
  In Sample.failing (getRules (snd (registerRule Sample.engine_two Sample.rejecting)) None).
Proof.
  apply (registration_keeps_the_other_rules Sample.engine_two Sample.rejecting
           Sample.failing).
  - exact (reachable_rule _ Sample.passing
             (reachable_rule _ Sample.failing
                (reachable_framework _ Sample.frameworkB
                   (reachable_framework _ Sample.frameworkA reachable_new)))).
  - reflexivity.
  - reflexivity.
  - simpl. left. reflexivity.
  - right. discriminate.
Defined.

(** With a colon in a framework code two different rules can have the same
    key, and the second registration then replaces the first rule. *)
Example colliding_keys :
  ruleKey (Sample.rule "a:b" "c" None (fun _ => Resolves None)) =
  ruleKey (Sample.rule "a" "b:c" None (fun _ => Resolves None)).
Proof. reflexivity. Qed.

(** ** [getRules] and [filterRules] *)

(** X5.  [getRules(code)] with a non-empty code returns what [filterRules]
    selects with that code as the only framework filter; with an empty code
    or none it returns the whole catalog; and for a code that is not
    registered it returns nothing. *)
Theorem getRules_is_a_framework_filter (this : RuleEngine.t) (code : string) :
  reachable this ->
  (code <> "" -> getRules this (Some code) = filterRules this (Some [code]) None None) /\
  getRules this (Some "") = getRules this None /\
  getRules this None = filterRules this None None None /\
  (code <> "" -> Map_has (RuleEngine.frameworks this) code = false ->
   getRules this (Some code) = []).
Proof.
  intros R.
  assert (F : code <> "" ->
              getRules this (Some code) = filterRules this (Some [code]) None None).
  { intros N. unfold getRules, filterRules. simpl.
    destruct (String.eqb_spec code ""); [contradiction|].
    apply filter_ext. intros rule. unfold includes. simpl.
    now rewrite orb_false_r. }
  split; [exact F|]. split; [reflexivity|]. split; [reflexivity|].
  intros N Un. rewrite (F N).
  apply unregistered_frameworks_select_nothing; [assumption|discriminate|].
  intros c [<-|[]]. assumption.
Qed.

Lemma getRules_is_a_framework_filter_witness :
  getRules Sample.engine_four (Some "PCI") = [].
Proof.
  destruct (getRules_is_a_framework_filter Sample.engine_four "PCI"
              engine_four_reachable) as (_ & _ & _ & H).
  apply H; [discriminate|reflexivity].
Defined.

(** ** What the counters add up to *)

Lemma count_rules_app (p : Rule.t -> bool) (l1 l2 : list Rule.t) :
  count_rules p (l1 ++ l2) = count_rules p l1 + count_rules p l2.
Proof. unfold count_rules. rewrite filter_app, length_app. lia. Qed.

Lemma count_rules_perm (p : Rule.t -> bool) (l1 l2 : list Rule.t) :
  Permutation l1 l2 -> count_rules p l1 = count_rules p l2.
Proof.
  intros H. unfold count_rules. f_equal. apply Permutation_length.
  induction H; simpl.
  - constructor.
  - destruct (p x); [now constructor|assumption].
  - destruct (p x); destruct (p y);
      first [apply perm_swap | apply Permutation_refl].
  - eapply Permutation_trans; eassumption.
Qed.

Lemma count_status_cons (s : status) (o : RuleOutcome.t) (l : list RuleOutcome.t) :
  count_status s (o :: l) =
  (if status_eqb (RuleOutcome.status o) s then 1 else 0) + count_status s l.
Proof.
  change (o :: l) with ([o] ++ l). rewrite count_status_concat. f_equal.
  unfold count_status. cbn [filter].
  destruct (status_eqb (RuleOutcome.status o) s); reflexivity.
Qed.

(** Every outcome has one of the four statuses. *)
Lemma count_status_total (l : list RuleOutcome.t) :
  Z.of_nat (List.length l) =
  count_status PASS l + count_status FAIL l + count_status SKIP l
  + count_status ERROR l.
Proof.
  induction l as [|o l IH]; [reflexivity|].
  rewrite !count_status_cons. cbn [List.length]. rewrite Nat2Z.inj_succ, IH.
  destruct (RuleOutcome.status o); cbn [status_eqb]; lia.
Qed.

(** One iteration of the loop of [executeFrameworkRules], with the exact
    change of the [failed] counter. *)
Lemma executeFrameworkRule_failed (inputData : value) (result : Tally.t)
  (rule : Rule.t) (tr : trace) :
  exists o result' tr',
    executeFrameworkRule inputData result rule tr = (Ok result', tr') /\
    Tally.rule_results result' = Tally.rule_results result ++ [o] /\
    Tally.failed result' =
    Tally.failed result
    + (if status_eqb (RuleOutcome.status o) FAIL then 1 else 0)
    + (if rethrown_by_executeRule inputData rule then 1 else 0) /\
    (if status_eqb (RuleOutcome.status o) ERROR then 1 else 0) =
    (if caught_by_executeRule inputData rule then 1 else 0)
    + (if rethrown_by_executeRule inputData rule then 1 else 0).
Proof.
  unfold executeFrameworkRule, executeRule, try_catch, bind, call_evaluate,
    caught_by_executeRule, rethrown_by_executeRule.
  destruct (Rule.evaluate rule inputData) as [[e|]|[|m|]]; simpl.
  - destruct (Evaluation.passed e); simpl;
      eexists; eexists; eexists; (split; [reflexivity|]); simpl;
      (split; [reflexivity|]); simpl; split; lia.
  - eexists; eexists; eexists; (split; [reflexivity|]); simpl;
      (split; [reflexivity|]); simpl; split; lia.
  - eexists; eexists; eexists; (split; [reflexivity|]); simpl;
      (split; [reflexivity|]); simpl; split; lia.
  - eexists; eexists; eexists; (split; [reflexivity|]); simpl;
      (split; [reflexivity|]); simpl; split; lia.
  - eexists; eexists; eexists; (split; [reflexivity|]); simpl;
      (split; [reflexivity|]); simpl; split; lia.
Qed.

Lemma tally_loop_failed (inputData : value) (rules : list Rule.t) (tr : trace) :
  exists result tr',
    for_of rules (executeFrameworkRule inputData) Tally.zero tr = (Ok result, tr') /\
    Tally.failed result =
    count_status FAIL (Tally.rule_results result)
    + count_rules (rethrown_by_executeRule inputData) rules /\
    count_status ERROR (Tally.rule_results result) =
    count_rules (caught_by_executeRule inputData) rules
    + count_rules (rethrown_by_executeRule inputData) rules.
Proof.
  destruct (for_of_total (executeFrameworkRule inputData)
              (fun done result _ =>
                 Tally.failed result =
                 count_status FAIL (Tally.rule_results result)
                 + count_rules (rethrown_by_executeRule inputData) done /\
                 count_status ERROR (Tally.rule_results result) =
                 count_rules (caught_by_executeRule inputData) done
                 + count_rules (rethrown_by_executeRule inputData) done)
              rules [] Tally.zero tr) as (result & tr' & E & I).
  - split; reflexivity.
  - intros done rule result tr0 _ [Hf He].
    destruct (executeFrameworkRule_failed inputData result rule tr0)
      as (o & result' & tr1 & E & RR & Hf' & He').
    exists result', tr1. split; [exact E|].
    rewrite RR, !count_status_app, !count_rules_app.
    unfold count_rules at 2 4 6. simpl.
    destruct (caught_by_executeRule inputData rule);
      destruct (rethrown_by_executeRule inputData rule);
      destruct (status_eqb (RuleOutcome.status o) ERROR);
      destruct (status_eqb (RuleOutcome.status o) FAIL); simpl in *; lia.
  - exists result, tr'. split; [exact E|exact I].
Qed.

(** The counters of a framework result, exactly. *)
Lemma executeFrameworkRules_counters (this : RuleEngine.t) (frameworkCode : string)
  (rules : list Rule.t) (inputData : value) (tr tr' : trace)
  (r : FrameworkResult.t) :
  executeFrameworkRules this frameworkCode rules inputData tr = (Ok r, tr') ->
  FrameworkResult.failed r =
  count_status FAIL (FrameworkResult.rule_results r)
  + count_rules (rethrown_by_executeRule inputData) rules /\
  FrameworkResult.total r =
  FrameworkResult.passed r + FrameworkResult.failed r + FrameworkResult.skipped r
  + count_rules (caught_by_executeRule inputData) rules.
Proof.
  intros E. pose proof (executeFrameworkRules_Ok _ _ _ _ _ _ _ E) as [_ T].
  destruct T as (F2 & NS & To & Pa & Sk & _).
  destruct (tally_loop_failed inputData rules tr) as (result & tr1 & L & Hf & He).
  unfold executeFrameworkRules, bind in E.
  destruct (deref (Map_get (RuleEngine.frameworks this) frameworkCode) "name" tr)
    as [[fw|e] tr0] eqn:D; [|discriminate].
  assert (tr0 = tr) as ->.
  { unfold deref in D. destruct (Map_get _ _); [|discriminate].
    unfold ret in D. now injection D. }
  rewrite L in E. injection E as <- <-. simpl in *.
  split; [exact Hf|].
  pose proof (count_status_total (Tally.rule_results result)) as Ht.
  apply Forall2_length in F2.
  assert (count_status SKIP (Tally.rule_results result) = 0).
  { clear - NS.
    induction (Tally.rule_results result) as [|o l IH]; [reflexivity|].
    inversion NS; subst. rewrite count_status_cons, IH by assumption.
    destruct (RuleOutcome.status o) eqn:St; cbn [status_eqb];
      first [reflexivity | congruence]. }
  lia.
Qed.

(** ** The result as a whole is made of the framework results *)

Lemma sum_of_app (counter : FrameworkResult.t -> Z)
  (l1 l2 : list (string * FrameworkResult.t)) :
  sum_of counter (l1 ++ l2) = sum_of counter l1 + sum_of counter l2.
Proof.
  unfold sum_of. induction l1 as [|e l1 IH]; simpl; [reflexivity|].
  rewrite IH. lia.
Qed.

(** The loop of [executeCompliance] over groups with distinct keys adds one
    framework result per group, in order, and adds its counters and its
    outcomes to those of the result. *)
Lemma totals_loop_compose (this : RuleEngine.t) (inputData : value)
  (groups : list (string * list Rule.t)) :
  forall (s s' : Totals.t) (tr tr' : trace),
    NoDup (map fst groups) ->
    (forall k, In k (map fst groups) -> Map_get (Totals.framework_results s) k = None) ->
    for_of groups (executeFramework this inputData) s tr = (Ok s', tr') ->
    exists frs,
      map fst frs = map fst groups /\
      Forall2
        (fun group entry =>
           fst entry = fst group /\
           exists tr0 tr1,
             executeFrameworkRules this (fst group) (snd group) inputData tr0 =
             (Ok (snd entry), tr1))
        groups frs /\
      Totals.framework_results s' = Totals.framework_results s ++ frs /\
      Totals.passed_rules s' =
      Totals.passed_rules s + sum_of FrameworkResult.passed frs /\
      Totals.failed_rules s' =
      Totals.failed_rules s + sum_of FrameworkResult.failed frs /\
      Totals.skipped_rules s' =
      Totals.skipped_rules s + sum_of FrameworkResult.skipped frs /\
      Totals.detailed_results s' =
      Totals.detailed_results s ++
      List.concat (map (fun entry => FrameworkResult.rule_results (snd entry)) frs).
Proof.
  induction groups as [|[k rules] groups IH]; intros s s' tr tr' ND Fresh E.
  - simpl in E. unfold ret in E. injection E as <- <-.
    exists []. simpl. rewrite !app_nil_r.
    repeat split; try constructor; lia.
  - simpl in E. unfold bind in E.
    destruct (executeFrameworkRules this k rules inputData tr) as [[r|e] tr1] eqn:R;
      [|discriminate].
    simpl in E. inversion ND as [|? ? Hk ND']; subst.
    apply IH in E; [|assumption|].
    + destruct E as (frs & Hkeys & F2 & Fr & Pa & Fa & Sk & Dr).
      simpl in Fr, Pa, Fa, Sk, Dr.
      rewrite Map_set_absent in Fr by (apply Fresh; now left).
      exists ((k, r) :: frs). simpl.
      split; [now rewrite Hkeys|].
      split; [constructor; [split; [reflexivity|exists tr, tr1; exact R]|exact F2]|].
      rewrite <- !app_assoc in *. simpl in *.
      repeat split; try assumption; lia.
    + simpl. intros k' Hk'. rewrite Map_get_set_neq.
      * apply Fresh. now right.
      * intros ->. contradiction.
Qed.

Lemma entries_NoDup (rules : list Rule.t) :
  NoDup (map fst (Object_entries (groups_of rules))).
Proof.
  apply (Permutation_NoDup
           (Permutation_sym
              (Permutation_map fst (Object_entries_perm (groups_of rules))))).
  apply groups_of_NoDup.
Qed.

(** What [executeCompliance] returns, in terms of the loop over the groups
    and of the framework results that the loop left. *)
Lemma executeCompliance_framework_results (env : Env.t) (this : RuleEngine.t)
  (inputData : value) (options : Options.t) (tr tr' : trace)
  (results : EvaluationResult.t) :
  executeCompliance env this inputData options tr = (Ok results, tr') ->
  let selection :=
    filterRules this (Options.frameworks options) (Options.categories options)
      (Options.severity options) in
  EvaluationResult.total_rules results = Z.of_nat (List.length selection) /\
  EvaluationResult.frameworks_tested results =
  map fst (EvaluationResult.framework_results results) /\
  Forall2
    (fun group entry =>
       fst entry = fst group /\
       exists tr0 tr1,
         executeFrameworkRules this (fst group) (snd group) inputData tr0 =
         (Ok (snd entry), tr1))
    (Object_entries (groups_of selection))
    (EvaluationResult.framework_results results) /\
  EvaluationResult.passed_rules results =
  sum_of FrameworkResult.passed (EvaluationResult.framework_results results) /\
  EvaluationResult.failed_rules results =
  sum_of FrameworkResult.failed (EvaluationResult.framework_results results) /\
  EvaluationResult.skipped_rules results =
  sum_of FrameworkResult.skipped (EvaluationResult.framework_results results) /\
  EvaluationResult.detailed_results results =
  List.concat
    (map (fun entry => FrameworkResult.rule_results (snd entry))
       (EvaluationResult.framework_results results)).
Proof.
  intros E selection. unfold executeCompliance, bind, try_catch, lift in E.
  destruct (summarizeInputData inputData tr) as [[summary|e] tr0] eqn:S;
    [|discriminate].
  fold selection in E.
  destruct (groupRulesByFramework selection) as [groups|e] eqn:G;
    [|unfold throw in E; discriminate].
  apply groupRulesByFramework_Ok in G as [-> _].
  destruct (for_of (Object_entries (groups_of selection))
              (executeFramework this inputData) Totals.zero tr0)
    as [[totals|e] tr1] eqn:L; [|unfold throw in E; discriminate].
  apply totals_loop_compose in L; [|apply entries_NoDup|reflexivity].
  destruct L as (frs & Hkeys & F2 & Fr & Pa & Fa & Sk & Dr).
  simpl in Fr, Pa, Fa, Sk, Dr.
  unfold ret in E. injection E as <- <-. simpl.
  rewrite Fr, Hkeys, Pa, Fa, Sk, Dr.
  repeat split; try reflexivity. exact F2.
Qed.

Lemma framework_sums (this : RuleEngine.t) (inputData : value)
  (groups : list (string * list Rule.t))
  (frs : list (string * FrameworkResult.t)) :
  Forall2
    (fun group entry =>
       fst entry = fst group /\
       exists tr0 tr1,
         executeFrameworkRules this (fst group) (snd group) inputData tr0 =
         (Ok (snd entry), tr1))
    groups frs ->
  sum_of FrameworkResult.total frs =
  Z.of_nat (List.length (List.concat (Map_values groups))) /\
  sum_of FrameworkResult.total frs =
  sum_of FrameworkResult.passed frs + sum_of FrameworkResult.failed frs
  + sum_of FrameworkResult.skipped frs
  + count_rules (caught_by_executeRule inputData) (List.concat (Map_values groups)).
Proof.
  induction 1 as [|[k rules] [k' r] groups frs [_ (tr0 & tr1 & E)] F2 [IH1 IH2]].
  - split; reflexivity.
  - simpl in E.
    pose proof (executeFrameworkRules_Ok _ _ _ _ _ _ _ E) as [_ T].
    destruct T as (_ & _ & To & _).
    destruct (executeFrameworkRules_counters _ _ _ _ _ _ _ E) as [_ Hc].
    unfold Map_values in *. cbn [map List.concat snd].
    rewrite length_app, count_rules_app, Nat2Z.inj_add.
    change (sum_of ?c ((k', r) :: frs)) with (c r + sum_of c frs).
    split; lia.
Qed.

Lemma framework_results_sum_up (env : Env.t) (this : RuleEngine.t)
  (inputData : value) (options : Options.t) (tr tr' : trace)
  (results : EvaluationResult.t) :
  executeCompliance env this inputData options tr = (Ok results, tr') ->
  EvaluationResult.frameworks_tested results =
  map fst (EvaluationResult.framework_results results) /\
  NoDup (EvaluationResult.frameworks_tested results) /\
  EvaluationResult.total_rules results =
  sum_of FrameworkResult.total (EvaluationResult.framework_results results) /\
  EvaluationResult.passed_rules results =
  sum_of FrameworkResult.passed (EvaluationResult.framework_results results) /\
  EvaluationResult.failed_rules results =
  sum_of FrameworkResult.failed (EvaluationResult.framework_results results) /\
  EvaluationResult.skipped_rules results =
  sum_of FrameworkResult.skipped (EvaluationResult.framework_results results) /\
  EvaluationResult.detailed_results results =
  List.concat
    (map (fun entry => FrameworkResult.rule_results (snd entry))
       (EvaluationResult.framework_results results)).
Proof.
  intros E.
  apply executeCompliance_framework_results in E
    as (To & Ft & F2 & Pa & Fa & Sk & Dr).
  destruct (framework_sums _ _ _ _ F2) as [Hs _].
  destruct (groups_of_spec
              (filterRules this (Options.frameworks options)
                 (Options.categories options) (Options.severity options)))
    as [_ Perm].
  pose proof (Permutation_trans (concat_values_entries _) Perm) as Perm'.
  split; [exact Ft|]. split.
  - rewrite Ft.
    assert (K : map fst (EvaluationResult.framework_results results) =
                map fst (Object_entries
                           (groups_of
                              (filterRules this (Options.frameworks options)
                                 (Options.categories options)
                                 (Options.severity options))))).
    { clear - F2. induction F2 as [|g e gs es [Hk _] F2 IH]; [reflexivity|].
      simpl. now rewrite Hk, IH. }
    rewrite K. apply entries_NoDup.
  - split; [|auto].
    rewrite To, Hs. f_equal. symmetry. now apply Permutation_length.
Qed.

(** X6.  The counters of a result are the sums of the counters of its
    framework results, [total_rules] included; [detailed_results] is the
    outcome lists of the framework results one after the other, and
    [frameworks_tested] lists their codes, which are distinct, in the same
    order. *)
Theorem result_is_made_of_its_framework_results (env : Env.t) (this : RuleEngine.t)
  (inputData : value) (options : Options.t) (tr tr' : trace)
  (results : EvaluationResult.t) :
  executeCompliance env this inputData options tr = (Ok results, tr') ->
  EvaluationResult.frameworks_tested results =
  map fst (EvaluationResult.framework_results results) /\
  NoDup (EvaluationResult.frameworks_tested results) /\
  EvaluationResult.total_rules results =
  sum_of FrameworkResult.total (EvaluationResult.framework_results results) /\
  EvaluationResult.passed_rules results =
  sum_of FrameworkResult.passed (EvaluationResult.framework_results results) /\
  EvaluationResult.failed_rules results =
  sum_of FrameworkResult.failed (EvaluationResult.framework_results results) /\
  EvaluationResult.skipped_rules results =
  sum_of FrameworkResult.skipped (EvaluationResult.framework_results results) /\
  EvaluationResult.detailed_results results =
  List.concat
    (map (fun entry => FrameworkResult.rule_results (snd entry))
       (EvaluationResult.framework_results results)).
Proof. apply framework_results_sum_up. Qed.

Lemma result_is_made_of_its_framework_results_witness :
  EvaluationResult.total_rules Sample.result_all =
  sum_of FrameworkResult.total (EvaluationResult.framework_results Sample.result_all).
Proof.
  apply (result_is_made_of_its_framework_results Sample.env Sample.engine_four
           Sample.snapshot Options.empty [] (snd Sample.run_all) Sample.result_all).
  vm_compute. reflexivity.
Defined.

(** Every framework result is that of a group, and every group has a
    framework result. *)
Lemma framework_result_of_a_group (this : RuleEngine.t) (inputData : value)
  (groups : list (string * list Rule.t))
  (frs : list (string * FrameworkResult.t)) :
  Forall2
    (fun group entry =>
       fst entry = fst group /\
       exists tr0 tr1,
         executeFrameworkRules this (fst group) (snd group) inputData tr0 =
         (Ok (snd entry), tr1))
    groups frs ->
  forall code r,
    In (code, r) frs ->
    exists rules tr0 tr1,
      In (code, rules) groups /\
      executeFrameworkRules this code rules inputData tr0 = (Ok r, tr1).
Proof.
  induction 1 as [|[k g] [k' r'] gs es [Hk (tr0 & tr1 & R)] F2 IH];
    intros code r Hin; [destruct Hin|].
  simpl in Hk, R. subst k'. destruct Hin as [Eq|Hin].
  - injection Eq as -> ->. exists g, tr0, tr1. split; [now left|exact R].
  - destruct (IH code r Hin) as (g' & t0 & t1 & Hg & R'). exists g', t0, t1.
    split; [now right|exact R'].
Qed.

Lemma group_has_a_framework_result (this : RuleEngine.t) (inputData : value)
  (groups : list (string * list Rule.t))
  (frs : list (string * FrameworkResult.t)) :
  Forall2
    (fun group entry =>
       fst entry = fst group /\
       exists tr0 tr1,
         executeFrameworkRules this (fst group) (snd group) inputData tr0 =
         (Ok (snd entry), tr1))
    groups frs ->
  forall code rules,
    In (code, rules) groups ->
    exists r, In (code, r) frs.
Proof.
  induction 1 as [|[k g] [k' r'] gs es [Hk _] F2 IH];
    intros code rules Hin; [destruct Hin|].
  simpl in Hk. subst k'. destruct Hin as [Eq|Hin].
  - injection Eq as -> ->. exists r'. now left.
  - destruct (IH code rules Hin) as (r & Hr). exists r. now right.
Qed.

(** X7.  [total_rules] is [passed_rules + failed_rules + skipped_rules]
    plus the number of selected rules whose predicate ended in a way that
    [executeRule] catches (it resolved with [undefined] or [null], or
    rejected with a value other than those): such a rule has an outcome but
    no counter.  The same holds of every framework result. *)
Theorem counters_leave_out_caught_errors (env : Env.t) (this : RuleEngine.t)
  (inputData : value) (options : Options.t) (tr tr' : trace)
  (results : EvaluationResult.t) :
  executeCompliance env this inputData options tr = (Ok results, tr') ->
  EvaluationResult.total_rules results =
  EvaluationResult.passed_rules results + EvaluationResult.failed_rules results
  + EvaluationResult.skipped_rules results
  + count_rules (caught_by_executeRule inputData)
      (filterRules this (Options.frameworks options) (Options.categories options)
         (Options.severity options)) /\
  forall code r,
    In (code, r) (EvaluationResult.framework_results results) ->
    FrameworkResult.total r =
    FrameworkResult.passed r + FrameworkResult.failed r + FrameworkResult.skipped r
    + count_rules (caught_by_executeRule inputData)
        (rules_of code
           (filterRules this (Options.frameworks options)
              (Options.categories options) (Options.severity options))).
Proof.
  intros E.
  pose proof (framework_results_sum_up _ _ _ _ _ _ _ E)
    as (_ & _ & To & Pa & Fa & Sk & _).
  apply executeCompliance_framework_results in E as (_ & _ & F2 & _).
  destruct (framework_sums _ _ _ _ F2) as [_ Hs].
  destruct (groups_of_spec
              (filterRules this (Options.frameworks options)
                 (Options.categories options) (Options.severity options)))
    as [_ Perm].
  pose proof (Permutation_trans (concat_values_entries _) Perm) as Perm'.
  split.
  - rewrite To, Pa, Fa, Sk, Hs. f_equal. now apply count_rules_perm.
  - intros code r Hin.
    destruct (framework_result_of_a_group _ _ _ _ F2 code r Hin)
      as (rules & tr0 & tr1 & Hg & R).
    apply (Permutation_in _ (Object_entries_perm _)) in Hg.
    apply groups_of_In in Hg as [-> _].
    now destruct (executeFrameworkRules_counters _ _ _ _ _ _ _ R).
Qed.

Lemma counters_leave_out_caught_errors_witness :
  EvaluationResult.total_rules Sample.result_all =
  EvaluationResult.passed_rules Sample.result_all
  + EvaluationResult.failed_rules Sample.result_all
  + EvaluationResult.skipped_rules Sample.result_all
  + count_rules (caught_by_executeRule Sample.snapshot)
      (filterRules Sample.engine_four None None None).
Proof.
  apply (counters_leave_out_caught_errors Sample.env Sample.engine_four
           Sample.snapshot Options.empty [] (snd Sample.run_all) Sample.result_all).
  vm_compute. reflexivity.
Defined.

(** ** The ends of the scale *)

Section Extremes.
Local Open Scope Q_scope.

Lemma round_eq (x y : Q) : 0 <= x -> x == y -> round x == round y.
Proof.
  intros Hx Hxy. apply Qle_antisym; apply round_mono; lra.
Qed.

Lemma percentage_zero (b : Z) : b <> 0%Z -> percentage 0 b = of_Z 0.
Proof.
  intros Hb. rewrite percentage_eq by assumption.
  assert (Hq : inject_Z 0 / inject_Z b == 0).
  { change (inject_Z 0) with 0. unfold Qdiv. lra. }
  rewrite (round_zero _ Hq).
  assert (Hm : 0 * inject_Z 100 == 0) by lra.
  rewrite (round_zero _ Hm). reflexivity.
Qed.

Lemma percentage_full (b : Z) : (0 < b)%Z -> percentage b b = of_Z 100.
Proof.
  intros Hb. rewrite percentage_eq by lia. f_equal.
  assert (Hq : inject_Z b / inject_Z b == 1).
  { rewrite Zlt_Qlt in Hb. change (inject_Z 0) with 0 in Hb. field. lra. }
  assert (R1 : round (inject_Z b / inject_Z b) == 1).
  { rewrite <- round_1. apply round_eq; lra. }
  assert (R2 : round (round (inject_Z b / inject_Z b) * inject_Z 100) == 100).
  { rewrite <- round_100. change (inject_Z 100) with 100. apply round_eq; lra. }
  transitivity (Qfloor (100 + (1 # 2))); [|reflexivity].
  apply Qfloor_comp. lra.
Qed.

End Extremes.

Lemma weightedFailures_none (l : list RuleOutcome.t) :
  count_status FAIL l = 0 -> weightedFailures l = Sum 0.
Proof.
  induction l as [|o l IH]; intros H; [reflexivity|].
  rewrite count_status_cons in H. rewrite weightedFailures_cons.
  pose proof (count_status_nonneg FAIL l).
  destruct (status_eqb (RuleOutcome.status o) FAIL); [lia|].
  rewrite IH by lia. reflexivity.
Qed.

Lemma weights_all_failed (l : list RuleOutcome.t) :
  Forall (fun o => RuleOutcome.status o = FAIL) l ->
  counts_a_member (fun s => negb (status_eqb s SKIP)) l =
  existsb (fun o => inherited_severity (RuleOutcome.severity o)) l /\
  spec_weight_sum (fun s => status_eqb s FAIL) l =
  spec_weight_sum (fun s => negb (status_eqb s SKIP)) l /\
  (l <> [] -> 0 < spec_weight_sum (fun s => negb (status_eqb s SKIP)) l).
Proof.
  induction 1 as [|o l St _ (IHm & IHw & _)].
  - repeat split. congruence.
  - rewrite counts_a_member_cons, !spec_weight_sum_cons, St, IHm, IHw.
    cbn [status_eqb negb andb existsb].
    repeat split. intros _.
    pose proof (spec_weight_bounds (RuleOutcome.severity o)).
    pose proof (weights_ordered l). lia.
Qed.

Lemma count_status_all (s : status) (l : list RuleOutcome.t) :
  Forall (fun o => RuleOutcome.status o = s) l ->
  count_status s l = Z.of_nat (List.length l).
Proof.
  induction 1 as [|o l St _ IH]; [reflexivity|].
  rewrite count_status_cons, IH, St. cbn [List.length]. rewrite Nat2Z.inj_succ.
  destruct s; cbn [status_eqb]; lia.
Qed.

(** X8.  The ends of the scale, for the result of [executeFrameworkRules]
    on at least one rule.  With no FAIL outcome the risk score is 0, and
    with no PASS outcome the compliance percentage is 0: a framework whose
    rules all ended in ERROR scores 0 on both.  When every outcome is PASS
    the compliance percentage is 100.  When every outcome is FAIL the risk
    score is 100, unless the severity of an outcome names a member of
    [Object.prototype]: then the sum of the weights is no number and the
    risk score is 0. *)
Theorem scores_at_the_ends_of_the_scale (this : RuleEngine.t)
  (frameworkCode : string) (rules : list Rule.t) (inputData : value)
  (tr tr' : trace) (r : FrameworkResult.t) :
  executeFrameworkRules this frameworkCode rules inputData tr = (Ok r, tr') ->
  rules <> [] ->
  (count_status FAIL (FrameworkResult.rule_results r) = 0 ->
   FrameworkResult.risk_score r = of_Z 0) /\
  (count_status PASS (FrameworkResult.rule_results r) = 0 ->
   FrameworkResult.compliance_percentage r = of_Z 0) /\
  (Forall (fun o => RuleOutcome.status o = PASS) (FrameworkResult.rule_results r) ->
   FrameworkResult.compliance_percentage r = of_Z 100) /\
  (Forall (fun o => RuleOutcome.status o = FAIL) (FrameworkResult.rule_results r) ->
   FrameworkResult.risk_score r =
   if existsb (fun o => inherited_severity (RuleOutcome.severity o))
        (FrameworkResult.rule_results r)
   then of_Z 0 else of_Z 100).
Proof.
  intros E Hne.
  apply executeFrameworkRules_Ok in E
    as [_ (F2 & NS & To & Pa & Sk & Fl & Fu & Cp & Rs)].
  pose proof (Forall2_length F2) as Len.
  assert (Hpos : 0 < FrameworkResult.total r).
  { rewrite To. destruct rules; [congruence|]. cbn [List.length]. lia. }
  assert (Hgt : (FrameworkResult.total r >? 0) = true) by (apply Z.gtb_lt; lia).
  assert (Hnz : (FrameworkResult.total r - FrameworkResult.skipped r =? 0) = false).
  { rewrite Sk. apply Z.eqb_neq. lia. }
  rewrite Cp, Rs, Hgt, Sk, Z.sub_0_r.
  repeat split.
  - intros H0.
    rewrite calculateFrameworkRiskScore_eq, Hnz, (weightedFailures_none _ H0).
    unfold weighted_percentage.
    destruct (totalWeight (FrameworkResult.rule_results r)) as [t|]; [|reflexivity].
    destruct (Z.gtb_spec t 0); [|reflexivity].
    apply percentage_zero. lia.
  - intros H0. rewrite Pa, H0. apply percentage_zero. lia.
  - intros Hall. rewrite Pa, (count_status_all _ _ Hall), <- Len, <- To.
    apply percentage_full. lia.
  - intros Hall. destruct (weights_all_failed _ Hall) as (Hm & Heq & Hw).
    assert (Hl : FrameworkResult.rule_results r <> []).
    { intros Hnil. rewrite Hnil in Len. destruct rules; [congruence|discriminate]. }
    specialize (Hw Hl).
    rewrite calculateFrameworkRiskScore_cases, Hnz, Hm, Heq.
    destruct (existsb _ _); [reflexivity|].
    destruct (Z.gtb_spec
                (spec_weight_sum (fun s => negb (status_eqb s SKIP))
                   (FrameworkResult.rule_results r)) 0); [|lia].
    apply percentage_full. lia.
Qed.

Lemma scores_at_the_ends_of_the_scale_witness :
  FrameworkResult.compliance_percentage Sample.result_A = of_Z 0 /\
  exists r tr',
    executeFrameworkRules Sample.engine_member "A"
      [Sample.failing; Sample.failing_member] Sample.snapshot [] = (Ok r, tr') /\
    FrameworkResult.risk_score r = of_Z 0.
Proof.
  split.
  - pose proof (scores_at_the_ends_of_the_scale Sample.engine_four "A"
                  [Sample.failing; Sample.rejecting; Sample.rejecting_undefined]
                  Sample.snapshot []
                  (snd (executeFrameworkRules Sample.engine_four "A"
                          [Sample.failing; Sample.rejecting;
                           Sample.rejecting_undefined] Sample.snapshot []))
                  Sample.result_A) as H.
    assert (E : executeFrameworkRules Sample.engine_four "A"
                  [Sample.failing; Sample.rejecting; Sample.rejecting_undefined]
                  Sample.snapshot [] =
                (Ok Sample.result_A,
                 snd (executeFrameworkRules Sample.engine_four "A"
                        [Sample.failing; Sample.rejecting;
                         Sample.rejecting_undefined] Sample.snapshot [])))
      by (vm_compute; reflexivity).
    assert (N : [Sample.failing; Sample.rejecting; Sample.rejecting_undefined] <> [])
      by discriminate.
    destruct (H E N) as (_ & H0 & _).
    apply H0. vm_compute. reflexivity.
  - set (run := executeFrameworkRules Sample.engine_member "A"
                  [Sample.failing; Sample.failing_member] Sample.snapshot []).
    set (r := match fst run with Ok r => r | Throw _ => Sample.result_A end).
    assert (E : run = (Ok r, snd run)) by (vm_compute; reflexivity).
    exists r, (snd run). split; [exact E|].
    assert (N : [Sample.failing; Sample.failing_member] <> []) by discriminate.
    destruct (scores_at_the_ends_of_the_scale Sample.engine_member "A"
                [Sample.failing; Sample.failing_member] Sample.snapshot []
                (snd run) r E N) as (_ & _ & _ & H).
    rewrite H; [vm_compute; reflexivity|]. vm_compute. repeat constructor.
Defined.

(** ** One outcome per rule, whatever the other rules do *)

Lemma remediation_text_not_empty (rule : Rule.t) : remediation_text rule <> "".
Proof.
  unfold remediation_text. destruct (Rule.remediation rule) as [s|]; [|discriminate].
  destruct (String.eqb_spec s ""); [discriminate|assumption].
Qed.

(** What one rule leaves on its own. *)
Lemma outcomes_alone_spec (inputData : value) (rule : Rule.t) :
  exists o, outcomes_alone inputData rule = [o] /\ outcome_of_rule rule o.
Proof.
  unfold outcomes_alone, executeFrameworkRule, executeRule, try_catch, bind,
    call_evaluate, outcome_of_rule.
  destruct (Rule.evaluate rule inputData) as [[e|]|[|m|]]; simpl.
  - destruct (Evaluation.passed e); simpl; eexists; (split; [reflexivity|]);
      simpl; repeat split; discriminate.
  - eexists; split; [reflexivity|]. simpl. repeat split.
    eexists. split; [reflexivity|]. left. repeat split.
  - eexists; split; [reflexivity|]. simpl. repeat split.
    eexists. split; [reflexivity|]. right. repeat split.
  - eexists; split; [reflexivity|]. simpl. repeat split.
    eexists. split; [reflexivity|]. left. repeat split.
  - eexists; split; [reflexivity|]. simpl. repeat split.
    eexists. split; [reflexivity|]. left. repeat split.
Qed.

(** One iteration appends what the rule leaves on its own, whatever the
    tally and the trace are. *)
Lemma executeFrameworkRule_appends (inputData : value) (result result' : Tally.t)
  (rule : Rule.t) (tr tr' : trace) :
  executeFrameworkRule inputData result rule tr = (Ok result', tr') ->
  Tally.rule_results result' =
  Tally.rule_results result ++ outcomes_alone inputData rule.
Proof.
  unfold outcomes_alone, executeFrameworkRule, executeRule, try_catch, bind,
    call_evaluate.
  destruct (Rule.evaluate rule inputData) as [[e|]|[|m|]]; simpl.
  - destruct (Evaluation.passed e); simpl; intros E; injection E as <- _;
      reflexivity.
  - intros E; injection E as <- _; reflexivity.
  - intros E; injection E as <- _; reflexivity.
  - intros E; injection E as <- _; reflexivity.
  - intros E; injection E as <- _; reflexivity.
Qed.

Lemma tally_loop_appends (inputData : value) (rules : list Rule.t)
  (result result' : Tally.t) (tr tr' : trace) :
  for_of rules (executeFrameworkRule inputData) result tr = (Ok result', tr') ->
  Tally.rule_results result' =
  Tally.rule_results result ++ flat_map (outcomes_alone inputData) rules.
Proof.
  intros E.
  pose proof (for_of_partial (executeFrameworkRule inputData)
                (fun done s _ =>
                   Tally.rule_results s =
                   Tally.rule_results result ++
                   flat_map (outcomes_alone inputData) done)
                rules [] result tr result' tr') as H.
  simpl in H. apply H; [now rewrite app_nil_r| |exact E].
  intros done x s tr0 s' tr0' _ I Ex.
  rewrite (executeFrameworkRule_appends _ _ _ _ _ _ Ex), I, flat_map_app.
  simpl. now rewrite app_nil_r, app_assoc.
Qed.

(** The header and the outcomes of a framework result. *)
Lemma executeFrameworkRules_header (this : RuleEngine.t) (frameworkCode : string)
  (rules : list Rule.t) (inputData : value) (tr tr' : trace)
  (r : FrameworkResult.t) :
  executeFrameworkRules this frameworkCode rules inputData tr = (Ok r, tr') ->
  FrameworkResult.framework_code r = frameworkCode /\
  (exists framework,
      Map_get (RuleEngine.frameworks this) frameworkCode = Some framework /\
      FrameworkResult.framework r = Framework.name framework /\
      FrameworkResult.version r = Framework.version framework) /\
  FrameworkResult.total r = Z.of_nat (List.length rules) /\
  FrameworkResult.rule_results r = flat_map (outcomes_alone inputData) rules.
Proof.
  unfold executeFrameworkRules, bind. intros E.
  destruct (Map_get (RuleEngine.frameworks this) frameworkCode) as [fw|] eqn:G;
    [|discriminate].
  simpl in E.
  destruct (for_of rules (executeFrameworkRule inputData) Tally.zero tr)
    as [[result|e] tr1] eqn:L; [|discriminate].
  apply tally_loop_appends in L. simpl in L.
  unfold ret in E. injection E as <- _. simpl.
  split; [reflexivity|]. split; [|split; [reflexivity|exact L]].
  exists fw. repeat split.
Qed.

Lemma Forall2_flat_map_single {A B : Type} (f : A -> list B) (R : A -> B -> Prop)
  (l : list A) :
  (forall a, exists b, f a = [b] /\ R a b) ->
  Forall2 R l (flat_map f l).
Proof.
  intros H. induction l as [|a l IH]; [constructor|].
  simpl. destruct (H a) as (b & -> & Hb). simpl. now constructor.
Qed.

Lemma flat_map_concat {A B : Type} (f : A -> list B) (ls : list (list A)) :
  flat_map f (List.concat ls) = List.concat (map (flat_map f) ls).
Proof.
  induction ls as [|l ls IH]; [reflexivity|].
  simpl. now rewrite flat_map_app, IH.
Qed.

(** The groups of the selection and the framework results made from them. *)
Lemma groups_and_framework_results (env : Env.t) (this : RuleEngine.t)
  (inputData : value) (options : Options.t) (tr tr' : trace)
  (results : EvaluationResult.t) :
  executeCompliance env this inputData options tr = (Ok results, tr') ->
  let selection :=
    filterRules this (Options.frameworks options) (Options.categories options)
      (Options.severity options) in
  (forall code r,
      In (code, r) (EvaluationResult.framework_results results) ->
      exists tr0 tr1,
        executeFrameworkRules this code (rules_of code selection) inputData tr0 =
        (Ok r, tr1)) /\
  (forall code,
      In code (EvaluationResult.frameworks_tested results) <->
      exists rule, In rule selection /\ Rule.framework rule = code) /\
  EvaluationResult.detailed_results results =
  flat_map (outcomes_alone inputData) (execution_order this options).
Proof.
  intros E selection.
  destruct (executeCompliance_groups _ _ _ _ _ _ _ E) as [_ Hord].
  apply executeCompliance_framework_results in E
    as (_ & Ft & F2 & _ & _ & _ & Dr).
  fold selection in F2.
  split; [|split].
  - intros code r Hin.
    destruct (framework_result_of_a_group _ _ _ _ F2 code r Hin)
      as (rules & tr0 & tr1 & Hg & R).
    apply (Permutation_in _ (Object_entries_perm _)) in Hg.
    apply groups_of_In in Hg as [-> _].
    now exists tr0, tr1.
  - intros code. rewrite Ft.
    assert (Hk : map fst (EvaluationResult.framework_results results) =
                 map fst (Object_entries (groups_of selection))).
    { clear - F2. induction F2 as [|g e gs es [Hfst _] _ IH]; [reflexivity|].
      simpl. now rewrite Hfst, IH. }
    rewrite Hk. split.
    + intros Hin. apply in_map_iff in Hin as ([k g] & <- & Hin).
      apply (Permutation_in _ (Object_entries_perm _)) in Hin.
      apply groups_of_In in Hin as [-> Hne]. simpl.
      destruct (rules_of k selection) as [|rule l] eqn:Hr; [congruence|].
      assert (Hin : In rule (rules_of k selection)) by (rewrite Hr; now left).
      unfold rules_of in Hin. apply filter_In in Hin as [Hin Heq].
      apply String.eqb_eq in Heq. now exists rule.
    + intros (rule & Hin & <-).
      apply in_map_iff. exists (Rule.framework rule, rules_of (Rule.framework rule) selection).
      split; [reflexivity|].
      apply (Permutation_in _ (Permutation_sym (Object_entries_perm _))).
      apply groups_of_In. split; [reflexivity|].
      intros Hnil.
      assert (Hr : In rule (rules_of (Rule.framework rule) selection)).
      { unfold rules_of. apply filter_In. split; [exact Hin|apply String.eqb_refl]. }
      rewrite Hnil in Hr. destruct Hr.
  - rewrite Dr, (execution_order_eq this options Hord). fold selection.
    unfold Map_values. rewrite flat_map_concat. f_equal.
    clear - F2. induction F2 as [|g e gs es [_ (tr0 & tr1 & R)] _ IH]; [reflexivity|].
    simpl. rewrite IH. f_equal.
    now apply executeFrameworkRules_header in R as (_ & _ & _ & ->).
Qed.

(** X9.  [frameworks_tested] names exactly the frameworks that have a
    selected rule.  The framework result kept under a code carries that
    code, the name and the version of the framework registered under it,
    the number of selected rules of the framework as [total], and one
    outcome per selected rule of the framework, in the order of the
    catalog. *)
Theorem framework_results_follow_the_groups (env : Env.t) (this : RuleEngine.t)
  (inputData : value) (options : Options.t) (tr tr' : trace)
  (results : EvaluationResult.t) :
  executeCompliance env this inputData options tr = (Ok results, tr') ->
  (forall code,
      In code (EvaluationResult.frameworks_tested results) <->
      exists rule,
        In rule
          (filterRules this (Options.frameworks options)
             (Options.categories options) (Options.severity options)) /\
        Rule.framework rule = code) /\
  forall code r,
    In (code, r) (EvaluationResult.framework_results results) ->
    FrameworkResult.framework_code r = code /\
    (exists framework,
        Map_get (RuleEngine.frameworks this) code = Some framework /\
        FrameworkResult.framework r = Framework.name framework /\
        FrameworkResult.version r = Framework.version framework) /\
    FrameworkResult.total r =
    Z.of_nat
      (List.length
         (rules_of code
            (filterRules this (Options.frameworks options)
               (Options.categories options) (Options.severity options)))) /\
    Forall2 (reports inputData)
      (rules_of code
         (filterRules this (Options.frameworks options)
            (Options.categories options) (Options.severity options)))
      (FrameworkResult.rule_results r).
Proof.
  intros E. destruct (groups_and_framework_results _ _ _ _ _ _ _ E) as (Hr & Ht & _).
  split; [exact Ht|].
  intros code r Hin. destruct (Hr code r Hin) as (tr0 & tr1 & R).
  destruct (executeFrameworkRules_header _ _ _ _ _ _ _ R) as (Hc & Hf & Hto & _).
  apply executeFrameworkRules_Ok in R as [_ (F2 & _)].
  repeat split; assumption.
Qed.

Lemma framework_results_follow_the_groups_witness :
  Forall
    (fun entry =>
       FrameworkResult.framework_code (snd entry) = fst entry /\
       FrameworkResult.total (snd entry) =
       Z.of_nat
         (List.length
            (rules_of (fst entry) (filterRules Sample.engine_four None None None))))
    (EvaluationResult.framework_results Sample.result_all).
Proof.
  apply Forall_forall. intros [code r] Hin.
  destruct (framework_results_follow_the_groups Sample.env Sample.engine_four
              Sample.snapshot Options.empty [] (snd Sample.run_all)
              Sample.result_all) as [_ H].
  - vm_compute. reflexivity.
  - destruct (H code r Hin) as (Hc & _ & Hto & _). split; assumption.
Defined.

(** X10.  The outcome of a rule does not depend on the other rules, on the
    filters or on what ran before: [detailed_results] is, rule after rule
    in the order of execution, the one outcome that the rule leaves when it
    is run on its own, and so are the outcomes of every framework result. *)
Theorem outcomes_do_not_depend_on_the_other_rules (env : Env.t)
  (this : RuleEngine.t) (inputData : value) (options : Options.t)
  (tr tr' : trace) (results : EvaluationResult.t) :
  executeCompliance env this inputData options tr = (Ok results, tr') ->
  (forall rule, List.length (outcomes_alone inputData rule) = 1%nat) /\
  EvaluationResult.detailed_results results =
  flat_map (outcomes_alone inputData) (execution_order this options) /\
  forall code r,
    In (code, r) (EvaluationResult.framework_results results) ->
    FrameworkResult.rule_results r =
    flat_map (outcomes_alone inputData)
      (rules_of code
         (filterRules this (Options.frameworks options)
            (Options.categories options) (Options.severity options))).
Proof.
  intros E. destruct (groups_and_framework_results _ _ _ _ _ _ _ E) as (Hr & _ & Hd).
  split; [|split; [exact Hd|]].
  - intros rule. destruct (outcomes_alone_spec inputData rule) as (o & -> & _).
    reflexivity.
  - intros code r Hin. destruct (Hr code r Hin) as (tr0 & tr1 & R).
    now apply executeFrameworkRules_header in R as (_ & _ & _ & ->).
Qed.

Lemma outcomes_do_not_depend_on_the_other_rules_witness :
  EvaluationResult.detailed_results Sample.result_all =
  flat_map (outcomes_alone Sample.snapshot)
    (execution_order Sample.engine_four Options.empty).
Proof.
  destruct (outcomes_do_not_depend_on_the_other_rules Sample.env
              Sample.engine_four Sample.snapshot Options.empty []
              (snd Sample.run_all) Sample.result_all) as (_ & H & _).
  - vm_compute. reflexivity.
  - exact H.
Defined.

(** X11.  Every outcome of a result carries the code, title, severity and
    category of its rule.  A PASS outcome has details and a remediation
    text and no findings or evidence; a FAIL outcome has details, findings,
    evidence and a remediation text; an ERROR outcome has no findings or
    evidence, and either a message that begins with "Rule evaluation
    error: " with empty details and a remediation text, or a message that
    begins with "Execution error: " with no details and no remediation.
    The remediation text is never empty. *)
Theorem outcomes_have_the_fields_of_their_status (env : Env.t)
  (this : RuleEngine.t) (inputData : value) (options : Options.t)
  (tr tr' : trace) (results : EvaluationResult.t) :
  executeCompliance env this inputData options tr = (Ok results, tr') ->
  Forall2 outcome_of_rule (execution_order this options)
    (EvaluationResult.detailed_results results) /\
  forall rule, remediation_text rule <> "".
Proof.
  intros E. destruct (groups_and_framework_results _ _ _ _ _ _ _ E) as (_ & _ & ->).
  split; [|exact remediation_text_not_empty].
  apply Forall2_flat_map_single. apply outcomes_alone_spec.
Qed.

Lemma outcomes_have_the_fields_of_their_status_witness :
  Forall2 outcome_of_rule (execution_order Sample.engine_four Options.empty)
    (EvaluationResult.detailed_results Sample.result_all).
Proof.
  destruct (outcomes_have_the_fields_of_their_status Sample.env
              Sample.engine_four Sample.snapshot Options.empty []
              (snd Sample.run_all) Sample.result_all) as [H _].
  - vm_compute. reflexivity.
  - exact H.
Defined.

(** ** The overall risk score *)

Lemma sum_of_nonneg (counter : FrameworkResult.t -> Z)
  (frs : list (string * FrameworkResult.t)) :
  (forall code r, In (code, r) frs -> 0 <= counter r) -> 0 <= sum_of counter frs.
Proof.
  induction frs as [|[code r] frs IH]; intros H; [simpl; lia|].
  simpl. specialize (H code r (or_introl eq_refl)) as H0.
  assert (0 <= sum_of counter frs) by (apply IH; intros c x Hx; apply (H c x); now right).
  lia.
Qed.

Lemma count_rules_nonneg (p : Rule.t -> bool) (rules : list Rule.t) :
  0 <= count_rules p rules.
Proof. unfold count_rules. lia. Qed.

(** The counters of a result are not negative and add up to at most
    [total_rules]. *)
Lemma counters_bounds (env : Env.t) (this : RuleEngine.t)
  (inputData : value) (options : Options.t) (tr tr' : trace)
  (results : EvaluationResult.t) :
  executeCompliance env this inputData options tr = (Ok results, tr') ->
  0 <= EvaluationResult.passed_rules results /\
  0 <= EvaluationResult.failed_rules results /\
  EvaluationResult.skipped_rules results = 0 /\
  EvaluationResult.passed_rules results + EvaluationResult.failed_rules results
  <= EvaluationResult.total_rules results.
Proof.
  intros E.
  pose proof (executeCompliance_framework_results _ _ _ _ _ _ _ E)
    as (To & _ & F2 & _).
  destruct (framework_sums _ _ _ _ F2) as [_ Hs].
  pose proof (framework_results_sum_up _ _ _ _ _ _ _ E)
    as (_ & _ & To' & Pa & Fa & Sk & _).
  apply executeCompliance_Ok in E
    as (_ & _ & totals & L & _ & Pa' & Fa' & Sk' & _ & Dr' & _).
  apply totals_loop in L as (_ & _ & _ & Sk0 & Pa0 & Fl0 & _).
  pose proof (count_status_nonneg PASS (Totals.detailed_results totals)).
  pose proof (count_status_nonneg FAIL (Totals.detailed_results totals)).
  pose proof (count_rules_nonneg (caught_by_executeRule inputData)
                (List.concat
                   (Map_values
                      (Object_entries
                         (groups_of
                            (filterRules this (Options.frameworks options)
                               (Options.categories options)
                               (Options.severity options))))))).
  rewrite <- To', <- Pa, <- Fa, <- Sk in Hs.
  lia.
Qed.

(** X12.  The overall risk score of every result lies between 0 and 100.
    It is 0 when no rule is counted as failed, and 100 when every selected
    rule is, provided there is one. *)
Theorem overall_risk_score_range (env : Env.t) (this : RuleEngine.t)
  (inputData : value) (options : Options.t) (tr tr' : trace)
  (results : EvaluationResult.t) :
  executeCompliance env this inputData options tr = (Ok results, tr') ->
  in_percent_range (EvaluationResult.overall_risk_score results) /\
  (EvaluationResult.failed_rules results = 0 ->
   EvaluationResult.overall_risk_score results = of_Z 0) /\
  (0 < EvaluationResult.total_rules results ->
   EvaluationResult.failed_rules results = EvaluationResult.total_rules results ->
   EvaluationResult.overall_risk_score results = of_Z 100).
Proof.
  intros E. destruct (counters_bounds _ _ _ _ _ _ _ E) as (Pa & Fa & Sk & Le).
  apply executeCompliance_Ok in E
    as (_ & _ & totals & _ & _ & _ & _ & _ & _ & _ & Rs).
  rewrite Rs. unfold calculateRiskScore. rewrite Sk, Z.sub_0_r.
  fold (percentage (EvaluationResult.failed_rules results)
          (EvaluationResult.total_rules results)).
  destruct (Z.eqb_spec (EvaluationResult.total_rules results) 0) as [Z0|NZ].
  - split; [apply zero_in_range|]. split; [reflexivity|lia].
  - split; [apply percentage_range; lia|]. split.
    + intros ->. now apply percentage_zero.
    + intros Hpos ->. now apply percentage_full.
Qed.

Lemma overall_risk_score_range_witness :
  in_percent_range (EvaluationResult.overall_risk_score Sample.result_all).
Proof.
  destruct (overall_risk_score_range Sample.env Sample.engine_four
              Sample.snapshot Options.empty [] (snd Sample.run_all)
              Sample.result_all) as [H _].
  - vm_compute. reflexivity.
  - exact H.
Defined.

(* ================================================================== *)
(** * The compliance service *)

(** ** Sequences of [set] calls *)

Section MapSetAll.
Context {V : Type}.
Implicit Types (m : Map V) (k : string) (v : V) (l : list (string * V)).

Lemma Map_set_all_app m l1 l2 :
  Map_set_all m (l1 ++ l2) = Map_set_all (Map_set_all m l1) l2.
Proof. unfold Map_set_all. apply fold_left_app. Qed.

Lemma Map_has_set_all m l k :
  Map_has (Map_set_all m l) k = true <-> In k (map fst l) \/ Map_has m k = true.
Proof.
  revert m. induction l as [|[k' v'] l IH]; intros m; simpl.
  - tauto.
  - rewrite IH, Map_has_set. simpl. intuition congruence.
Qed.

Lemma Map_get_set_all_other m l k :
  ~ In k (map fst l) -> Map_get (Map_set_all m l) k = Map_get m k.
Proof.
  revert m. induction l as [|[k' v'] l IH]; intros m H; simpl; [reflexivity|].
  simpl in H. rewrite IH by tauto. apply Map_get_set_neq. intros ->. tauto.
Qed.

Lemma Map_get_set_all_in m l k :
  In k (map fst l) ->
  exists v, In (k, v) l /\ Map_get (Map_set_all m l) k = Some v.
Proof.
  revert m. induction l as [|[k' v'] l IH]; intros m H; simpl; [destruct H|].
  destruct (in_dec string_dec k (map fst l)) as [Hin|Hni].
  - destruct (IH (Map_set m k' v') Hin) as (v & Hv & G).
    exists v. split; [now right|exact G].
  - destruct H as [E|H]; [|contradiction]. simpl in E. subst k'.
    exists v'. split; [now left|].
    rewrite Map_get_set_all_other by assumption. apply Map_get_set_eq.
Qed.

(** Two [set] calls on different keys can be swapped when the second key is
    in the map. *)
Lemma Map_set_swap m k v k' v' :
  k <> k' -> Map_has m k' = true ->
  Map_set (Map_set m k v) k' v' = Map_set (Map_set m k' v') k v.
Proof.
  intros N. unfold Map_has.
  induction m as [|[a x] m IH]; simpl; [discriminate|].
  destruct (String.eqb_spec a k') as [->|Nk']; intros H.
  - destruct (String.eqb_spec k' k) as [->|_]; [congruence|]. simpl.
    rewrite String.eqb_refl.
    destruct (String.eqb_spec k' k) as [->|_]; [congruence|]. reflexivity.
  - destruct (String.eqb_spec a k) as [->|Nk]; simpl.
    + destruct (String.eqb_spec k k') as [->|_]; [congruence|].
      rewrite String.eqb_refl. reflexivity.
    + destruct (String.eqb_spec a k') as [->|_]; [congruence|].
      destruct (String.eqb_spec a k) as [->|_]; [congruence|].
      now rewrite IH.
Qed.

(** A [set] that a later [set] of the same key overrides can be left out,
    when the keys set in between are in the map. *)
Lemma Map_set_absorb l :
  forall m k v v',
    (forall k', In k' (map fst l) -> Map_has m k' = true) ->
    Map_set (Map_set_all (Map_set m k v) l) k v' =
    Map_set (Map_set_all m l) k v'.
Proof.
  induction l as [|[k1 v1] l IH]; intros m k v v' H; simpl.
  - apply Map_set_set.
  - destruct (String.eqb_spec k1 k) as [->|N].
    + now rewrite Map_set_set.
    + rewrite (Map_set_swap m k v k1 v1) by (auto; apply H; now left).
      apply IH. intros k' Hk'. apply Map_has_set. right. apply H. now right.
Qed.

(** Replaying a sequence of [set] calls on its own result changes nothing. *)
Lemma Map_set_all_replay l :
  forall m, Map_set_all (Map_set_all m l) l = Map_set_all m l.
Proof.
  induction l as [|[k v] l IH] using rev_ind; intros m; [reflexivity|].
  rewrite !Map_set_all_app. simpl.
  change (Map_set_all ?x [(k, v)]) with (Map_set x k v).
  rewrite Map_set_absorb.
  - now rewrite IH.
  - intros k' Hk'. apply Map_has_set_all. now left.
Qed.

End MapSetAll.

(** ** [initialize] *)

Lemma registerRules_spec (rules : list Rule.t) :
  forall engine : RuleEngine.t,
    registerRules engine rules =
    (match first_unregistered (RuleEngine.frameworks engine) rules with
     | None => Ok tt
     | Some rule =>
         Throw (ThrownError
                  ("Framework " ++ Rule.framework rule ++ " not registered"))
     end,
     {| RuleEngine.rules :=
          Map_set_all (RuleEngine.rules engine)
            (map (fun rule => (ruleKey rule, rule))
               (registered_prefix (RuleEngine.frameworks engine) rules));
        RuleEngine.frameworks := RuleEngine.frameworks engine |}).
Proof.
  induction rules as [|rule rules IH]; intros engine.
  - now destruct engine.
  - cbn [registerRules]. unfold registerRule, first_unregistered.
    cbn [find registered_prefix].
    destruct (Map_has (RuleEngine.frameworks engine) (Rule.framework rule)).
    + cbn [negb]. rewrite IH. reflexivity.
    + cbn [negb map]. now destruct engine.
Qed.

Lemma registered_prefix_app (frameworks : Map Framework.t) (l1 l2 : list Rule.t) :
  registered_prefix frameworks (l1 ++ l2) =
  match first_unregistered frameworks l1 with
  | None => l1 ++ registered_prefix frameworks l2
  | Some _ => registered_prefix frameworks l1
  end.
Proof.
  unfold first_unregistered.
  induction l1 as [|rule l1 IH]; simpl; [reflexivity|].
  destruct (Map_has frameworks (Rule.framework rule)); simpl; [|reflexivity].
  rewrite IH. now destruct (find _ l1).
Qed.

Lemma first_unregistered_app (frameworks : Map Framework.t) (l1 l2 : list Rule.t) :
  first_unregistered frameworks (l1 ++ l2) =
  match first_unregistered frameworks l1 with
  | None => first_unregistered frameworks l2
  | Some rule => Some rule
  end.
Proof.
  unfold first_unregistered.
  induction l1 as [|rule l1 IH]; simpl; [reflexivity|].
  now destruct (Map_has frameworks (Rule.framework rule)).
Qed.

Lemma first_unregistered_None (frameworks : Map Framework.t) (rules : list Rule.t) :
  first_unregistered frameworks rules = None ->
  registered_prefix frameworks rules = rules /\
  Forall (fun rule => Map_has frameworks (Rule.framework rule) = true) rules.
Proof.
  unfold first_unregistered.
  induction rules as [|rule rules IH]; simpl; [now split|].
  destruct (Map_has frameworks (Rule.framework rule)) eqn:H; simpl; [|discriminate].
  intros F. destruct (IH F) as [-> Hall]. split; [reflexivity|now constructor].
Qed.

Lemma first_unregistered_Some (frameworks : Map Framework.t) (rules : list Rule.t)
  (rule : Rule.t) :
  first_unregistered frameworks rules = Some rule ->
  exists after,
    rules = registered_prefix frameworks rules ++ rule :: after /\
    Forall (fun rule => Map_has frameworks (Rule.framework rule) = true)
      (registered_prefix frameworks rules) /\
    Map_has frameworks (Rule.framework rule) = false.
Proof.
  unfold first_unregistered.
  induction rules as [|r rules IH]; simpl; [discriminate|].
  destruct (Map_has frameworks (Rule.framework r)) eqn:H; simpl.
  - intros F. destruct (IH F) as (after & E & Hall & Hn).
    exists after. split; [now rewrite <- E|]. split; [now constructor|exact Hn].
  - intros E. injection E as <-. exists rules. now repeat split.
Qed.

(** [initialize] in one piece: the frameworks are registered, then the
    rules of the two modules one after the other up to the first one whose
    framework is not registered. *)
Lemma initialize_spec (cisRules iso27001Rules : RuleSet.t)
  (this : ComplianceService.t) :
  let engine :=
    registerFramework
      (registerFramework (ComplianceService.ruleEngine this)
         (RuleSet.framework cisRules))
      (RuleSet.framework iso27001Rules) in
  let rules := RuleSet.rules cisRules ++ RuleSet.rules iso27001Rules in
  initialize cisRules iso27001Rules this =
  (match first_unregistered (RuleEngine.frameworks engine) rules with
   | None => Ok tt
   | Some rule =>
       Throw (ThrownError
                ("Framework " ++ Rule.framework rule ++ " not registered"))
   end,
   {| ComplianceService.ruleEngine :=
        {| RuleEngine.rules :=
             Map_set_all (RuleEngine.rules engine)
               (map (fun rule => (ruleKey rule, rule))
                  (registered_prefix (RuleEngine.frameworks engine) rules));
           RuleEngine.frameworks := RuleEngine.frameworks engine |};
      ComplianceService.initialized :=
        match first_unregistered (RuleEngine.frameworks engine) rules with
        | None => true
        | Some _ => ComplianceService.initialized this
        end |}).
Proof.
  intros engine rules. unfold initialize. fold engine.
  rewrite (registerRules_spec (RuleSet.rules cisRules) engine).
  subst rules. rewrite first_unregistered_app, registered_prefix_app.
  destruct (first_unregistered (RuleEngine.frameworks engine)
              (RuleSet.rules cisRules)) as [rule|] eqn:F1; [reflexivity|].
  destruct (first_unregistered_None _ _ F1) as [P1 _].
  rewrite registerRules_spec. cbn [RuleEngine.frameworks RuleEngine.rules].
  rewrite P1, map_app, Map_set_all_app.
  now destruct (first_unregistered (RuleEngine.frameworks engine)
                  (RuleSet.rules iso27001Rules)).
Qed.

(** X13.  [initialize] registers the two frameworks, then the rules of the
    two modules in order.  It completes exactly when every rule names one
    of the two frameworks (or one that was registered before); the service
    is then initialized, every rule of the modules is in the catalog under
    its key, unless a rule of the modules with the same key replaced it, and
    the other keys are as before.  Otherwise it throws "Framework ... not
    registered" for the first rule that names another framework: the
    service is not marked initialized, yet the frameworks and the rules
    before that one stay registered. *)
Theorem initialize_registers_every_rule_or_throws
  (cisRules iso27001Rules : RuleSet.t) (this : ComplianceService.t) :
  let known code :=
    code = Framework.code (RuleSet.framework iso27001Rules) \/
    code = Framework.code (RuleSet.framework cisRules) \/
    Map_has (RuleEngine.frameworks (ComplianceService.ruleEngine this)) code = true in
  let rules := RuleSet.rules cisRules ++ RuleSet.rules iso27001Rules in
  let catalog this' := RuleEngine.rules (ComplianceService.ruleEngine this') in
  RuleEngine.frameworks
    (ComplianceService.ruleEngine (snd (initialize cisRules iso27001Rules this))) =
  Map_set
    (Map_set (RuleEngine.frameworks (ComplianceService.ruleEngine this))
       (Framework.code (RuleSet.framework cisRules)) (RuleSet.framework cisRules))
    (Framework.code (RuleSet.framework iso27001Rules))
    (RuleSet.framework iso27001Rules) /\
  match initialize cisRules iso27001Rules this with
  | (Ok _, this') =>
      Forall (fun rule => known (Rule.framework rule)) rules /\
      ComplianceService.initialized this' = true /\
      (forall rule,
          In rule rules ->
          exists rule',
            In rule' rules /\ ruleKey rule' = ruleKey rule /\
            Map_get (catalog this') (ruleKey rule) = Some rule') /\
      (forall key,
          ~ In key (map ruleKey rules) ->
          Map_get (catalog this') key = Map_get (catalog this) key)
  | (Throw error, this') =>
      exists before rule after,
        rules = before ++ rule :: after /\
        Forall (fun rule => known (Rule.framework rule)) before /\
        ~ known (Rule.framework rule) /\
        error =
        ThrownError ("Framework " ++ Rule.framework rule ++ " not registered") /\
        ComplianceService.initialized this' = ComplianceService.initialized this /\
        (forall rule',
            In rule' before -> Map_has (catalog this') (ruleKey rule') = true) /\
        (forall key,
            ~ In key (map ruleKey before) ->
            Map_get (catalog this') key = Map_get (catalog this) key)
  end.
Proof.
  intros known rules catalog. rewrite initialize_spec. fold rules.
  cbn [snd ComplianceService.ruleEngine RuleEngine.frameworks registerFramework].
  split; [reflexivity|].
  set (frameworks :=
         Map_set
           (Map_set (RuleEngine.frameworks (ComplianceService.ruleEngine this))
              (Framework.code (RuleSet.framework cisRules))
              (RuleSet.framework cisRules))
           (Framework.code (RuleSet.framework iso27001Rules))
           (RuleSet.framework iso27001Rules)).
  assert (Hknown : forall code, Map_has frameworks code = true <-> known code).
  { intros code. unfold frameworks, known. rewrite !Map_has_set. tauto. }
  assert (Hkeys : forall l : list Rule.t,
             map fst (map (fun rule => (ruleKey rule, rule)) l) = map ruleKey l).
  { intros l. rewrite map_map. reflexivity. }
  destruct (first_unregistered frameworks rules) as [rule|] eqn:F.
  - destruct (first_unregistered_Some _ _ _ F) as (after & E & Hall & Hn).
    exists (registered_prefix frameworks rules), rule, after.
    split; [exact E|]. split.
    { eapply Forall_impl; [|exact Hall]. intros r. apply Hknown. }
    split; [rewrite <- Hknown; congruence|].
    split; [reflexivity|]. split; [reflexivity|].
    unfold catalog. cbn [ComplianceService.ruleEngine RuleEngine.rules].
    split.
    + intros rule' Hin. apply Map_has_set_all. left. rewrite Hkeys.
      now apply in_map.
    + intros key Hni. apply Map_get_set_all_other. now rewrite Hkeys.
  - destruct (first_unregistered_None _ _ F) as [-> Hall].
    split.
    { eapply Forall_impl; [|exact Hall]. intros r. apply Hknown. }
    split; [reflexivity|].
    unfold catalog. cbn [ComplianceService.ruleEngine RuleEngine.rules].
    split.
    + intros rule Hin.
      destruct (Map_get_set_all_in
                  (RuleEngine.rules (ComplianceService.ruleEngine this))
                  (map (fun rule => (ruleKey rule, rule)) rules) (ruleKey rule))
        as (rule' & Hin' & G).
      { rewrite Hkeys. now apply in_map. }
      apply in_map_iff in Hin' as (r & Er & Hr). injection Er as Ek <-.
      exists r. repeat split; assumption.
    + intros key Hni. apply Map_get_set_all_other. now rewrite Hkeys.
Qed.

(** X14.  Calling [initialize] again, as [runComplianceCheck] does after a
    failed initialization, ends as the first call did and leaves the
    service as the first call left it. *)
Theorem initialize_again_changes_nothing (cisRules iso27001Rules : RuleSet.t)
  (this : ComplianceService.t) :
  initialize cisRules iso27001Rules
    (snd (initialize cisRules iso27001Rules this)) =
  initialize cisRules iso27001Rules this.
Proof.
  rewrite (initialize_spec cisRules iso27001Rules
             (snd (initialize cisRules iso27001Rules this))).
  rewrite !initialize_spec.
  cbn [snd ComplianceService.ruleEngine ComplianceService.initialized
         RuleEngine.frameworks RuleEngine.rules registerFramework].
  set (F := RuleEngine.frameworks (ComplianceService.ruleEngine this)).
  set (entries := [(Framework.code (RuleSet.framework cisRules),
                    RuleSet.framework cisRules);
                   (Framework.code (RuleSet.framework iso27001Rules),
                    RuleSet.framework iso27001Rules)]).
  change (Map_set (Map_set F (Framework.code (RuleSet.framework cisRules))
                     (RuleSet.framework cisRules))
            (Framework.code (RuleSet.framework iso27001Rules))
            (RuleSet.framework iso27001Rules))
    with (Map_set_all F entries).
  change (Map_set
            (Map_set (Map_set_all F entries)
               (Framework.code (RuleSet.framework cisRules))
               (RuleSet.framework cisRules))
            (Framework.code (RuleSet.framework iso27001Rules))
            (RuleSet.framework iso27001Rules))
    with (Map_set_all (Map_set_all F entries) entries).
  rewrite !Map_set_all_replay.
  now destruct (first_unregistered (Map_set_all F entries)
                  (RuleSet.rules cisRules ++ RuleSet.rules iso27001Rules)).
Qed.

(** ** [getAvailableFrameworks] and [getFrameworkRules] *)

Lemma registerRules_reachable (rules : list Rule.t) :
  forall engine, reachable engine -> reachable (snd (registerRules engine rules)).
Proof.
  induction rules as [|rule rules IH]; intros engine R; [exact R|].
  cbn [registerRules].
  pose proof (reachable_rule engine rule R) as R'.
  destruct (registerRule engine rule) as [[[]|e] engine']; simpl in *.
  - now apply IH.
  - exact R'.
Qed.

(** [initialize] builds the catalog through the two registration methods. *)
Lemma initialize_reachable (cisRules iso27001Rules : RuleSet.t)
  (this : ComplianceService.t) :
  reachable (ComplianceService.ruleEngine this) ->
  reachable
    (ComplianceService.ruleEngine (snd (initialize cisRules iso27001Rules this))).
Proof.
  intros R. unfold initialize.
  set (engine := registerFramework
                   (registerFramework (ComplianceService.ruleEngine this)
                      (RuleSet.framework cisRules))
                   (RuleSet.framework iso27001Rules)).
  assert (R0 : reachable engine) by (do 2 apply reachable_framework; exact R).
  pose proof (registerRules_reachable (RuleSet.rules cisRules) engine R0) as R1.
  destruct (registerRules engine (RuleSet.rules cisRules)) as [[[]|e] engine1];
    simpl in *; [|exact R1].
  pose proof (registerRules_reachable (RuleSet.rules iso27001Rules) engine1 R1)
    as R2.
  destruct (registerRules engine1 (RuleSet.rules iso27001Rules))
    as [[[]|e] engine2]; simpl in *; exact R2.
Qed.

(** Over frameworks of distinct codes, the rules of each framework add up
    to the rules that belong to one of them. *)
Lemma rules_per_framework_add_up (rules : list Rule.t) :
  forall frameworks : list Framework.t,
    NoDup (map Framework.code frameworks) ->
    (forall rule,
        In rule rules ->
        exists framework,
          In framework frameworks /\
          Framework.code framework = Rule.framework rule) ->
    fold_right
      (fun framework acc =>
         Z.of_nat (List.length (rules_of (Framework.code framework) rules)) + acc)
      0 frameworks =
    Z.of_nat (List.length rules).
Proof.
  intros frameworks. revert rules.
  induction frameworks as [|f fs IH]; intros rules ND H.
  - destruct rules as [|rule rules]; [reflexivity|].
    destruct (H rule (or_introl eq_refl)) as (f & [] & _).
  - cbn [fold_right]. inversion ND as [|? ? Hni ND']; subst.
    set (rest := filter (fun rule =>
                           negb (String.eqb (Rule.framework rule)
                                   (Framework.code f))) rules).
    assert (Hrest : fold_right
                      (fun framework acc =>
                         Z.of_nat
                           (List.length (rules_of (Framework.code framework) rest))
                         + acc) 0 fs =
                    Z.of_nat (List.length rest)).
    { apply IH; [exact ND'|].
      intros rule Hin. apply filter_In in Hin as [Hin Hneq].
      destruct (H rule Hin) as (g & [<-|Hg] & Eg).
      - rewrite Eg, String.eqb_refl in Hneq. discriminate.
      - now exists g. }
    assert (Hsame : forall g,
               In g fs ->
               rules_of (Framework.code g) rest = rules_of (Framework.code g) rules).
    { intros g Hg. unfold rules_of, rest. clear - Hni Hg.
      induction rules as [|rule rules IHr]; [reflexivity|]. simpl.
      destruct (String.eqb_spec (Rule.framework rule) (Framework.code f))
        as [Ef|Nf]; simpl.
      - destruct (String.eqb_spec (Rule.framework rule) (Framework.code g))
          as [Eg|Ng]; [|exact IHr].
        exfalso. apply Hni. rewrite <- Ef, Eg. now apply in_map.
      - destruct (String.eqb (Rule.framework rule) (Framework.code g));
          [f_equal|]; exact IHr. }
    assert (Hfold : fold_right
                      (fun framework acc =>
                         Z.of_nat
                           (List.length (rules_of (Framework.code framework) rest))
                         + acc) 0 fs =
                    fold_right
                      (fun framework acc =>
                         Z.of_nat
                           (List.length (rules_of (Framework.code framework) rules))
                         + acc) 0 fs).
    { clear - Hsame. induction fs as [|g gs IHg]; [reflexivity|].
      simpl. rewrite (Hsame g (or_introl eq_refl)), IHg; [reflexivity|].
      intros g' Hg'. apply Hsame. now right. }
    assert (Hsplit : Z.of_nat (List.length rules) =
                     Z.of_nat (List.length (rules_of (Framework.code f) rules))
                     + Z.of_nat (List.length rest)).
    { unfold rules_of, rest. clear.
      induction rules as [|rule l IHl]; [reflexivity|].
      cbn [filter].
      destruct (String.eqb (Rule.framework rule) (Framework.code f));
        cbn [negb List.length]; rewrite ?Nat2Z.inj_succ; lia. }
    lia.
Qed.

(** X15.  Once the service is initialized, [getAvailableFrameworks] lists
    the registered frameworks in order, each with the number of rules that
    [getFrameworkRules] returns for its code.  When no framework has the
    empty code these numbers add up to the size of the catalog; a framework
    whose code is empty is given the size of the whole catalog. *)
Theorem available_frameworks_count_their_rules (this : ComplianceService.t) :
  reachable (ComplianceService.ruleEngine this) ->
  ComplianceService.initialized this = true ->
  map FrameworkInfo.framework (getAvailableFrameworks this) =
  getFrameworks (ComplianceService.ruleEngine this) /\
  (forall info,
      In info (getAvailableFrameworks this) ->
      FrameworkInfo.rules_count info =
      Z.of_nat
        (List.length
           (getFrameworkRules this
              (Some (Framework.code (FrameworkInfo.framework info)))))) /\
  (forall info,
      In info (getAvailableFrameworks this) ->
      Framework.code (FrameworkInfo.framework info) = "" ->
      FrameworkInfo.rules_count info =
      Z.of_nat (List.length (getRules (ComplianceService.ruleEngine this) None))) /\
  ((forall framework,
       In framework (getFrameworks (ComplianceService.ruleEngine this)) ->
       Framework.code framework <> "") ->
   total_rules_count (getAvailableFrameworks this) =
   Z.of_nat (List.length (getRules (ComplianceService.ruleEngine this) None))).
Proof.
  intros R Init. unfold getAvailableFrameworks, getFrameworkRules.
  rewrite Init. cbn [negb].
  split; [rewrite map_map; apply map_id|].
  split; [|split].
  - intros info Hin. apply in_map_iff in Hin as (f & <- & _).
    cbn [FrameworkInfo.rules_count FrameworkInfo.framework].
    now rewrite length_map.
  - intros info Hin. apply in_map_iff in Hin as (f & <- & _).
    cbn [FrameworkInfo.rules_count FrameworkInfo.framework]. intros ->.
    reflexivity.
  - intros Hne. destruct (catalog_facts _ R) as (ND & _ & Hall).
    rewrite <- (rules_per_framework_add_up _ _ ND Hall).
    unfold total_rules_count. clear ND Hall.
    revert Hne.
    generalize (getFrameworks (ComplianceService.ruleEngine this)) as fs.
    induction fs as [|f fs IH]; intros Hne; [reflexivity|].
    cbn [map fold_right FrameworkInfo.rules_count].
    rewrite IH by (intros g Hg; apply Hne; now right).
    f_equal. unfold getRules, rules_of.
    destruct (String.eqb_spec (Framework.code f) "") as [E|_]; [|reflexivity].
    exfalso. apply (Hne f); [now left|exact E].
Qed.

Lemma available_frameworks_count_their_rules_witness :
  total_rules_count (getAvailableFrameworks SampleService.service) =
  Z.of_nat
    (List.length
       (getRules (ComplianceService.ruleEngine SampleService.service) None)).
Proof.
  apply (available_frameworks_count_their_rules SampleService.service).
  - apply (initialize_reachable SampleService.cisRules SampleService.iso27001Rules
             new_ComplianceService).
    exact reachable_new.
  - reflexivity.
  - intros framework Hin. vm_compute in Hin.
    destruct Hin as [<-|[<-|[]]]; discriminate.
Defined.

(* ================================================================== *)
(** * The report service *)

(** ** Findings by severity *)

(** The four severities, case by case. *)
Lemma known_severity_cases (severity : option string) :
  known_severity severity = true ->
  severity = Some "critical" \/ severity = Some "high" \/
  severity = Some "medium" \/ severity = Some "low".
Proof.
  destruct severity as [s|]; [|discriminate]. unfold known_severity.
  destruct (String.eqb_spec s "critical") as [->|_]; [auto|].
  destruct (String.eqb_spec s "high") as [->|_]; [auto|].
  destruct (String.eqb_spec s "medium") as [->|_]; [auto|].
  destruct (String.eqb_spec s "low") as [->|_]; [auto 6|discriminate].
Qed.

Lemma unknown_severity_cases (severity : option string) :
  known_severity severity = false ->
  forall s, severity = Some s ->
            s <> "critical" /\ s <> "high" /\ s <> "medium" /\ s <> "low".
Proof.
  intros H s ->. unfold known_severity in H.
  destruct (String.eqb_spec s "critical"); [discriminate|].
  destruct (String.eqb_spec s "high"); [discriminate|].
  destruct (String.eqb_spec s "medium"); [discriminate|].
  destruct (String.eqb_spec s "low"); [discriminate|]. auto.
Qed.

(** The loop of [categorizeFindingsBySeverity], from any categories. *)
Lemma categorize_loop (outcomes : list RuleOutcome.t) :
  forall categories : Categories.t,
    match
      forEach outcomes
        (fun categories rule =>
           if status_eqb (RuleOutcome.status rule) FAIL
           then push_finding categories rule
           else Ok categories)
        categories
    with
    | Ok categories' =>
        Forall (fun o => RuleOutcome.status o = FAIL ->
                         known_severity (RuleOutcome.severity o) = true) outcomes /\
        Categories.critical categories' =
        Categories.critical categories ++
        map finding_of (failures_of "critical" outcomes) /\
        Categories.high categories' =
        Categories.high categories ++ map finding_of (failures_of "high" outcomes) /\
        Categories.medium categories' =
        Categories.medium categories ++
        map finding_of (failures_of "medium" outcomes) /\
        Categories.low categories' =
        Categories.low categories ++ map finding_of (failures_of "low" outcomes)
    | Throw _ =>
        exists o,
          In o outcomes /\ RuleOutcome.status o = FAIL /\
          known_severity (RuleOutcome.severity o) = false
    end.
Proof.
  induction outcomes as [|o l IH]; intros categories.
  - simpl. rewrite !app_nil_r. repeat split. constructor.
  - cbn [forEach].
    match goal with
    | |- context [forEach ?rest ?b _] => set (body := b) in *
    end.
    cbv beta. unfold failures_of. cbn [filter]. fold (failures_of "critical" l).
    fold (failures_of "high" l). fold (failures_of "medium" l).
    fold (failures_of "low" l).
    destruct (status_eqb (RuleOutcome.status o) FAIL) eqn:St.
    + assert (Hst : RuleOutcome.status o = FAIL)
        by (destruct (RuleOutcome.status o); first [reflexivity|discriminate]).
      unfold push_finding, has_severity.
      destruct (RuleOutcome.severity o) as [s|] eqn:Sev.
      * destruct (String.eqb_spec s "critical") as [->|N1];
          [|destruct (String.eqb_spec s "high") as [->|N2];
            [|destruct (String.eqb_spec s "medium") as [->|N3];
              [|destruct (String.eqb_spec s "low") as [->|N4]]]].
        1-4: match goal with
             | |- context [forEach ?rest ?body ?c] =>
                 specialize (IH c); destruct (forEach rest body c) as [c'|e];
                 cbv beta iota in IH
             end.
        1,3,5,7: destruct IH as (Hall & Hc & Hh & Hm & Hl);
          cbn [Categories.critical Categories.high Categories.medium
                 Categories.low] in Hc, Hh, Hm, Hl;
          cbn [andb map]; rewrite Hc, Hh, Hm, Hl, <- ?app_assoc;
          (split; [constructor; [intros _; rewrite Sev; reflexivity|exact Hall]|]);
          repeat split; reflexivity.
        1-4: destruct IH as (o' & Hin & Ho'); exists o'; split; [now right|exact Ho'].
        assert (Hk : known_severity (Some s) = false).
        { unfold known_severity.
          destruct (String.eqb_spec s "critical"); [congruence|].
          destruct (String.eqb_spec s "high"); [congruence|].
          destruct (String.eqb_spec s "medium"); [congruence|].
          destruct (String.eqb_spec s "low"); [congruence|]. reflexivity. }
        destruct (inherited s); exists o; (split; [now left|]);
          (split; [exact Hst|]); rewrite Sev; exact Hk.
      * exists o. split; [now left|]. split; [exact Hst|]. now rewrite Sev.
    + cbn [andb]. specialize (IH categories).
      destruct (forEach l _ categories) as [c'|e]; cbv beta iota in IH.
      * destruct IH as (Hall & Hrest). split; [|exact Hrest].
        constructor; [|exact Hall]. intros Hst. rewrite Hst in St. discriminate.
      * destruct IH as (o' & Hin & Ho'). exists o'. split; [now right|exact Ho'].
Qed.

(** X16.  [categorizeFindingsBySeverity] returns the FAIL outcomes of a
    result sorted into the four severities, each list in the order of
    [detailed_results], when every FAIL outcome has one of the four
    severities.  It throws as soon as a FAIL outcome has another severity or
    none. *)
Theorem findings_are_the_failures_by_severity (results : EvaluationResult.t) :
  match categorizeFindingsBySeverity results with
  | Ok categories =>
      Forall (fun o => RuleOutcome.status o = FAIL ->
                       known_severity (RuleOutcome.severity o) = true)
        (EvaluationResult.detailed_results results) /\
      Categories.critical categories =
      map finding_of
        (failures_of "critical" (EvaluationResult.detailed_results results)) /\
      Categories.high categories =
      map finding_of (failures_of "high" (EvaluationResult.detailed_results results)) /\
      Categories.medium categories =
      map finding_of
        (failures_of "medium" (EvaluationResult.detailed_results results)) /\
      Categories.low categories =
      map finding_of (failures_of "low" (EvaluationResult.detailed_results results))
  | Throw _ =>
      exists o,
        In o (EvaluationResult.detailed_results results) /\
        RuleOutcome.status o = FAIL /\
        known_severity (RuleOutcome.severity o) = false
  end.
Proof.
  unfold categorizeFindingsBySeverity.
  exact (categorize_loop (EvaluationResult.detailed_results results)
           Categories.empty).
Qed.

(** The one outcome of a rule: its severity, and when it is FAIL. *)
Lemma outcomes_alone_failure (inputData : value) (rule : Rule.t) :
  exists o,
    outcomes_alone inputData rule = [o] /\
    RuleOutcome.severity o = Rule.severity rule /\
    (RuleOutcome.status o = FAIL <->
     exists evaluation,
       Rule.evaluate rule inputData = Resolves (Some evaluation) /\
       Evaluation.passed evaluation = false).
Proof.
  unfold outcomes_alone, executeFrameworkRule, executeRule, try_catch, bind,
    call_evaluate.
  destruct (Rule.evaluate rule inputData) as [[e|]|[|m|]]; simpl.
  - destruct (Evaluation.passed e) eqn:P; simpl; eexists;
      (split; [reflexivity|]); simpl; (split; [reflexivity|]).
    + split; [discriminate|]. intros (e' & E & P'). congruence.
    + split; [|reflexivity]. intros _. now exists e.
  - eexists; split; [reflexivity|]; simpl; split; [reflexivity|].
    split; [discriminate|]. intros (e' & E & _). discriminate.
  - eexists; split; [reflexivity|]; simpl; split; [reflexivity|].
    split; [discriminate|]. intros (e' & E & _). discriminate.
  - eexists; split; [reflexivity|]; simpl; split; [reflexivity|].
    split; [discriminate|]. intros (e' & E & _). discriminate.
  - eexists; split; [reflexivity|]; simpl; split; [reflexivity|].
    split; [discriminate|]. intros (e' & E & _). discriminate.
Qed.

Lemma execution_order_perm (this : RuleEngine.t) (options : Options.t) :
  Forall (fun rule => inherited (Rule.framework rule) = false)
    (filterRules this (Options.frameworks options) (Options.categories options)
       (Options.severity options)) ->
  Permutation (execution_order this options)
    (filterRules this (Options.frameworks options) (Options.categories options)
       (Options.severity options)).
Proof.
  intros H. rewrite (execution_order_eq this options H).
  destruct (groups_of_spec
              (filterRules this (Options.frameworks options)
                 (Options.categories options) (Options.severity options)))
    as [_ Perm].
  exact (Permutation_trans (concat_values_entries _) Perm).
Qed.

Lemma unknown_severity_weighs_1 (severity : option string) :
  known_severity severity = false ->
  getSeverityWeight severity =
  if inherited_severity severity then Member else Plain 1.
Proof.
  intros H. rewrite getSeverityWeight_eq.
  destruct (inherited_severity severity); [reflexivity|]. f_equal.
  destruct severity as [s|]; [|reflexivity].
  destruct (unknown_severity_cases _ H s eq_refl) as (N1 & N2 & N3 & N4).
  unfold spec_weight.
  destruct (String.eqb_spec s "critical"); [congruence|].
  destruct (String.eqb_spec s "high"); [congruence|].
  destruct (String.eqb_spec s "medium"); [congruence|].
  destruct (String.eqb_spec s "low"); [congruence|]. reflexivity.
Qed.

(** X17.  A rule whose severity is missing, or is not one of the four,
    weighs 1 in the risk score of the engine, unless the severity names a
    member of [Object.prototype], which [getSeverityWeight] then returns;
    but [categorizeFindingsBySeverity] throws on the result of
    [executeCompliance] exactly when such a rule was selected and its
    predicate reported a failure. *)
Theorem a_failing_rule_of_unknown_severity_breaks_the_report (env : Env.t)
  (this : RuleEngine.t) (inputData : value) (options : Options.t)
  (tr tr' : trace) (results : EvaluationResult.t) :
  executeCompliance env this inputData options tr = (Ok results, tr') ->
  (forall severity,
      known_severity severity = false ->
      getSeverityWeight severity =
      if inherited_severity severity then Member else Plain 1) /\
  ((exists error, categorizeFindingsBySeverity results = Throw error) <->
   exists rule evaluation,
     In rule
       (filterRules this (Options.frameworks options) (Options.categories options)
          (Options.severity options)) /\
     Rule.evaluate rule inputData = Resolves (Some evaluation) /\
     Evaluation.passed evaluation = false /\
     known_severity (Rule.severity rule) = false).
Proof.
  intros E. split; [exact unknown_severity_weighs_1|].
  destruct (groups_and_framework_results _ _ _ _ _ _ _ E) as (_ & _ & Hd).
  destruct (executeCompliance_groups _ _ _ _ _ _ _ E) as [_ Hord].
  pose proof (execution_order_perm this options Hord) as Perm.
  pose proof (categorize_loop (EvaluationResult.detailed_results results)
                Categories.empty) as H.
  fold (categorizeFindingsBySeverity results) in H.
  split.
  - intros (error & Ht). rewrite Ht in H. destruct H as (o & Hin & Hst & Hk).
    rewrite Hd in Hin. apply in_flat_map in Hin as (rule & Hrule & Ho).
    destruct (outcomes_alone_failure inputData rule) as (o' & Eo & Sev & Hf).
    rewrite Eo in Ho. destruct Ho as [<-|[]].
    destruct (proj1 Hf Hst) as (evaluation & Ev & P).
    exists rule, evaluation. split; [now apply (Permutation_in _ Perm)|].
    split; [exact Ev|]. split; [exact P|]. now rewrite <- Sev.
  - intros (rule & evaluation & Hin & Ev & P & Hk).
    destruct (categorizeFindingsBySeverity results) as [categories|error];
      [|now exists error].
    exfalso. destruct H as (Hall & _).
    destruct (outcomes_alone_failure inputData rule) as (o & Eo & Sev & Hf).
    assert (Ho : In o (EvaluationResult.detailed_results results)).
    { rewrite Hd. apply in_flat_map. exists rule. split.
      - now apply (Permutation_in _ (Permutation_sym Perm)).
      - rewrite Eo. now left. }
    rewrite Forall_forall in Hall. specialize (Hall o Ho).
    rewrite Sev, Hk in Hall.
    assert (RuleOutcome.status o = FAIL) by (apply Hf; now exists evaluation).
    specialize (Hall H). discriminate.
Qed.

Lemma a_failing_rule_of_unknown_severity_breaks_the_report_witness :
  exists error, categorizeFindingsBySeverity SampleReport.unrated_result = Throw error.
Proof.
  destruct (a_failing_rule_of_unknown_severity_breaks_the_report Sample.env
              SampleReport.engine Sample.snapshot Options.empty []
              (snd (executeCompliance Sample.env SampleReport.engine
                      Sample.snapshot Options.empty []))
              SampleReport.unrated_result) as [_ [_ H]].
  - vm_compute. reflexivity.
  - apply H. exists SampleReport.unrated, (Sample.verdict false "not compliant").
    split; [|repeat split]. vm_compute. auto.
Defined.

(** ** The order of the remediation priorities *)

Section StableSort.
Context {A : Type} (after : A -> A -> bool) (rank : A -> Z) (good : A -> Prop).
Hypothesis after_spec :
  forall a b, good a -> good b -> after a b = (rank a <? rank b).
Hypothesis rank_range : forall a, good a -> 1 <= rank a <= 4.

Lemma insert_sorted_pass (a : A) (l1 l2 : list A) :
  (forall b, In b l1 -> after a b = true) ->
  insert_sorted after a (l1 ++ l2) = l1 ++ insert_sorted after a l2.
Proof.
  induction l1 as [|b l1 IH]; intros H; [reflexivity|].
  simpl. rewrite (H b (or_introl eq_refl)), IH; [reflexivity|].
  intros c Hc. apply H. now right.
Qed.

Lemma insert_sorted_stop (a : A) (l : list A) :
  (forall b, In b l -> after a b = false) ->
  insert_sorted after a l = a :: l.
Proof.
  destruct l as [|b l]; intros H; [reflexivity|].
  simpl. now rewrite (H b (or_introl eq_refl)).
Qed.

Lemma In_rank_class (r : Z) (l : list A) (b : A) :
  Forall good l ->
  In b (filter (fun a => rank a =? r) l) -> good b /\ rank b = r.
Proof.
  intros G Hin. apply filter_In in Hin as [Hin Hr].
  rewrite Forall_forall in G. split; [now apply G|now apply Z.eqb_eq].
Qed.

(** With four ranks, the sort puts the elements of rank 4 first, then those
    of rank 3, 2 and 1, and keeps the order inside each rank. *)
Lemma Array_sort_by_rank (l : list A) :
  Forall good l ->
  Array_sort after l =
  filter (fun a => rank a =? 4) l ++ filter (fun a => rank a =? 3) l ++
  filter (fun a => rank a =? 2) l ++ filter (fun a => rank a =? 1) l.
Proof.
  induction 1 as [|a l Ga Gl IH]; [reflexivity|].
  unfold Array_sort in *. cbn [fold_right filter]. rewrite IH.
  pose proof (rank_range a Ga) as Hr.
  assert (Hafter : forall r b,
             In b (filter (fun a => rank a =? r) l) ->
             after a b = (rank a <? r)).
  { intros r b Hin. destruct (In_rank_class r l b Gl Hin) as [Gb <-].
    now apply after_spec. }
  assert (Hcases : rank a = 4 \/ rank a = 3 \/ rank a = 2 \/ rank a = 1) by lia.
  destruct Hcases as [Ra|[Ra|[Ra|Ra]]]; rewrite Ra; cbn [Z.eqb Pos.eqb].
  - apply insert_sorted_stop. intros b Hin.
    rewrite !in_app_iff in Hin.
    destruct Hin as [Hin|[Hin|[Hin|Hin]]]; rewrite (Hafter _ _ Hin), Ra;
      reflexivity.
  - rewrite insert_sorted_pass
      by (intros b Hin; rewrite (Hafter _ _ Hin), Ra; reflexivity).
    f_equal. apply insert_sorted_stop. intros b Hin.
    rewrite !in_app_iff in Hin.
    destruct Hin as [Hin|[Hin|Hin]]; rewrite (Hafter _ _ Hin), Ra; reflexivity.
  - rewrite insert_sorted_pass
      by (intros b Hin; rewrite (Hafter _ _ Hin), Ra; reflexivity).
    f_equal.
    rewrite insert_sorted_pass
      by (intros b Hin; rewrite (Hafter _ _ Hin), Ra; reflexivity).
    f_equal. apply insert_sorted_stop. intros b Hin.
    rewrite !in_app_iff in Hin.
    destruct Hin as [Hin|Hin]; rewrite (Hafter _ _ Hin), Ra; reflexivity.
  - rewrite insert_sorted_pass
      by (intros b Hin; rewrite (Hafter _ _ Hin), Ra; reflexivity).
    f_equal.
    rewrite insert_sorted_pass
      by (intros b Hin; rewrite (Hafter _ _ Hin), Ra; reflexivity).
    f_equal.
    rewrite insert_sorted_pass
      by (intros b Hin; rewrite (Hafter _ _ Hin), Ra; reflexivity).
    f_equal. apply insert_sorted_stop. intros b Hin.
    rewrite (Hafter _ _ Hin), Ra. reflexivity.
Qed.

End StableSort.

Lemma filter_twice {A : Type} (p q : A -> bool) (l : list A) :
  filter p (filter q l) = filter (fun a => q a && p a) l.
Proof.
  induction l as [|a l IH]; [reflexivity|].
  simpl. destruct (q a); simpl; [destruct (p a)|]; now rewrite IH.
Qed.

(** The weight of a severity tells the severity, when it is one of the
    four. *)
Lemma weight_tells_the_severity (o : RuleOutcome.t) :
  known_severity (RuleOutcome.severity o) = true ->
  (spec_weight (RuleOutcome.severity o) =? 4) = has_severity "critical" o /\
  (spec_weight (RuleOutcome.severity o) =? 3) = has_severity "high" o /\
  (spec_weight (RuleOutcome.severity o) =? 2) = has_severity "medium" o /\
  (spec_weight (RuleOutcome.severity o) =? 1) = has_severity "low" o.
Proof.
  intros K. unfold has_severity.
  destruct (known_severity_cases _ K) as [E|[E|[E|E]]]; rewrite E;
    repeat split; reflexivity.
Qed.

(** The comparator of the sort, on entries whose severity is one of the
    four. *)
Lemma sorts_after_spec (a b : Priority.t) :
  known_severity (Priority.severity a) = true /\
  Priority.business_impact a = getSeverityWeight (Priority.severity a) ->
  known_severity (Priority.severity b) = true /\
  Priority.business_impact b = getSeverityWeight (Priority.severity b) ->
  sorts_after a b =
  (spec_weight (Priority.severity a) <? spec_weight (Priority.severity b)).
Proof.
  intros [Ka Ia] [Kb Ib]. unfold sorts_after, priority_weight. rewrite Ia, Ib.
  destruct (known_severity_cases _ Ka) as [Ea|[Ea|[Ea|Ea]]];
    destruct (known_severity_cases _ Kb) as [Eb|[Eb|[Eb|Eb]]];
    rewrite Ea, Eb; reflexivity.
Qed.

Lemma business_impact_is_the_weight (o : RuleOutcome.t) :
  assessBusinessImpact o = getSeverityWeight (RuleOutcome.severity o) /\
  calculateRuleImpact o = getSeverityWeight (RuleOutcome.severity o).
Proof.
  unfold assessBusinessImpact, calculateRuleImpact, getSeverityWeight,
    severityWeight, weights, Obj_lookup.
  destruct (RuleOutcome.severity o) as [s|]; [|now split]. cbn [Obj_get].
  destruct (String.eqb_spec "critical" s) as [<-|N1]; [now split|].
  destruct (String.eqb_spec "high" s) as [<-|N2]; [now split|].
  destruct (String.eqb_spec "medium" s) as [<-|N3]; [now split|].
  destruct (String.eqb_spec "low" s) as [<-|N4]; [now split|].
  now split.
Qed.

Lemma priority_level_of_a_failure (severity : string) (outcomes : list RuleOutcome.t) :
  map (fun o => calculatePriorityLevel o) (failures_of severity outcomes) =
  repeat
    (if String.eqb severity "critical" then "Immediate"
     else if String.eqb severity "high" then "High"
     else if String.eqb severity "medium" then "Medium"
     else "Low")
    (List.length (failures_of severity outcomes)).
Proof.
  rewrite <- map_const. apply map_ext_in. intros o Hin.
  unfold failures_of in Hin. apply filter_In in Hin as [_ H].
  apply andb_true_iff in H as [_ H]. unfold has_severity in H.
  unfold calculatePriorityLevel.
  destruct (RuleOutcome.severity o) as [s|]; [|discriminate].
  apply String.eqb_eq in H. now subst s.
Qed.

(** X18.  When every FAIL outcome of a result has one of the four
    severities, [generateRemediationPriority] lists the failures of
    severity critical first, then those of severity high, medium and low,
    each group in the order of [detailed_results]: the same groups, in the
    same order, as those of [categorizeFindingsBySeverity].  The priority
    levels thus read Immediate, High, Medium, Low down the list, and the
    business impact of an entry is the weight that the engine gives its
    severity. *)
Theorem remediation_priorities_go_by_severity (results : EvaluationResult.t) :
  Forall (fun o => RuleOutcome.status o = FAIL ->
                   known_severity (RuleOutcome.severity o) = true)
    (EvaluationResult.detailed_results results) ->
  generateRemediationPriority results =
  map priority_of
    (failures_of "critical" (EvaluationResult.detailed_results results) ++
     failures_of "high" (EvaluationResult.detailed_results results) ++
     failures_of "medium" (EvaluationResult.detailed_results results) ++
     failures_of "low" (EvaluationResult.detailed_results results)) /\
  map Priority.priority_level (generateRemediationPriority results) =
  repeat "Immediate"
    (List.length (failures_of "critical" (EvaluationResult.detailed_results results)))
  ++ repeat "High"
       (List.length (failures_of "high" (EvaluationResult.detailed_results results)))
  ++ repeat "Medium"
       (List.length (failures_of "medium" (EvaluationResult.detailed_results results)))
  ++ repeat "Low"
       (List.length (failures_of "low" (EvaluationResult.detailed_results results))) /\
  Forall
    (fun entry =>
       Priority.business_impact entry = getSeverityWeight (Priority.severity entry))
    (generateRemediationPriority results).
Proof.
  intros K.
  set (outcomes := EvaluationResult.detailed_results results) in *.
  assert (Hsort : generateRemediationPriority results =
                  map priority_of
                    (failures_of "critical" outcomes ++ failures_of "high" outcomes ++
                     failures_of "medium" outcomes ++ failures_of "low" outcomes)).
  { unfold generateRemediationPriority. fold outcomes.
    rewrite (Array_sort_by_rank sorts_after
               (fun entry => spec_weight (Priority.severity entry))
               (fun entry =>
                  known_severity (Priority.severity entry) = true /\
                  Priority.business_impact entry =
                  getSeverityWeight (Priority.severity entry))).
    - rewrite !filter_map_swap, !filter_twice, !map_app.
      cbn [priority_of Priority.severity].
      assert (Hclass : forall r severity,
                 (forall o, known_severity (RuleOutcome.severity o) = true ->
                            (spec_weight (RuleOutcome.severity o) =? r) =
                            has_severity severity o) ->
                 filter
                   (fun a =>
                      status_eqb (RuleOutcome.status a) FAIL &&
                      (spec_weight (RuleOutcome.severity a) =? r)) outcomes =
                 failures_of severity outcomes).
      { intros r severity Hr. unfold failures_of. apply filter_ext_in.
        intros o Hin. rewrite Forall_forall in K. specialize (K o Hin).
        destruct (RuleOutcome.status o) eqn:St; cbn [status_eqb andb];
          try reflexivity.
        apply Hr. now apply K. }
      rewrite (Hclass 4 "critical"), (Hclass 3 "high"), (Hclass 2 "medium"),
        (Hclass 1 "low"); [reflexivity| | | |];
        intros o Ko; now destruct (weight_tells_the_severity o Ko) as (? & ? & ? & ?).
    - exact sorts_after_spec.
    - intros entry [Ke _]. apply spec_weight_bounds.
    - apply Forall_forall. intros entry Hin.
      apply in_map_iff in Hin as (o & <- & Hin).
      apply filter_In in Hin as [Hin St].
      cbn [priority_of Priority.severity Priority.business_impact].
      split; [|apply business_impact_is_the_weight].
      rewrite Forall_forall in K. apply (K o Hin).
      destruct (RuleOutcome.status o); first [reflexivity|discriminate]. }
  split; [exact Hsort|]. split.
  - rewrite Hsort, map_map, !map_app.
    cbn [priority_of Priority.priority_level].
    now rewrite !priority_level_of_a_failure.
  - rewrite Hsort. apply Forall_forall. intros entry Hin.
    apply in_map_iff in Hin as (o & <- & _).
    cbn [priority_of Priority.severity Priority.business_impact].
    apply business_impact_is_the_weight.
Qed.

Lemma remediation_priorities_go_by_severity_witness :
  map Priority.priority_level
    (generateRemediationPriority SampleReport.rated_result) =
  ["Immediate"; "Low"].
Proof.
  destruct (remediation_priorities_go_by_severity SampleReport.rated_result)
    as (_ & H & _).
  - vm_compute. repeat constructor.
  - rewrite H. vm_compute. reflexivity.
Defined.

(** ** The overall status and the rounding of the compliance rate *)

Section RoundingError.
Local Open Scope Q_scope.

Lemma rne_upper (q : Q) : inject_Z (rne q) <= q + (1 # 2).
Proof.
  pose proof (Qfloor_le q) as Hf. unfold rne.
  destruct (Qcompare (q - inject_Z (Qfloor q)) (1 # 2)) eqn:C.
  - apply Qeq_alt in C.
    destruct (Z.even (Qfloor q)); [lra|].
    rewrite inject_Z_plus. change (inject_Z 1) with 1. lra.
  - lra.
  - apply Qgt_alt in C. rewrite inject_Z_plus. change (inject_Z 1) with 1. lra.
Qed.

(** Rounding to binary64 adds at most the fraction 2^-53 of the value. *)
Lemma round_upper (x : Q) :
  0 < x -> round x <= x * (1 + 1 / inject_Z (2 ^ 53)).
Proof.
  intros Hx. destruct (significand_bounds x Hx) as [Hl _].
  rewrite round_nonzero by lra.
  pose proof (pow2_pos (mag x - (prec - 1))) as PK.
  set (P := 2 ^ (mag x - (prec - 1))) in *.
  pose proof (rne_upper (x / P)) as Hr.
  assert (Hq : x / P * P == x) by (field; lra).
  assert (H1 : inject_Z (rne (x / P)) * P <= (x / P + (1 # 2)) * P)
    by (apply Qmult_le_compat_r; lra).
  assert (H2 : inject_Z (2 ^ 52) * P <= x).
  { rewrite <- Hq. apply Qmult_le_compat_r; lra. }
  change (inject_Z (2 ^ 52)) with (4503599627370496 # 1) in H2.
  change (inject_Z (2 ^ 53)) with (9007199254740992 # 1).
  assert (H3 : (x / P + (1 # 2)) * P == x + (1 # 2) * P) by (rewrite <- Hq at 2; ring).
  rewrite H3 in H1.
  assert (H4 : 1 / (9007199254740992 # 1) == 1 # 9007199254740992) by reflexivity.
  rewrite H4. lra.
Qed.

(** A rate below a threshold stays below it after the two roundings, for
    counters below 2^32. *)
Lemma rate_below (p t c : Z) :
  (0 <= p)%Z -> (0 < t < 2 ^ 32)%Z -> (0 < c <= 100)%Z ->
  (100 * p < c * t)%Z ->
  round (round (inject_Z p / inject_Z t) * inject_Z 100) < inject_Z c.
Proof.
  intros Hp [Ht Ht32] [Hc Hc100] Hlt.
  assert (Hc0 : 0 < inject_Z c).
  { rewrite Zlt_Qlt in Hc. exact Hc. }
  destruct (Z.eq_dec p 0) as [->|Np].
  - assert (Hq : inject_Z 0 / inject_Z t == 0).
    { change (inject_Z 0) with 0. unfold Qdiv. lra. }
    rewrite (round_zero _ Hq).
    assert (Hm : 0 * inject_Z 100 == 0) by lra.
    rewrite (round_zero _ Hm). exact Hc0.
  - assert (Hp' : (0 < p)%Z) by lia.
    assert (Hle : (100 * p + 1 <= c * t)%Z) by lia.
    rewrite Zlt_Qlt in Hp', Ht, Ht32. rewrite Zle_Qle in Hle, Hc100.
    rewrite inject_Z_plus, !inject_Z_mult in Hle.
    change (inject_Z 0) with 0 in *. change (inject_Z 100) with 100 in *.
    change (inject_Z 1) with 1 in *.
    change (inject_Z (2 ^ 32)) with (4294967296 # 1) in Ht32.
    set (P := inject_Z p) in *. set (T := inject_Z t) in *.
    set (C := inject_Z c) in *.
    assert (Hx : 0 < P / T) by (apply Qlt_shift_div_l; lra).
    assert (Hx100 : P / T <= (C - (1 # 4294967296)) / 100).
    { apply Qle_shift_div_r; [lra|].
      assert (H : C * T - 1 <= C * T - (1 # 4294967296) * T) by lra.
      assert (H' : (C - (1 # 4294967296)) / 100 * T ==
                   (C * T - (1 # 4294967296) * T) / 100) by (field; lra).
      rewrite H'. apply Qle_shift_div_l; lra. }
    assert (Hx100' : P / T * 100 <= C - (1 # 4294967296)).
    { assert (H : (C - (1 # 4294967296)) / 100 * 100 == C - (1 # 4294967296))
        by (field; lra).
      rewrite <- H. apply Qmult_le_compat_r; lra. }
    pose proof (round_upper _ Hx) as R1.
    destruct (round_pos_bounds _ Hx) as [R1pos _].
    pose proof (pow2_pos (mag (P / T))) as PM.
    set (r1 := round (P / T)) in *.
    assert (Hr1 : 0 < r1 * 100) by lra.
    pose proof (round_upper _ Hr1) as R2.
    set (r2 := round (r1 * 100)) in *.
    change (inject_Z (2 ^ 53)) with (9007199254740992 # 1) in *.
    assert (H4 : 1 / (9007199254740992 # 1) == 1 # 9007199254740992) by reflexivity.
    rewrite H4 in R1, R2.
    set (x := P / T) in *.
    assert (B1 : r1 * 100 <= x * 100 * (1 + (1 # 9007199254740992))) by lra.
    assert (B2 : r1 * 100 <= (C - (1 # 4294967296)) * (1 + (1 # 9007199254740992))).
    { eapply Qle_trans; [exact B1|]. apply Qmult_le_compat_r; lra. }
    assert (B3 : r2 <= (C - (1 # 4294967296)) * (1 + (1 # 9007199254740992))
                       * (1 + (1 # 9007199254740992))).
    { eapply Qle_trans; [exact R2|]. apply Qmult_le_compat_r; lra. }
    assert (B4 : (C - (1 # 4294967296)) * (1 + (1 # 9007199254740992))
                 * (1 + (1 # 9007199254740992)) < C).
    { assert (E : (C - (1 # 4294967296)) * (1 + (1 # 9007199254740992))
                  * (1 + (1 # 9007199254740992)) ==
                  C * ((1 + (1 # 9007199254740992)) * (1 + (1 # 9007199254740992)))
                  - (1 # 4294967296) * ((1 + (1 # 9007199254740992))
                                        * (1 + (1 # 9007199254740992)))) by ring.
      rewrite E.
      assert (K1 : (1 + (1 # 9007199254740992)) * (1 + (1 # 9007199254740992)) <=
                   1 + (1 # 4000000000000000)) by (vm_compute; discriminate).
      assert (K2 : 1 <= (1 + (1 # 9007199254740992)) * (1 + (1 # 9007199254740992)))
        by (vm_compute; discriminate).
      set (k := (1 + (1 # 9007199254740992)) * (1 + (1 # 9007199254740992))) in *.
      assert (K3 : C * k <= C * (1 + (1 # 4000000000000000))).
      { rewrite !(Qmult_comm C). apply Qmult_le_compat_r; lra. }
      lra. }
    lra.
Qed.

(** A rate at or above a threshold that survives the two roundings stays at
    or above it. *)
Lemma rate_above (p t c : Z) :
  (0 <= p)%Z -> (0 < t)%Z -> (0 <= c)%Z ->
  round (round (inject_Z c / 100) * 100) == inject_Z c ->
  (c * t <= 100 * p)%Z ->
  inject_Z c <= round (round (inject_Z p / inject_Z t) * inject_Z 100).
Proof.
  intros Hp Ht Hc Hround Hle.
  rewrite <- Hround. change (inject_Z 100) with 100.
  assert (Hq : inject_Z c / 100 <= inject_Z p / inject_Z t).
  { change 100 with (inject_Z 100). apply ratio_le; lia. }
  assert (Hc0 : 0 <= inject_Z c / 100).
  { rewrite Zle_Qle in Hc. change (inject_Z 0) with 0 in Hc.
    apply Qle_shift_div_l; lra. }
  pose proof (round_nonneg _ Hc0) as R0.
  pose proof (round_mono _ _ Hc0 Hq) as R1.
  apply round_mono; lra.
Qed.

Lemma round_80 : round (round (inject_Z 80 / 100) * 100) == inject_Z 80.
Proof. vm_compute. reflexivity. Qed.

Lemma round_60 : round (round (inject_Z 60 / 100) * 100) == inject_Z 60.
Proof. vm_compute. reflexivity. Qed.

End RoundingError.

Lemma Qle_bool_false (x y : Q) : (y < x)%Q -> Qle_bool x y = false.
Proof.
  intros H. destruct (Qle_bool x y) eqn:E; [|reflexivity].
  apply Qle_bool_iff in E. exfalso. lra.
Qed.

(** The status of a compliance rate computed from two counters. *)
Lemma status_of_a_rate (p t : Z) :
  0 <= p -> 0 < t < 2 ^ 32 ->
  (number_geq (mul (div (of_Z p) (of_Z t)) (of_Z 100)) (of_Z 80) =
   (80 * t <=? 100 * p)) /\
  (number_geq (mul (div (of_Z p) (of_Z t)) (of_Z 100)) (of_Z 60) =
   (60 * t <=? 100 * p)).
Proof.
  intros Hp Ht. unfold div, mul, of_Z, number_geq.
  rewrite (Qeq_bool_inject_Z t) by lia.
  split.
  - destruct (Z.leb_spec (80 * t) (100 * p)) as [H|H].
    + apply Qle_bool_iff. apply rate_above; try lia. exact round_80.
    + apply Qle_bool_false. apply rate_below; lia.
  - destruct (Z.leb_spec (60 * t) (100 * p)) as [H|H].
    + apply Qle_bool_iff. apply rate_above; try lia. exact round_60.
    + apply Qle_bool_false. apply rate_below; lia.
Qed.

(** X19.  [getOverallStatus] compares the unrounded compliance rate, a
    binary64 number, with 80 and 60.  On a result of [executeCompliance]
    (with fewer than 2^32 rules, as many as an array can hold) the rounding
    never moves the rate across a threshold: the status is Good exactly
    when at least 80% of the selected rules passed, Acceptable when at
    least 60% did, and Needs Improvement otherwise, as it is when no rule
    was selected. *)
Theorem overall_status_thresholds_are_exact (env : Env.t) (this : RuleEngine.t)
  (inputData : value) (options : Options.t) (tr tr' : trace)
  (results : EvaluationResult.t) :
  executeCompliance env this inputData options tr = (Ok results, tr') ->
  EvaluationResult.total_rules results < 2 ^ 32 ->
  getOverallStatus results =
  if EvaluationResult.total_rules results =? 0 then "Needs Improvement"
  else if 80 * EvaluationResult.total_rules results <=?
          100 * EvaluationResult.passed_rules results then "Good"
  else if 60 * EvaluationResult.total_rules results <=?
          100 * EvaluationResult.passed_rules results then "Acceptable"
  else "Needs Improvement".
Proof.
  intros E Hsmall. destruct (counters_bounds _ _ _ _ _ _ _ E) as (Pa & Fa & Sk & Le).
  unfold getOverallStatus. rewrite Sk, Z.sub_0_r.
  destruct (Z.eqb_spec (EvaluationResult.total_rules results) 0) as [Z0|NZ].
  - assert (P0 : EvaluationResult.passed_rules results = 0) by lia.
    rewrite Z0, P0. reflexivity.
  - destruct (status_of_a_rate (EvaluationResult.passed_rules results)
                (EvaluationResult.total_rules results)) as [H80 H60];
      [lia|lia|].
    rewrite H80, H60. reflexivity.
Qed.

Lemma overall_status_thresholds_are_exact_witness :
  getOverallStatus Sample.result_all = "Needs Improvement".
Proof.
  rewrite (overall_status_thresholds_are_exact Sample.env Sample.engine_four
             Sample.snapshot Options.empty [] (snd Sample.run_all)
             Sample.result_all).
  - reflexivity.
  - vm_compute. reflexivity.
  - vm_compute. reflexivity.
Defined.

(** ** The input summary *)

Lemma Obj_get_In_keys {V : Type} (o : list (string * V)) (k : string) (v : V) :
  Obj_get o k = Some v -> In k (map fst o).
Proof.
  induction o as [|[k' v'] o IH]; simpl; [discriminate|].
  destruct (String.eqb_spec k' k) as [->|N]; [now left|]. intros H. right. auto.
Qed.

Lemma truthy_section_is_a_key (props : list (string * value)) (k : string) :
  truthy (get_prop (VObj props) k) = true -> In k (map fst props).
Proof.
  simpl. destruct (Obj_get props k) as [v|] eqn:G; [|discriminate].
  intros _. now apply Obj_get_In_keys in G.
Qed.

(** X20.  The input summary of a result is consistent: on an object
    snapshot [data_sources] holds the property names of the snapshot, each
    once (array indices first), and a section that is flagged as present
    ([has_system_info], [has_security_config], [has_services],
    [has_network]) is named in [data_sources]. *)
Theorem flagged_sections_are_data_sources (env : Env.t) (this : RuleEngine.t)
  (inputData : value) (options : Options.t) (tr tr' : trace)
  (results : EvaluationResult.t) :
  executeCompliance env this inputData options tr = (Ok results, tr') ->
  let summary := EvaluationResult.input_data_summary results in
  (forall props,
      inputData = VObj props ->
      Permutation (InputSummary.data_sources summary) (map fst props)) /\
  (InputSummary.has_system_info summary = true ->
   In "system_info" (InputSummary.data_sources summary)) /\
  (InputSummary.has_security_config summary = true ->
   In "security_config" (InputSummary.data_sources summary)) /\
  (InputSummary.has_services summary = true ->
   In "services" (InputSummary.data_sources summary)) /\
  (InputSummary.has_network summary = true ->
   In "network" (InputSummary.data_sources summary)).
Proof.
  intros E summary.
  apply executeCompliance_Ok in E as (_ & S & _). fold summary in S.
  unfold summarizeInputData, bind in S.
  assert (Hobj : forall props,
             inputData = VObj props ->
             Permutation (InputSummary.data_sources summary) (map fst props) /\
             InputSummary.has_system_info summary =
             truthy (get_prop inputData "system_info") /\
             InputSummary.has_security_config summary =
             truthy (get_prop inputData "security_config") /\
             InputSummary.has_services summary =
             truthy (get_prop inputData "services") /\
             InputSummary.has_network summary =
             truthy (get_prop inputData "network")).
  { intros props ->. cbn [Object_keys ret] in S.
    destruct (JSON_stringify (VObj props)) as [json|]; [|discriminate].
    cbn [deref ret] in S. injection S as S. rewrite <- S.
    cbn [InputSummary.data_sources InputSummary.has_system_info
           InputSummary.has_security_config InputSummary.has_services
           InputSummary.has_network].
    split; [apply Permutation_map, Object_entries_perm|]. repeat split. }
  destruct inputData as [| |b|n|s|items|props].
  1-6: split; [intros props Hp; discriminate|];
    cbn in S; try discriminate; injection S as S; rewrite <- S;
    cbn; repeat split; discriminate.
  destruct (Hobj props eq_refl) as (Perm & H1 & H2 & H3 & H4).
  split; [intros props' Hp; injection Hp as <-; exact Perm|].
  rewrite H1, H2, H3, H4.
  repeat split; intros Ht; apply (Permutation_in _ (Permutation_sym Perm));
    now apply truthy_section_is_a_key.
Qed.

Lemma flagged_sections_are_data_sources_witness :
  In "system_info"
    (InputSummary.data_sources
       (EvaluationResult.input_data_summary Sample.result_all)).
Proof.
  destruct (flagged_sections_are_data_sources Sample.env Sample.engine_four
              Sample.snapshot Options.empty [] (snd Sample.run_all)
              Sample.result_all) as (_ & H & _).
  - vm_compute. reflexivity.
  - apply H. vm_compute. reflexivity.
Defined.

(* ================================================================== *)
(** * Names inherited from [Object.prototype] *)

(** ** The risk score of a framework *)

(** X21.  [getSeverityWeight] returns the weight of the table (critical=4,
    high=3, medium=2, low=1, and 1 for any other or missing severity),
    except for a severity that names a member of [Object.prototype], for
    which it returns that member.  The risk score of a framework is
    round(sum of the weights of the FAIL outcomes / sum of the weights of
    the outcomes that are not SKIP x 100), and 0 when the denominator is 0,
    unless an outcome that is not SKIP has such a severity: then it is 0. *)
Theorem risk_score_formula_and_inherited_names (r : FrameworkResult.t) :
  FrameworkResult.total r = Z.of_nat (List.length (FrameworkResult.rule_results r)) ->
  FrameworkResult.skipped r = count_status SKIP (FrameworkResult.rule_results r) ->
  (forall severity,
      getSeverityWeight severity =
      if inherited_severity severity then Member else Plain (spec_weight severity)) /\
  calculateFrameworkRiskScore r =
  if counts_a_member (fun s => negb (status_eqb s SKIP))
       (FrameworkResult.rule_results r)
  then of_Z 0
  else spec_risk_score (FrameworkResult.rule_results r).
Proof.
  intros To Sk. split; [exact getSeverityWeight_eq|].
  rewrite calculateFrameworkRiskScore_cases, To, Sk. unfold spec_risk_score.
  destruct (Z.eqb_spec
              (Z.of_nat (List.length (FrameworkResult.rule_results r))
               - count_status SKIP (FrameworkResult.rule_results r)) 0) as [Z0|NZ].
  - destruct (all_skipped_weigh_nothing _ Z0) as [-> ->]. reflexivity.
  - pose proof (counted_weight_positive _ NZ) as P.
    destruct (counts_a_member _ _); [reflexivity|].
    destruct (Z.gtb_spec
                (spec_weight_sum (fun s => negb (status_eqb s SKIP))
                   (FrameworkResult.rule_results r)) 0); [|lia].
    destruct (Z.eqb_spec
                (spec_weight_sum (fun s => negb (status_eqb s SKIP))
                   (FrameworkResult.rule_results r)) 0); [lia|reflexivity].
Qed.

Lemma risk_score_formula_and_inherited_names_witness :
  calculateFrameworkRiskScore
    (Sample.framework_result
       [Sample.outcome FAIL (Some "critical"); Sample.outcome PASS (Some "low");
        Sample.outcome SKIP (Some "toString"); Sample.outcome ERROR None]) =
  of_Z 67 /\
  calculateFrameworkRiskScore
    (Sample.framework_result
       [Sample.outcome FAIL (Some "critical");
        Sample.outcome PASS (Some "toString")]) =
  of_Z 0.
Proof.
  split.
  - destruct (risk_score_formula_and_inherited_names
                (Sample.framework_result
                   [Sample.outcome FAIL (Some "critical");
                    Sample.outcome PASS (Some "low");
                    Sample.outcome SKIP (Some "toString");
                    Sample.outcome ERROR None])) as [_ H];
      [reflexivity|reflexivity|].
    rewrite H. vm_compute. reflexivity.
  - destruct (risk_score_formula_and_inherited_names
                (Sample.framework_result
                   [Sample.outcome FAIL (Some "critical");
                    Sample.outcome PASS (Some "toString")])) as [_ H];
      [reflexivity|reflexivity|].
    rewrite H. vm_compute. reflexivity.
Defined.

(** ** When [executeCompliance] fails *)

(** X22.  For a catalog built through the registration methods,
    [executeCompliance] fails in two cases only, and then before any
    predicate is called: on a snapshot that is [undefined] or [null], and
    when a selected rule has a framework code that names a member of
    [Object.prototype], with the [TypeError] of [groupRulesByFramework]. *)
Theorem executeCompliance_fails_before_the_rules_only (env : Env.t)
  (this : RuleEngine.t) (inputData : value) (options : Options.t) (tr : trace) :
  reachable this ->
  match executeCompliance env this inputData options tr with
  | (Ok results, tr') =>
      nullish inputData = false /\
      Forall (fun rule => inherited (Rule.framework rule) = false)
        (filterRules this (Options.frameworks options) (Options.categories options)
           (Options.severity options))
  | (Throw error, tr') =>
      tr' = tr /\
      (nullish inputData = true \/
       error = ThrownError "groups[rule.framework].push is not a function" /\
       Exists (fun rule => inherited (Rule.framework rule) = true)
         (filterRules this (Options.frameworks options) (Options.categories options)
            (Options.severity options)))
  end.
Proof.
  intros R.
  destruct (nullish inputData) eqn:N.
  - pose proof (summarizeInputData_spec inputData tr) as S. rewrite N in S.
    destruct S as (e & S). unfold executeCompliance, bind. rewrite S.
    split; [reflexivity|now left].
  - destruct (existsb (fun rule => inherited (Rule.framework rule))
                (filterRules this (Options.frameworks options)
                   (Options.categories options) (Options.severity options)))
      eqn:Ex.
    + rewrite (executeCompliance_inherited env this inputData options tr N Ex).
      split; [reflexivity|]. right. split; [reflexivity|].
      apply Exists_exists. apply existsb_exists in Ex. exact Ex.
    + assert (H : Forall (fun rule => inherited (Rule.framework rule) = false)
                    (filterRules this (Options.frameworks options)
                       (Options.categories options) (Options.severity options))).
      { apply Forall_forall. intros rule Hin.
        destruct (inherited (Rule.framework rule)) eqn:I; [|reflexivity].
        rewrite <- Ex. symmetry. apply existsb_exists. eauto. }
      destruct (executeCompliance_total env this inputData options tr R N H)
        as (results & tr' & ->).
      split; [reflexivity|exact H].
Qed.

Lemma executeCompliance_fails_before_the_rules_only_witness :
  executeCompliance Sample.env Sample.engine_inherited Sample.snapshot
    Options.empty [] =
  (Throw (ThrownError "groups[rule.framework].push is not a function"), []) /\
  Exists (fun rule => inherited (Rule.framework rule) = true)
    (filterRules Sample.engine_inherited None None None).
Proof.
  pose proof (executeCompliance_fails_before_the_rules_only Sample.env
                Sample.engine_inherited Sample.snapshot Options.empty []) as H.
  assert (R : reachable Sample.engine_inherited).
  { unfold Sample.engine_inherited. repeat constructor. }
  specialize (H R). vm_compute in H.
  split; [vm_compute; reflexivity|].
  destruct H as [_ [H|[_ H]]]; [discriminate|exact H].
Defined.
